(** * AML investigation pipeline: a shallow embedding of the repository's
    decision workflow (app/agents/production_workflow.py), its pattern
    detectors (app/agents/tools/production_analysis_tools.py) and its batch
    evaluator (app/services/batch_processor.py), with the properties the
    specification states about them. *)

From Stdlib Require Import ZArith QArith Qabs String Ascii List Sorted Lia Bool.
From stdpp Require Import base gmap strings list.

Local Open Scope Z_scope.

(** ** Python string helpers *)

Module PyStr.

(** [needle in hay] on Python strings: substring search. *)
Fixpoint contains (needle hay : string) : bool :=
  String.prefix needle hay ||
  match hay with
  | EmptyString => false
  | String _ rest => contains needle rest
  end.

(** [x in xs] for a list of strings. *)
Definition mem (x : string) (xs : list string) : bool :=
  existsb (String.eqb x) xs.

(** [x in xs] where [x] may be [None] ([dict.get] without a default):
    [None] is never a member of a list of strings. *)
Definition omem (x : option string) (xs : list string) : bool :=
  match x with Some v => mem v xs | None => false end.

Definition lower_ascii (c : ascii) : ascii :=
  let n := nat_of_ascii c in
  if (65 <=? n)%nat && (n <=? 90)%nat then ascii_of_nat (n + 32) else c.

(** [str.lower()], on the ASCII range. *)
Fixpoint lower (s : string) : string :=
  match s with
  | EmptyString => EmptyString
  | String c rest => String (lower_ascii c) (lower rest)
  end.

End PyStr.

(** ** Configuration constants (production_workflow.py, lines 43-78) *)

Definition HIGH_RISK_COUNTRIES : list string :=
  ["AF"; "IR"; "KP"; "SY"; "VE"; "CU"; "BY"; "MM"; "ZW"; "RU"]%string.
Definition TAX_HAVENS : list string :=
  ["KY"; "VG"; "BM"; "PA"; "MT"; "AE"; "LI"; "MC"; "AN"]%string.
Definition SANCTIONED_ENTITIES : list string :=
  ["narcotics_cartel_xyz"; "terror_group_abc"; "sanctioned_russian_bank";
   "hezbollah_front_company"; "isis_financial_network"]%string.
Definition DARKNET_MARKETS : list string :=
  ["AlphaMarket"; "Dark0d3"; "Hydra"; "Silk_Road_Reborn"; "Dream_Market"]%string.
Definition HIGH_RISK_BANKS : list string :=
  ["03208"; "03209"; "0211050"; "0245335"]%string.
Definition CTR_THRESHOLD : Q := 10000%Q.
(** 95% of the threshold (line 66).  No function of the module reads it. *)
Definition SUSPICIOUS_THRESHOLD : Q := (CTR_THRESHOLD * 0.95)%Q.

(** ** Data model *)

(** Strict comparison of amounts and scores ([a < b] on Python floats,
    read over the rationals). *)
Definition Qltb (a b : Q) : bool := negb (Qle_bool b a).

(** [transaction["crypto_details"]]; a field is [None] when the key is
    absent, so that [dict.get] can supply its default. *)
Record CryptoDetails := mkCryptoDetails {
  mixer_used : option bool;
  darknet_market : option string;
  wallet_age_days : option Z;
  cross_chain_swaps : option Z
}.

(** The unified transaction dictionary, through the keys the stages read.
    A field is [None] when its key is absent; a key that is present holds a
    value of the type the stages expect (a string, a number, a list).
    Timestamps are microseconds on the [datetime] time line. *)
Record Transaction := mkTransaction {
  tx_asset_type : option string;
  tx_amount : option Q;
  tx_from_bank : option string;
  tx_to_bank : option string;
  tx_origin_country : option string;
  tx_destination_country : option string;
  tx_country : option string;
  tx_intermediate_countries : option (list string);
  tx_crypto_details : option CryptoDetails;
  tx_parties : option (list string);
  tx_counterparty_id : option string;
  tx_timestamp : option Z
}.

(** The customer dictionary, through the keys the stages read. *)
Record Customer := mkCustomer {
  cust_name : option string;
  account_age_days : option Z;
  transaction_history : option (list Transaction)
}.

(** Entries of [state["llm_analysis"]]: an analysis text or a list of
    extracted codes. *)
Inductive llm_value :=
| LText (text : string)
| LCodes (codes : list string).

(** The workflow state ([AMLState], lines 84-135). *)
Record AMLState := mkAMLState {
  transaction : Transaction;
  customer : Customer;
  from_bank : option string;
  to_bank : option string;
  payment_format : option string;
  ground_truth_label : option Z;
  risk_score : Z;
  alerts : list string;
  investigation : gmap string llm_value;
  llm_analysis : gmap string llm_value;
  risk_factors : list string;
  decision_path : list string;
  pep_status : option bool;
  sanction_hits : list string;
  documents : list string;
  document_risks : list string;
  asset_type : option string;
  crypto_details : option CryptoDetails;
  origin_country : option string;
  destination_country : option string;
  intermediate_countries : list string;
  structuring_detected : bool;
  smurfing_detected : bool;
  layering_detected : bool;
  reporting_status : option string;
  case_id : option string;
  sar_timestamp : option Z;
  review_status : option string;
  review_deadline : option Z;
  transaction_count : nat;
  workflow_complete : bool
}.

(** [{**state, key: v}] for each key a stage writes. *)
Definition set_risk_score (v : Z) (s : AMLState) : AMLState :=
  mkAMLState (transaction s) (customer s) (from_bank s) (to_bank s)
  (payment_format s) (ground_truth_label s) v (alerts s) (investigation s)
  (llm_analysis s) (risk_factors s) (decision_path s) (pep_status s)
  (sanction_hits s) (documents s) (document_risks s) (asset_type s)
  (crypto_details s) (origin_country s) (destination_country s)
  (intermediate_countries s) (structuring_detected s) (smurfing_detected s)
  (layering_detected s) (reporting_status s) (case_id s) (sar_timestamp s)
  (review_status s) (review_deadline s) (transaction_count s)
  (workflow_complete s).

Definition set_alerts (v : list string) (s : AMLState) : AMLState :=
  mkAMLState (transaction s) (customer s) (from_bank s) (to_bank s)
  (payment_format s) (ground_truth_label s) (risk_score s) v (investigation s)
  (llm_analysis s) (risk_factors s) (decision_path s) (pep_status s)
  (sanction_hits s) (documents s) (document_risks s) (asset_type s)
  (crypto_details s) (origin_country s) (destination_country s)
  (intermediate_countries s) (structuring_detected s) (smurfing_detected s)
  (layering_detected s) (reporting_status s) (case_id s) (sar_timestamp s)
  (review_status s) (review_deadline s) (transaction_count s)
  (workflow_complete s).

Definition set_llm_analysis (v : gmap string llm_value) (s : AMLState) : AMLState :=
  mkAMLState (transaction s) (customer s) (from_bank s) (to_bank s)
  (payment_format s) (ground_truth_label s) (risk_score s) (alerts s)
  (investigation s) v (risk_factors s) (decision_path s) (pep_status s)
  (sanction_hits s) (documents s) (document_risks s) (asset_type s)
  (crypto_details s) (origin_country s) (destination_country s)
  (intermediate_countries s) (structuring_detected s) (smurfing_detected s)
  (layering_detected s) (reporting_status s) (case_id s) (sar_timestamp s)
  (review_status s) (review_deadline s) (transaction_count s)
  (workflow_complete s).

Definition set_risk_factors (v : list string) (s : AMLState) : AMLState :=
  mkAMLState (transaction s) (customer s) (from_bank s) (to_bank s)
  (payment_format s) (ground_truth_label s) (risk_score s) (alerts s)
  (investigation s) (llm_analysis s) v (decision_path s) (pep_status s)
  (sanction_hits s) (documents s) (document_risks s) (asset_type s)
  (crypto_details s) (origin_country s) (destination_country s)
  (intermediate_countries s) (structuring_detected s) (smurfing_detected s)
  (layering_detected s) (reporting_status s) (case_id s) (sar_timestamp s)
  (review_status s) (review_deadline s) (transaction_count s)
  (workflow_complete s).

Definition set_decision_path (v : list string) (s : AMLState) : AMLState :=
  mkAMLState (transaction s) (customer s) (from_bank s) (to_bank s)
  (payment_format s) (ground_truth_label s) (risk_score s) (alerts s)
  (investigation s) (llm_analysis s) (risk_factors s) v (pep_status s)
  (sanction_hits s) (documents s) (document_risks s) (asset_type s)
  (crypto_details s) (origin_country s) (destination_country s)
  (intermediate_countries s) (structuring_detected s) (smurfing_detected s)
  (layering_detected s) (reporting_status s) (case_id s) (sar_timestamp s)
  (review_status s) (review_deadline s) (transaction_count s)
  (workflow_complete s).

Definition set_pep_status (v : option bool) (s : AMLState) : AMLState :=
  mkAMLState (transaction s) (customer s) (from_bank s) (to_bank s)
  (payment_format s) (ground_truth_label s) (risk_score s) (alerts s)
  (investigation s) (llm_analysis s) (risk_factors s) (decision_path s) v
  (sanction_hits s) (documents s) (document_risks s) (asset_type s)
  (crypto_details s) (origin_country s) (destination_country s)
  (intermediate_countries s) (structuring_detected s) (smurfing_detected s)
  (layering_detected s) (reporting_status s) (case_id s) (sar_timestamp s)
  (review_status s) (review_deadline s) (transaction_count s)
  (workflow_complete s).

Definition set_sanction_hits (v : list string) (s : AMLState) : AMLState :=
  mkAMLState (transaction s) (customer s) (from_bank s) (to_bank s)
  (payment_format s) (ground_truth_label s) (risk_score s) (alerts s)
  (investigation s) (llm_analysis s) (risk_factors s) (decision_path s)
  (pep_status s) v (documents s) (document_risks s) (asset_type s)
  (crypto_details s) (origin_country s) (destination_country s)
  (intermediate_countries s) (structuring_detected s) (smurfing_detected s)
  (layering_detected s) (reporting_status s) (case_id s) (sar_timestamp s)
  (review_status s) (review_deadline s) (transaction_count s)
  (workflow_complete s).

Definition set_document_risks (v : list string) (s : AMLState) : AMLState :=
  mkAMLState (transaction s) (customer s) (from_bank s) (to_bank s)
  (payment_format s) (ground_truth_label s) (risk_score s) (alerts s)
  (investigation s) (llm_analysis s) (risk_factors s) (decision_path s)
  (pep_status s) (sanction_hits s) (documents s) v (asset_type s)
  (crypto_details s) (origin_country s) (destination_country s)
  (intermediate_countries s) (structuring_detected s) (smurfing_detected s)
  (layering_detected s) (reporting_status s) (case_id s) (sar_timestamp s)
  (review_status s) (review_deadline s) (transaction_count s)
  (workflow_complete s).

Definition set_crypto_details (v : option CryptoDetails) (s : AMLState) : AMLState :=
  mkAMLState (transaction s) (customer s) (from_bank s) (to_bank s)
  (payment_format s) (ground_truth_label s) (risk_score s) (alerts s)
  (investigation s) (llm_analysis s) (risk_factors s) (decision_path s)
  (pep_status s) (sanction_hits s) (documents s) (document_risks s)
  (asset_type s) v (origin_country s) (destination_country s)
  (intermediate_countries s) (structuring_detected s) (smurfing_detected s)
  (layering_detected s) (reporting_status s) (case_id s) (sar_timestamp s)
  (review_status s) (review_deadline s) (transaction_count s)
  (workflow_complete s).

Definition set_origin_country (v : option string) (s : AMLState) : AMLState :=
  mkAMLState (transaction s) (customer s) (from_bank s) (to_bank s)
  (payment_format s) (ground_truth_label s) (risk_score s) (alerts s)
  (investigation s) (llm_analysis s) (risk_factors s) (decision_path s)
  (pep_status s) (sanction_hits s) (documents s) (document_risks s)
  (asset_type s) (crypto_details s) v (destination_country s)
  (intermediate_countries s) (structuring_detected s) (smurfing_detected s)
  (layering_detected s) (reporting_status s) (case_id s) (sar_timestamp s)
  (review_status s) (review_deadline s) (transaction_count s)
  (workflow_complete s).

Definition set_destination_country (v : option string) (s : AMLState) : AMLState :=
  mkAMLState (transaction s) (customer s) (from_bank s) (to_bank s)
  (payment_format s) (ground_truth_label s) (risk_score s) (alerts s)
  (investigation s) (llm_analysis s) (risk_factors s) (decision_path s)
  (pep_status s) (sanction_hits s) (documents s) (document_risks s)
  (asset_type s) (crypto_details s) (origin_country s) v
  (intermediate_countries s) (structuring_detected s) (smurfing_detected s)
  (layering_detected s) (reporting_status s) (case_id s) (sar_timestamp s)
  (review_status s) (review_deadline s) (transaction_count s)
  (workflow_complete s).

Definition set_intermediate_countries (v : list string) (s : AMLState) : AMLState :=
  mkAMLState (transaction s) (customer s) (from_bank s) (to_bank s)
  (payment_format s) (ground_truth_label s) (risk_score s) (alerts s)
  (investigation s) (llm_analysis s) (risk_factors s) (decision_path s)
  (pep_status s) (sanction_hits s) (documents s) (document_risks s)
  (asset_type s) (crypto_details s) (origin_country s) (destination_country s)
  v (structuring_detected s) (smurfing_detected s) (layering_detected s)
  (reporting_status s) (case_id s) (sar_timestamp s) (review_status s)
  (review_deadline s) (transaction_count s) (workflow_complete s).

Definition set_structuring_detected (v : bool) (s : AMLState) : AMLState :=
  mkAMLState (transaction s) (customer s) (from_bank s) (to_bank s)
  (payment_format s) (ground_truth_label s) (risk_score s) (alerts s)
  (investigation s) (llm_analysis s) (risk_factors s) (decision_path s)
  (pep_status s) (sanction_hits s) (documents s) (document_risks s)
  (asset_type s) (crypto_details s) (origin_country s) (destination_country s)
  (intermediate_countries s) v (smurfing_detected s) (layering_detected s)
  (reporting_status s) (case_id s) (sar_timestamp s) (review_status s)
  (review_deadline s) (transaction_count s) (workflow_complete s).

Definition set_reporting_status (v : option string) (s : AMLState) : AMLState :=
  mkAMLState (transaction s) (customer s) (from_bank s) (to_bank s)
  (payment_format s) (ground_truth_label s) (risk_score s) (alerts s)
  (investigation s) (llm_analysis s) (risk_factors s) (decision_path s)
  (pep_status s) (sanction_hits s) (documents s) (document_risks s)
  (asset_type s) (crypto_details s) (origin_country s) (destination_country s)
  (intermediate_countries s) (structuring_detected s) (smurfing_detected s)
  (layering_detected s) v (case_id s) (sar_timestamp s) (review_status s)
  (review_deadline s) (transaction_count s) (workflow_complete s).

Definition set_case_id (v : option string) (s : AMLState) : AMLState :=
  mkAMLState (transaction s) (customer s) (from_bank s) (to_bank s)
  (payment_format s) (ground_truth_label s) (risk_score s) (alerts s)
  (investigation s) (llm_analysis s) (risk_factors s) (decision_path s)
  (pep_status s) (sanction_hits s) (documents s) (document_risks s)
  (asset_type s) (crypto_details s) (origin_country s) (destination_country s)
  (intermediate_countries s) (structuring_detected s) (smurfing_detected s)
  (layering_detected s) (reporting_status s) v (sar_timestamp s)
  (review_status s) (review_deadline s) (transaction_count s)
  (workflow_complete s).

Definition set_sar_timestamp (v : option Z) (s : AMLState) : AMLState :=
  mkAMLState (transaction s) (customer s) (from_bank s) (to_bank s)
  (payment_format s) (ground_truth_label s) (risk_score s) (alerts s)
  (investigation s) (llm_analysis s) (risk_factors s) (decision_path s)
  (pep_status s) (sanction_hits s) (documents s) (document_risks s)
  (asset_type s) (crypto_details s) (origin_country s) (destination_country s)
  (intermediate_countries s) (structuring_detected s) (smurfing_detected s)
  (layering_detected s) (reporting_status s) (case_id s) v (review_status s)
  (review_deadline s) (transaction_count s) (workflow_complete s).

Definition set_review_status (v : option string) (s : AMLState) : AMLState :=
  mkAMLState (transaction s) (customer s) (from_bank s) (to_bank s)
  (payment_format s) (ground_truth_label s) (risk_score s) (alerts s)
  (investigation s) (llm_analysis s) (risk_factors s) (decision_path s)
  (pep_status s) (sanction_hits s) (documents s) (document_risks s)
  (asset_type s) (crypto_details s) (origin_country s) (destination_country s)
  (intermediate_countries s) (structuring_detected s) (smurfing_detected s)
  (layering_detected s) (reporting_status s) (case_id s) (sar_timestamp s) v
  (review_deadline s) (transaction_count s) (workflow_complete s).

Definition set_review_deadline (v : option Z) (s : AMLState) : AMLState :=
  mkAMLState (transaction s) (customer s) (from_bank s) (to_bank s)
  (payment_format s) (ground_truth_label s) (risk_score s) (alerts s)
  (investigation s) (llm_analysis s) (risk_factors s) (decision_path s)
  (pep_status s) (sanction_hits s) (documents s) (document_risks s)
  (asset_type s) (crypto_details s) (origin_country s) (destination_country s)
  (intermediate_countries s) (structuring_detected s) (smurfing_detected s)
  (layering_detected s) (reporting_status s) (case_id s) (sar_timestamp s)
  (review_status s) v (transaction_count s) (workflow_complete s).

(** ** External collaborators

    The language-model calls, the regular-expression scan of their answers,
    the clock and the hash used for case numbers are outside the pipeline;
    a run is described relative to what they return. *)
Record Env := mkEnv {
  (** answer of the analysis chain for a topic, given the state it is shown *)
  llm : string -> AMLState -> string;
  (** [re.findall(r"\b[A-Z_]{n,}\b", text)] *)
  findall_codes : nat -> string -> list string;
  (** [datetime.datetime.now()] as read by each stage that asks for it *)
  now_behavior : Z;
  now_case : Z;
  now_sar : Z;
  now_review : Z;
  (** [str(datetime)] and [hashlib.sha256(..).hexdigest()] *)
  str_datetime : Z -> string;
  sha256_hexdigest : string -> string
}.

(** ** Utility functions (production_workflow.py, lines 153-200) *)

Definition generate_case_id (env : Env) : string :=
  let timestamp := str_datetime env (now_case env) in
  String.substring 0 12 (sha256_hexdigest env timestamp).

Definition pep_keywords : list string :=
  ["gov"; "minister"; "official"; "senator"; "president"; "director";
   "ambassador"]%string.

Definition check_pep_database (name : string) : bool :=
  existsb (fun keyword => PyStr.contains keyword (PyStr.lower name)) pep_keywords.

Definition check_sanctions_list (entities : list string) : list string :=
  flat_map (fun entity =>
    flat_map (fun sanctioned =>
      if PyStr.contains (PyStr.lower sanctioned) (PyStr.lower entity)
      then [entity] else []) SANCTIONED_ENTITIES) entities.

Definition update_path (s : AMLState) (step : string) : AMLState :=
  set_decision_path (decision_path s ++ [step]) s.

(** ** Statistics used by the behavioural stage *)

Definition Qsum (xs : list Q) : Q := fold_right Qplus 0%Q xs.

Definition Qmean (xs : list Q) : Q := (Qsum xs / inject_Z (Z.of_nat (length xs)))%Q.

(** Sum of squared deviations from the mean. *)
Definition sq_dev (xs : list Q) : Q :=
  let m := Qmean xs in Qsum (map (fun x => ((x - m) * (x - m))%Q) xs).

(** [statistics.variance]: the sample variance (divisor n - 1). *)
Definition sample_variance (xs : list Q) : Q :=
  (sq_dev xs / inject_Z (Z.of_nat (length xs) - 1))%Q.

(** [statistics.stdev(xs) < c] for a ceiling [c >= 0], decided on the
    variance: sqrt(v) < c exactly when v < c * c. *)
Definition stdev_lt (xs : list Q) (c : Q) : bool :=
  Qltb (sample_variance xs) (c * c)%Q.

(** ** Stage functions (production_workflow.py, lines 316-760) *)

Definition amount_of (tx : Transaction) : Q := default 0%Q (tx_amount tx).

Definition day_us : Z := 86400 * 1000000.

(** [timedelta.days]: whole days, rounded towards minus infinity. *)
Definition timedelta_days (delta_us : Z) : Z := delta_us / day_us.

Definition async_document_analysis (env : Env) (s : AMLState) : AMLState :=
  let s := update_path s "document_analysis" in
  match documents s with
  | [] => set_alerts (alerts s ++ ["MISSING_DOCUMENTS"%string]) s
  | _ :: _ =>
      let analysis := llm env "document" s in
      let risk_codes := findall_codes env 4 analysis in
      set_document_risks risk_codes
        (set_risk_factors (risk_factors s ++ risk_codes)
          (set_llm_analysis
            (<["document_analysis_detail"%string := LText analysis]>
              (<["document_risks"%string := LCodes risk_codes]> (llm_analysis s)))
            s))
  end.

Definition country_flags (country : string) : list string :=
  (if PyStr.mem country HIGH_RISK_COUNTRIES
   then [("HIGH_RISK_" +:+ country)%string] else []) ++
  (if PyStr.mem country TAX_HAVENS
   then [("TAX_HAVEN_" +:+ country)%string] else []).

Definition geographic_risk_assessment (s : AMLState) : AMLState :=
  let s := update_path s "geo_analysis" in
  let tx := transaction s in
  let locations :=
    [default ""%string (tx_origin_country tx);
     default ""%string (tx_destination_country tx);
     default ""%string (tx_country tx)]
    ++ default [] (tx_intermediate_countries tx) in
  let locations := List.filter (fun loc => negb (String.eqb loc "")) locations in
  let new_factors := flat_map country_flags locations in
  set_intermediate_countries (default [] (tx_intermediate_countries tx))
    (set_destination_country (tx_destination_country tx)
      (set_origin_country (tx_origin_country tx)
        (set_risk_factors (risk_factors s ++ new_factors) s))).

(** The transactions the behavioural stage looks at: the history entries
    less than one whole day before the current timestamp, then the current
    transaction. *)
Definition recent_transactions (env : Env) (s : AMLState) : list Transaction :=
  let history := default [] (transaction_history (customer s)) in
  let current := transaction s in
  let current_timestamp := default (now_behavior env) (tx_timestamp current) in
  List.filter (fun tx =>
      let tx_timestamp := default current_timestamp (tx_timestamp tx) in
      timedelta_days (current_timestamp - tx_timestamp) <? 1) history
  ++ [current].

Definition structuring_alerts (recent_txs : list Transaction) : list string :=
  (if (3 <? length recent_txs)%nat
   then if forallb (fun tx => Qltb (amount_of tx) CTR_THRESHOLD) recent_txs
        then ["STRUCTURING_PATTERN"%string] else []
   else []) ++
  (if (5 <? length recent_txs)%nat
   then let amounts := map amount_of recent_txs in
        if (1 <? length amounts)%nat && stdev_lt amounts 500
        then ["UNIFORM_TRANSACTIONS"%string] else []
   else []).

Definition async_behavioral_analysis (env : Env) (s : AMLState) : AMLState :=
  let s := update_path s "behavior_analysis" in
  let recent_txs := recent_transactions env s in
  let structuring_alerts := structuring_alerts recent_txs in
  let analysis := llm env "behavioral" s in
  let behavioral_codes := findall_codes env 4 analysis in
  set_structuring_detected (PyStr.mem "STRUCTURING_PATTERN" structuring_alerts)
    (set_llm_analysis
      (<["behavioral_analysis"%string := LText analysis]> (llm_analysis s))
      (set_risk_factors (risk_factors s ++ behavioral_codes)
        (set_alerts (alerts s ++ structuring_alerts) s))).

Definition empty_crypto_details : CryptoDetails :=
  mkCryptoDetails None None None None.

Definition crypto_rule_risks (details : CryptoDetails) : list string :=
  (if default false (mixer_used details) then ["CRYPTO_MIXER"%string] else []) ++
  (if PyStr.omem (darknet_market details) DARKNET_MARKETS
   then ["DARKNET_CONNECTION"%string] else []) ++
  (if default 0 (wallet_age_days details) <? 7 then ["NEW_WALLET"%string] else []) ++
  (if 3 <? default 0 (cross_chain_swaps details)
   then ["COMPLEX_ROUTING"%string] else []).

Definition async_crypto_risk_analysis (env : Env) (s : AMLState) : AMLState :=
  let s := update_path s "crypto_analysis" in
  if negb (bool_decide (tx_asset_type (transaction s) = Some "CRYPTO"%string))
  then s
  else
    let details := default empty_crypto_details (tx_crypto_details (transaction s)) in
    let risks := crypto_rule_risks details in
    let analysis := llm env "crypto" s in
    let llm_risks := findall_codes env 4 analysis in
    let risks := risks ++ llm_risks in
    set_llm_analysis
      (<["crypto_analysis"%string := LText analysis]> (llm_analysis s))
      (set_crypto_details (Some details)
        (set_risk_factors (risk_factors s ++ risks) s)).

Definition sanctions_screening (s : AMLState) : AMLState :=
  let s := update_path s "sanctions_check" in
  let parties := default [] (tx_parties (transaction s)) in
  let parties := parties ++ [default ""%string (cust_name (customer s))] in
  let parties := parties ++ [default ""%string (tx_counterparty_id (transaction s))] in
  let hits := check_sanctions_list parties in
  set_risk_factors
    (risk_factors s ++ map (fun hit => ("SANCTION_HIT_" +:+ hit)%string) hits)
    (set_sanction_hits hits s).

Definition pep_screening (s : AMLState) : AMLState :=
  let s := update_path s "pep_check" in
  let customer_name := default ""%string (cust_name (customer s)) in
  let is_pep := check_pep_database customer_name in
  let risk_factors :=
    if is_pep then risk_factors s ++ ["PEP_CUSTOMER"%string] else risk_factors s in
  set_risk_factors risk_factors (set_pep_status (Some is_pep) s).

Definition async_enhanced_due_diligence (env : Env) (s : AMLState) : AMLState :=
  let s := update_path s "enhanced_dd" in
  let analysis := llm env "edd" s in
  let critical_risks := findall_codes env 3 analysis in
  set_llm_analysis
    (<["critical_risks"%string := LCodes critical_risks]>
      (<["edd_report"%string := LText analysis]> (llm_analysis s)))
    (set_risk_factors (risk_factors s ++ critical_risks) s).

Definition count_if {A} (p : A -> bool) (xs : list A) : Z :=
  Z.of_nat (length (List.filter p xs)).

Definition truthy (b : option bool) : bool := default false b.

Definition risk_scoring (s : AMLState) : AMLState :=
  let s := update_path s "risk_scoring" in
  let score := 0 in
  let sanction_hits := Z.of_nat (length (sanction_hits s)) in
  let score := score + 40 * sanction_hits in
  let score := if truthy (pep_status s) then score + 35 else score in
  let crypto_risks := count_if (PyStr.contains "CRYPTO") (risk_factors s) in
  let score := score + 25 * crypto_risks in
  let jurisdiction_risks :=
    count_if (fun rf => PyStr.contains "HIGH_RISK" rf || PyStr.contains "TAX_HAVEN" rf)
             (risk_factors s) in
  let score := score + 20 * jurisdiction_risks in
  let document_risks := Z.of_nat (length (document_risks s)) in
  let score := score + 15 * document_risks in
  let score := score + 10 * Z.of_nat (length (alerts s)) in
  let score := if structuring_detected s then score + 30 else score in
  let score := if smurfing_detected s then score + 30 else score in
  let final_score := Z.min score 100 in
  set_risk_score final_score s.

Definition async_generate_sar (env : Env) (s : AMLState) : AMLState :=
  let s := update_path s "sar_generation" in
  let case_id := generate_case_id env in
  let sar_content := llm env "sar" s in
  set_llm_analysis
    (<["sar_report"%string := LText sar_content]> (llm_analysis s))
    (set_sar_timestamp (Some (now_sar env))
      (set_case_id (Some case_id)
        (set_reporting_status (Some "SAR_FILED"%string) s))).

Definition human_review (env : Env) (s : AMLState) : AMLState :=
  let s := update_path s "human_review" in
  set_review_deadline (Some (now_review env + 24 * 3600 * 1000000))
    (set_review_status (Some "PENDING"%string)
      (set_reporting_status (Some "HUMAN_REVIEW"%string) s)).

(** ** Conditional routing (production_workflow.py, lines 766-836) *)

Definition route_initial_screening (s : AMLState) : string :=
  let tx := transaction s in
  let customer := customer s in
  if bool_decide (tx_asset_type tx = Some "CRYPTO"%string) then "CRYPTO_TRANSACTION"
  else if Qltb 100000 (amount_of tx) then "LARGE_TRANSACTION"
  else if default 365 (account_age_days customer) <? 7 then "NEW_ACCOUNT"
  else if PyStr.omem (tx_from_bank tx) HIGH_RISK_BANKS
          || PyStr.omem (tx_to_bank tx) HIGH_RISK_BANKS then "HIGH_RISK_BANK"
  else "STANDARD_FLOW".

Definition route_crypto_analysis (s : AMLState) : string :=
  let crypto_risks := List.filter (PyStr.contains "CRYPTO") (risk_factors s) in
  if (2 <=? length crypto_risks)%nat then "HIGH_RISK_CRYPTO" else "NORMAL_CRYPTO".

Definition route_sanctions_check (s : AMLState) : string :=
  match sanction_hits s with
  | _ :: _ => "SANCTION_HIT"
  | [] => "NO_HIT"
  end.

Definition route_pep_check (s : AMLState) : string :=
  if truthy (pep_status s) then "PEP_FOUND" else "NO_PEP".

Definition route_risk_score (s : AMLState) : string :=
  let risk_score := risk_score s in
  if 65 <=? risk_score then "HIGH_RISK"
  else if 40 <=? risk_score then "MEDIUM_RISK"
  else "LOW_RISK".

(** ** Workflow graph (ProductionAMLWorkflow._build_workflow) *)

Module Stage.
Inductive t :=
| initial_screening | crypto_analysis | geo_analysis | document_check
| behavior_check | sanctions_check | pep_check | edd | score_risk
| generate_sar | human_review.

Definition eqb (a b : t) : bool :=
  match a, b with
  | initial_screening, initial_screening | crypto_analysis, crypto_analysis
  | geo_analysis, geo_analysis | document_check, document_check
  | behavior_check, behavior_check | sanctions_check, sanctions_check
  | pep_check, pep_check | edd, edd | score_risk, score_risk
  | generate_sar, generate_sar | human_review, human_review => true
  | _, _ => false
  end.

Definition all : list t :=
  [initial_screening; crypto_analysis; geo_analysis; document_check;
   behavior_check; sanctions_check; pep_check; edd; score_risk;
   generate_sar; human_review].
End Stage.

(** Where an edge leads: another node, or the graph's [END]. *)
Inductive Target :=
| Node (st : Stage.t)
| END.

(** [add_edge] gives a direct edge; [add_conditional_edges] a router and
    the dictionary from its labels to targets. *)
Inductive Edges :=
| Direct (target : Target)
| Conditional (router : AMLState -> string) (mapping : list (string * Target)).

Fixpoint dict_get {V} (key : string) (d : list (string * V)) : option V :=
  match d with
  | [] => None
  | (k, v) :: rest => if String.eqb k key then Some v else dict_get key rest
  end.

Definition workflow_nodes (env : Env) (st : Stage.t) : AMLState -> AMLState :=
  match st with
  | Stage.initial_screening => fun s => update_path s "start"
  | Stage.crypto_analysis => fun s => async_crypto_risk_analysis env s
  | Stage.geo_analysis => fun s => geographic_risk_assessment s
  | Stage.document_check => fun s => async_document_analysis env s
  | Stage.behavior_check => fun s => async_behavioral_analysis env s
  | Stage.sanctions_check => fun s => sanctions_screening s
  | Stage.pep_check => fun s => pep_screening s
  | Stage.edd => fun s => async_enhanced_due_diligence env s
  | Stage.score_risk => fun s => risk_scoring s
  | Stage.generate_sar => fun s => async_generate_sar env s
  | Stage.human_review => fun s => human_review env s
  end.

Definition workflow_edges (st : Stage.t) : Edges :=
  match st with
  | Stage.initial_screening =>
      Conditional route_initial_screening
        [("CRYPTO_TRANSACTION", Node Stage.crypto_analysis);
         ("LARGE_TRANSACTION", Node Stage.geo_analysis);
         ("NEW_ACCOUNT", Node Stage.edd);
         ("HIGH_RISK_BANK", Node Stage.geo_analysis);
         ("STANDARD_FLOW", Node Stage.document_check)]%string
  | Stage.crypto_analysis =>
      Conditional route_crypto_analysis
        [("HIGH_RISK_CRYPTO", Node Stage.edd);
         ("NORMAL_CRYPTO", Node Stage.document_check)]%string
  | Stage.geo_analysis => Direct (Node Stage.document_check)
  | Stage.document_check => Direct (Node Stage.behavior_check)
  | Stage.behavior_check => Direct (Node Stage.sanctions_check)
  | Stage.sanctions_check =>
      Conditional route_sanctions_check
        [("SANCTION_HIT", Node Stage.generate_sar);
         ("NO_HIT", Node Stage.pep_check)]%string
  | Stage.pep_check =>
      Conditional route_pep_check
        [("PEP_FOUND", Node Stage.edd); ("NO_PEP", Node Stage.score_risk)]%string
  | Stage.edd => Direct (Node Stage.score_risk)
  | Stage.score_risk =>
      Conditional route_risk_score
        [("HIGH_RISK", Node Stage.generate_sar);
         ("MEDIUM_RISK", Node Stage.human_review);
         ("LOW_RISK", END)]%string
  | Stage.generate_sar => Direct END
  | Stage.human_review => Direct END
  end.

Definition entry_point : Stage.t := Stage.initial_screening.

(** The targets a stage's edges can lead to, whatever the state. *)
Definition successors (st : Stage.t) : list Target :=
  match workflow_edges st with
  | Direct t => [t]
  | Conditional _ mapping => map snd mapping
  end.

(** The edge taken from [st] on the state [s] that [st] has produced;
    [None] is a router label missing from the dictionary. *)
Definition next_target (st : Stage.t) (s : AMLState) : option Target :=
  match workflow_edges st with
  | Direct t => Some t
  | Conditional router mapping => dict_get (router s) mapping
  end.

(** Running the compiled graph from a stage: each step runs the stage's
    node on the state and follows the selected edge.  [limit] is the
    graph's recursion limit; the result is the list of stages run, in
    order, and the state at [END]. *)
Fixpoint invoke_from (env : Env) (limit : nat) (st : Stage.t) (s : AMLState)
  : option (list Stage.t * AMLState) :=
  match limit with
  | O => None
  | S limit' =>
      let s' := workflow_nodes env st s in
      match next_target st s' with
      | None => None
      | Some END => Some ([st], s')
      | Some (Node st') =>
          match invoke_from env limit' st' s' with
          | Some (trace, final) => Some (st :: trace, final)
          | None => None
          end
      end
  end.

Definition recursion_limit : nat := 25.

Definition invoke (env : Env) (s : AMLState) : option (list Stage.t * AMLState) :=
  invoke_from env recursion_limit entry_point s.

(** The raw transaction record through the keys [run_analysis] copies
    into the initial state; a field is [None] when the key is absent. *)
Record RawView := mkRawView {
  raw_from_bank : option string;
  raw_to_bank : option string;
  raw_payment_format : option string;
  raw_is_laundering : option Z;
  raw_documents : option (list string);
  raw_asset_type : option string;
  raw_crypto_details : option CryptoDetails;
  raw_origin_country : option string;
  raw_destination_country : option string;
  raw_intermediate_countries : option (list string)
}.

(** The state [run_analysis] starts the graph on (lines 975-1007), from the
    unified transaction, the customer and the raw record. *)
Definition initial_state (unified_tx : Transaction) (customer : Customer)
    (raw : RawView) : AMLState :=
  {| transaction := unified_tx;
     customer := customer;
     from_bank := raw_from_bank raw;
     to_bank := raw_to_bank raw;
     payment_format := raw_payment_format raw;
     ground_truth_label := raw_is_laundering raw;
     risk_score := 0;
     alerts := [];
     investigation := ∅;
     llm_analysis := ∅;
     risk_factors := [];
     decision_path := [];
     pep_status := None;
     sanction_hits := [];
     documents := default [] (raw_documents raw);
     document_risks := [];
     asset_type := Some (default "FIAT"%string (raw_asset_type raw));
     crypto_details := raw_crypto_details raw;
     origin_country := raw_origin_country raw;
     destination_country := raw_destination_country raw;
     intermediate_countries := default [] (raw_intermediate_countries raw);
     structuring_detected := false;
     smurfing_detected := false;
     layering_detected := false;
     reporting_status := None;
     case_id := None;
     sar_timestamp := None;
     review_status := None;
     review_deadline := None;
     transaction_count := length (default [] (transaction_history customer));
     workflow_complete := false |}.

(** [_determine_risk_level] *)
Definition _determine_risk_level (score : Z) : string :=
  if 80 <=? score then "CRITICAL"
  else if 65 <=? score then "HIGH"
  else if 40 <=? score then "MEDIUM"
  else "LOW".

(** ** Formatting and the process-wide registries (lines 145-147, 300-305,
    1015-1053) *)

(** The comparison with the label, present when the state carries one. *)
Record ModelPerformance := mkModelPerformance {
  perf_ground_truth : Z;
  perf_predicted : Z;
  perf_correct : bool
}.

Record AnalysisOutput := mkAnalysisOutput {
  out_risk_score : Z;
  out_risk_level : string;
  out_decision_path : list string;
  out_alerts : gset string;
  out_risk_factors : list string;
  out_sanctions_hits : list string;
  out_pep_status : option bool;
  out_structuring_detected : bool;
  out_smurfing_detected : bool;
  out_llm_analysis : gmap string llm_value;
  out_status : option string;
  out_case_id : option string;
  out_sar_timestamp : option Z;
  out_review_status : option string;
  out_review_deadline : option Z;
  out_model_performance : option ModelPerformance
}.

Definition format_analysis_output (result : AMLState) : AnalysisOutput :=
  mkAnalysisOutput (risk_score result) (_determine_risk_level (risk_score result))
    (decision_path result) (list_to_set (alerts result)) (risk_factors result)
    (sanction_hits result) (pep_status result) (structuring_detected result)
    (smurfing_detected result) (llm_analysis result) (reporting_status result)
    (case_id result) (sar_timestamp result) (review_status result)
    (review_deadline result)
    (match ground_truth_label result with
     | Some label =>
         let predicted_ml := if 65 <=? risk_score result then 1 else 0 in
         Some (mkModelPerformance label predicted_ml (predicted_ml =? label))
     | None => None
     end).

(** [CHAT_THREADS] (through each thread's list of investigation results)
    and [INVESTIGATION_RESULTS]. *)
Record Registry := mkRegistry {
  CHAT_THREADS : gmap string (list AnalysisOutput);
  INVESTIGATION_RESULTS : gmap string AnalysisOutput
}.

(** Truth value of an optional string: [None] and the empty string are
    false. *)
Definition str_truthy (x : option string) : bool :=
  match x with
  | Some v => negb (String.eqb v "")
  | None => false
  end.

Definition add_investigation_to_thread (threads : gmap string (list AnalysisOutput))
    (thread_id : string) (investigation_result : AnalysisOutput)
  : gmap string (list AnalysisOutput) :=
  match threads !! thread_id with
  | Some results => <[thread_id := results ++ [investigation_result]]> threads
  | None => threads
  end.

(** ** The routing and structuring rules as the specification words them *)

Module SpecWording.

(** Successor of initial_screening in the order the specification
    gives: crypto, then large amount or flagged bank, then new account. *)
Definition initial_successor (s : AMLState) : Stage.t :=
  let tx := transaction s in
  if bool_decide (tx_asset_type tx = Some "CRYPTO"%string) then Stage.crypto_analysis
  else if Qltb 100000 (amount_of tx)
          || PyStr.omem (tx_from_bank tx) HIGH_RISK_BANKS
          || PyStr.omem (tx_to_bank tx) HIGH_RISK_BANKS then Stage.geo_analysis
  else if default 365 (account_age_days (customer s)) <? 7 then Stage.edd
  else Stage.document_check.

(** Amount in [0.95 * threshold, threshold). *)
Definition near_threshold (threshold : Q) (tx : Transaction) : bool :=
  Qle_bool (0.95 * threshold)%Q (amount_of tx) && Qltb (amount_of tx) threshold.

(** STRUCTURING_PATTERN as worded: more than 3 in-window transactions
    with an amount just under the threshold. *)
Definition structuring_pattern (threshold : Q) (in_window : list Transaction) : bool :=
  (3 <? length (List.filter (near_threshold threshold) in_window))%nat.

End SpecWording.

(** ** Floating-point arithmetic of the analysis tools

    The tools compute on Python floats, which are IEEE 754 doubles; an
    amount is the rational number its double denotes.  A float operation
    returns the double nearest to the exact result, a decimal literal of the
    source denotes the double nearest to it, and [numpy.mean] and
    [numpy.var] reduce an array in numpy's own order of summation.  This
    rounding is a parameter of the tools: [double] sends a rational to the
    double that stands for it, and the two reductions are functions of the
    list of amounts.  What is proved about the tools holds for every such
    arithmetic; [binary64] is the one of the interpreter, on the finite
    range.

    The scores these tools build from their own constants are kept as
    rationals.  Such a score is a sum, product or mean of the short decimal
    constants of the source (0.1 to 0.7), so its double is within rounding
    error of the rational, and each comparison of such a score with a
    cut-off in the results modelled here has the same outcome on the
    doubles as on the rationals.  The one result for which this fails, the
    confidence level of the smurfing tool, is left out of its record. *)

Module Float.

Record Arith := mkArith {
  double : Q -> Q;
  np_mean : list Q -> Q;
  np_var : list Q -> Q
}.

Section Operations.

Variable fl : Arith.

Definition add (a b : Q) : Q := double fl (a + b).
Definition mul (a b : Q) : Q := double fl (a * b).
Definition div (a b : Q) : Q := double fl (a / b).

(** A decimal literal of the source. *)
Definition lit (d : Q) : Q := double fl d.

End Operations.

(** *** Round to nearest, ties to even *)

(** [n / d] rounded to the nearest whole number, a tie going to the even
    one, for [0 <= n] and [0 < d]. *)
Definition round_half_even (n d : Z) : Z :=
  let q := n / d in
  match 2 * (n mod d) ?= d with
  | Lt => q
  | Gt => q + 1
  | Eq => if Z.even q then q else q + 1
  end.

(** The exponent of the leading bit of [n / d], for [0 < n] and [0 < d]. *)
Definition leading_exponent (n d : Z) : Z :=
  let e := Z.log2 n - Z.log2 d in
  if (if 0 <=? e then d * 2 ^ e <=? n else d <=? n * 2 ^ (- e)) then e else e - 1.

(** The double nearest to a rational: 53 significant bits, the last bit
    no finer than 2^-1074.  Magnitudes that overflow the format (2^1024 and
    beyond) have no double and are rounded as if the exponent range went
    on. *)
Definition nearest_double (q : Q) : Q :=
  let n := Z.abs (Qnum q) in
  let d := Zpos (Qden q) in
  if n =? 0 then 0%Q
  else
    let ulp := Z.max (leading_exponent n d - 52) (-1074) in
    let magnitude :=
      if 0 <=? ulp
      then inject_Z (round_half_even n (d * 2 ^ ulp) * 2 ^ ulp)
      else Qred (inject_Z (round_half_even (n * 2 ^ (- ulp)) d)
                 / inject_Z (2 ^ (- ulp))) in
    if Qnum q <? 0 then (- magnitude)%Q else magnitude.

(** *** numpy's reductions of an array of doubles *)

Section Numpy.

Variable round : Q -> Q.

(** A float addition. *)
Definition plus (a b : Q) : Q := round (a + b).

Definition sum_in_order (start : Q) (xs : list Q) : Q :=
  fold_left plus xs start.

(** The eight accumulators of a block, each increased by its element of
    every further run of eight; what is left is less than eight elements. *)
Fixpoint add_runs (fuel : nat) (r xs : list Q) : list Q * list Q :=
  match fuel with
  | O => (r, xs)
  | S fuel =>
      if (8 <=? length xs)%nat
      then add_runs fuel (zip_with plus r (firstn 8 xs)) (skipn 8 xs)
      else (r, xs)
  end.

Definition block_sum (xs : list Q) : Q :=
  let '(r, rest) := add_runs (length xs) (firstn 8 xs) (skipn 8 xs) in
  match r with
  | [r0; r1; r2; r3; r4; r5; r6; r7] =>
      sum_in_order
        (plus (plus (plus r0 r1) (plus r2 r3)) (plus (plus r4 r5) (plus r6 r7)))
        rest
  | _ => 0%Q
  end.

(** Pairwise summation: fewer than 8 elements in order, up to 128 in a
    block of eight accumulators, more by halves (the first a multiple of
    8). *)
Fixpoint pairwise_sum (fuel : nat) (xs : list Q) : Q :=
  if (length xs <? 8)%nat then sum_in_order 0 xs
  else if (length xs <=? 128)%nat then block_sum xs
  else
    match fuel with
    | O => 0%Q
    | S fuel =>
        let n2 := (length xs / 2 - (length xs / 2) mod 8)%nat in
        plus (pairwise_sum fuel (firstn n2 xs)) (pairwise_sum fuel (skipn n2 xs))
    end.

(** [numpy.add.reduce]: the pairwise sum added to the initial 0. *)
Definition umr_sum (xs : list Q) : Q := plus 0 (pairwise_sum (length xs) xs).

Definition count (xs : list Q) : Q := inject_Z (Z.of_nat (length xs)).

(** [numpy.mean] *)
Definition mean (xs : list Q) : Q := round (umr_sum xs / count xs).

(** [numpy.var]: the mean of the squared deviations from the mean. *)
Definition var (xs : list Q) : Q :=
  let arrmean := round (umr_sum xs / count xs) in
  let x := map (fun a => round (a - arrmean)) xs in
  let x := map (fun d => round (d * d)) x in
  round (umr_sum x / count xs).

End Numpy.

(** The arithmetic of the interpreter and of numpy. *)
Definition binary64 : Arith :=
  mkArith nearest_double (mean nearest_double) (var nearest_double).

End Float.

(** ** Pattern detection tools (production_analysis_tools.py, lines 23-242) *)

Module Tools.

(** A transaction dictionary as the tools read it; a field is [None]
    when its key is absent, and [amount] holds the float that
    [float(tx.get("amount", 0))] returns. *)
Record Tx := mkTx {
  transaction_date : option string;
  counterparty_id : option string;
  amount : option Q
}.

Definition amount_or_zero (tx : Tx) : Q := default 0%Q (amount tx).
Definition date_or_empty (tx : Tx) : string := default ""%string (transaction_date tx).

Definition Qmin (a b : Q) : Q := if Qle_bool a b then a else b.

Definition confidence_level (score : Q) : string :=
  if Qltb 0.8 score then "high" else if Qltb 0.5 score then "medium" else "low".

Section Arithmetic.

Variable fl : Float.Arith.

(** *** Structuring *)

Definition _calculate_structuring_score (current_amount total_amount : Q)
    (suspicious_count : nat) (reporting_threshold : Q) : Q :=
  let score := 0%Q in
  let score := if Qle_bool (Float.mul fl reporting_threshold (Float.lit fl 0.95))
                           current_amount
               then (score + 0.3)%Q else score in
  let score := if (0 <? suspicious_count)%nat
               then (score + Qmin 0.4 (inject_Z (Z.of_nat suspicious_count) * 0.1))%Q
               else score in
  let score := if Qle_bool reporting_threshold total_amount
               then (score + 0.3)%Q else score in
  Qmin 1 score.

Record StructuringResult := mkStructuringResult {
  structuring_detected_flag : bool;
  structuring_score : Q;
  current_transaction_suspicious : bool;
  suspicious_transactions : list Tx;
  total_amount : Q;
  structuring_confidence : string
}.

(** [total_amount] starts from the current amount and is increased, in
    the order of the list, by each related amount in the band. *)
Definition detect_structuring_patterns (transaction_data : Tx)
    (related_transactions : list Tx) (reporting_threshold : Q) : StructuringResult :=
  let current_amount := amount_or_zero transaction_data in
  let suspicious_threshold := Float.mul fl reporting_threshold (Float.lit fl 0.95) in
  let is_suspicious_amount := Qle_bool suspicious_threshold current_amount in
  let suspicious :=
    List.filter (fun tx => Qltb (amount_or_zero tx) reporting_threshold
                           && Qle_bool suspicious_threshold (amount_or_zero tx))
                related_transactions in
  let total :=
    fold_left (Float.add fl) (map amount_or_zero suspicious) current_amount in
  let score := _calculate_structuring_score current_amount total
                 (length suspicious) reporting_threshold in
  mkStructuringResult (Qltb 0.7 score) score is_suspicious_amount suspicious total
    (confidence_level score).

(** *** Smurfing *)

Section Smurfing.

(** [datetime.fromisoformat], as microseconds on the time line; [None]
    when it raises. *)
Variable fromisoformat : string -> option Z.

(** [total_seconds()] divides the whole number of microseconds by 10**6,
    and the hours are that float divided by 3600. *)
Definition _within_time_window (tx1 tx2 : Tx) (time_window_hours : Z) : bool :=
  match fromisoformat (date_or_empty tx1), fromisoformat (date_or_empty tx2) with
  | Some date1, Some date2 =>
      let total_seconds := Float.div fl (inject_Z (date2 - date1)) 1000000 in
      let time_diff := Qabs (Float.div fl total_seconds 3600) in
      Qle_bool time_diff (inject_Z time_window_hours)
  | _, _ => false
  end.

(** [sorted(transactions, key=transaction_date)]: a stable sort on
    the date strings. *)
Fixpoint insert_by_date (tx : Tx) (sorted : list Tx) : list Tx :=
  match sorted with
  | [] => [tx]
  | y :: rest =>
      if String.leb (date_or_empty tx) (date_or_empty y)
      then tx :: y :: rest
      else y :: insert_by_date tx rest
  end.

Definition sorted_by_date (transactions : list Tx) : list Tx :=
  fold_right insert_by_date [] transactions.

(** One turn of the grouping loop on (groups, current_group). *)
Definition group_step (time_window_hours : Z)
    (acc : list (list Tx) * list Tx) (tx : Tx) : list (list Tx) * list Tx :=
  let '(groups, current_group) := acc in
  match current_group with
  | [] => (groups, [tx])
  | first :: _ =>
      if _within_time_window first tx time_window_hours
      then (groups, current_group ++ [tx])
      else (groups ++ [current_group], [tx])
  end.

Definition close_groups (acc : list (list Tx) * list Tx) : list (list Tx) :=
  let '(groups, current_group) := acc in
  match current_group with
  | [] => groups
  | _ :: _ => groups ++ [current_group]
  end.

Definition _group_by_time_window (transactions : list Tx)
    (time_window_hours : Z) : list (list Tx) :=
  let sorted_transactions := sorted_by_date transactions in
  close_groups
    (fold_left (group_step time_window_hours) sorted_transactions ([], [])).

Definition _calculate_coordination_score (transactions : list Tx) : Q :=
  if (length transactions <? 2)%nat then 0%Q
  else
    let recipients := map counterparty_id transactions in
    let unique_recipients := length (remove_dups recipients) in
    let amounts := map amount_or_zero transactions in
    let amount_variance :=
      if (1 <? length amounts)%nat then Float.np_var fl amounts else 0%Q in
    let score := 0%Q in
    let score := if (unique_recipients =? 1)%nat then (score + 0.5)%Q else score in
    let score := if Qltb amount_variance 1000 then (score + 0.3)%Q else score in
    let score := if (3 <=? length transactions)%nat then (score + 0.2)%Q else score in
    Qmin 1 score.

(** A coordinated group: its transactions and its coordination score. *)
Definition CoordinatedGroup : Type := list Tx * Q.

(** The mean is that of coordination scores, each 0.7 or 1. *)
Definition _calculate_smurfing_score (coordinated_groups : list CoordinatedGroup) : Q :=
  match coordinated_groups with
  | [] => 0%Q
  | _ :: _ =>
      let avg_coordination := Qmean (map snd coordinated_groups) in
      let group_factor :=
        Qmin 1 (inject_Z (Z.of_nat (length coordinated_groups)) / 3) in
      (avg_coordination * 0.7 + group_factor * 0.3)%Q
  end.

(** The keys [detected], [smurfing_score] and [coordinated_groups] of the
    result. *)
Record SmurfingResult := mkSmurfingResult {
  detected : bool;
  smurfing_score : Q;
  coordinated_groups : list CoordinatedGroup
}.

Definition min_coordinated_accounts : nat := 3.

Definition coordinated_of (time_groups : list (list Tx)) : list CoordinatedGroup :=
  flat_map (fun time_group =>
    if (min_coordinated_accounts <=? length time_group)%nat
    then let coordination_score := _calculate_coordination_score time_group in
         if Qltb 0.6 coordination_score
         then [(time_group, coordination_score)] else []
    else []) time_groups.

Definition detect_smurfing_patterns (transaction_data : Tx)
    (related_transactions : list Tx) (time_window_hours : Z) : SmurfingResult :=
  let time_groups := _group_by_time_window related_transactions time_window_hours in
  let coordinated_groups := coordinated_of time_groups in
  let smurfing_score := _calculate_smurfing_score coordinated_groups in
  mkSmurfingResult (Qltb 0.7 smurfing_score) smurfing_score coordinated_groups.

(** *** The grouping as the specification words it: a transaction
    joins the current window when its gap to the previous transaction
    (the inter-arrival gap) is within the window. *)
Definition spec_chain_step (time_window_hours : Z)
    (acc : list (list Tx) * list Tx) (tx : Tx) : list (list Tx) * list Tx :=
  let '(groups, current_group) := acc in
  match last current_group with
  | None => (groups, [tx])
  | Some previous =>
      if _within_time_window previous tx time_window_hours
      then (groups, current_group ++ [tx])
      else (groups ++ [current_group], [tx])
  end.

Definition spec_chain_windows (transactions : list Tx)
    (time_window_hours : Z) : list (list Tx) :=
  close_groups
    (fold_left (spec_chain_step time_window_hours)
               (sorted_by_date transactions) ([], [])).

Definition spec_detected (related_transactions : list Tx)
    (time_window_hours : Z) : bool :=
  Qltb 0.7 (_calculate_smurfing_score
              (coordinated_of (spec_chain_windows related_transactions
                                 time_window_hours))).

(** *** Vocabulary for stating what the grouping produces *)

(** A window is anchored: it has a first transaction, and every later
    member is within the time window of that first transaction. *)
Definition anchored (time_window_hours : Z) (group : list Tx) : Prop :=
  match group with
  | [] => False
  | first :: rest =>
      Forall (fun tx => _within_time_window first tx time_window_hours = true) rest
  end.

(** The first transaction of [next] is not within the time window of the
    first transaction of [group]. *)
Definition starts_after (time_window_hours : Z) (group next : list Tx) : Prop :=
  match head group, head next with
  | Some a, Some b => _within_time_window a b time_window_hours = false
  | _, _ => False
  end.

(** Each window starts after the one before it. *)
Fixpoint separated (time_window_hours : Z) (groups : list (list Tx)) : Prop :=
  match groups with
  | [] => True
  | group :: later =>
      match later with
      | [] => True
      | next :: _ => starts_after time_window_hours group next
      end /\ separated time_window_hours later
  end.

End Smurfing.

Definition indicator (b : bool) : Q := if b then 1%Q else 0%Q.

(** The coordination score of a window as the specification words it, the
    variance being the one numpy returns. *)
Definition spec_coordination_score (group : list Tx) : Q :=
  (0.5 * indicator (length (remove_dups (map counterparty_id group)) =? 1)%nat
   + 0.3 * indicator (Qltb (Float.np_var fl (map amount_or_zero group)) 1000)
   + 0.2 * indicator (3 <=? length group)%nat)%Q.

End Arithmetic.

(** The overall score as the specification words it, for a non-empty list
    of coordinated-window scores. *)
Definition spec_smurfing_score (scores : list Q) : Q :=
  (0.7 * Qmean scores
   + 0.3 * Qmin 1 (inject_Z (Z.of_nat (length scores)) / 3))%Q.

(** *** A reader for the timestamps of the examples: the fixed-width form
    YYYY-MM-DDTHH:MM:SS (any separator character between date and time),
    one of the forms [datetime.fromisoformat] accepts. *)

Definition digit_of (c : ascii) : option Z :=
  let n := nat_of_ascii c in
  if (48 <=? n)%nat && (n <=? 57)%nat then Some (Z.of_nat (n - 48)) else None.

Fixpoint digits_value (acc : Z) (cs : list ascii) : option Z :=
  match cs with
  | [] => Some acc
  | c :: rest =>
      match digit_of c with
      | Some d => digits_value (10 * acc + d) rest
      | None => None
      end
  end.

Definition is_leap (y : Z) : bool :=
  ((y mod 4 =? 0) && negb (y mod 100 =? 0)) || (y mod 400 =? 0).

Definition days_in_month (y m : Z) : Z :=
  if m =? 2 then (if is_leap y then 29 else 28)
  else if (m =? 4) || (m =? 6) || (m =? 9) || (m =? 11) then 30 else 31.

(** Days from 1970-01-01 to the given civil date. *)
Definition days_from_civil (y m d : Z) : Z :=
  let y' := if m <=? 2 then y - 1 else y in
  let era := y' / 400 in
  let yoe := y' - era * 400 in
  let doy := (153 * (if 2 <? m then m - 3 else m + 9) + 2) / 5 + d - 1 in
  let doe := yoe * 365 + yoe / 4 - yoe / 100 + doy in
  era * 146097 + doe - 719468.

Definition iso_seconds_form (s : string) : option Z :=
  match list_ascii_of_string s with
  | [y1; y2; y3; y4; d1; m1; m2; d2; a1; a2; _; h1; h2; c1; n1; n2; c2; s1; s2] =>
      if Ascii.eqb d1 "-" && Ascii.eqb d2 "-" && Ascii.eqb c1 ":" && Ascii.eqb c2 ":"
      then
        match digits_value 0 [y1; y2; y3; y4], digits_value 0 [m1; m2],
              digits_value 0 [a1; a2], digits_value 0 [h1; h2],
              digits_value 0 [n1; n2], digits_value 0 [s1; s2] with
        | Some y, Some m, Some d, Some hh, Some mm, Some ss =>
            if (1 <=? y) && (1 <=? m) && (m <=? 12) && (1 <=? d)
               && (d <=? days_in_month y m) && (hh <=? 23) && (mm <=? 59)
               && (ss <=? 59)
            then Some ((((days_from_civil y m d * 24 + hh) * 60 + mm) * 60 + ss)
                       * 1000000)
            else None
        | _, _, _, _, _, _ => None
        end
      else None
  | _ => None
  end.

End Tools.

(** ** Canonicalisation of raw records (production_workflow.py, lines 202-268) *)

Module Raw.

(** Python values found in a raw transaction record. *)
#[warnings="-register-all"]
Inductive value :=
| VNone
| VBool (b : bool)
| VInt (z : Z)
| VFloat (q : Q)
| VStr (s : string)
| VList (items : list value).

Inductive PyError := ValueError | TypeError | RuntimeError.

(** The outcome of a computation that may raise. *)
Inductive result (A : Type) :=
| Ok (a : A)
| Raise (e : PyError).
Arguments Ok {A} a.
Arguments Raise {A} e.

Definition bind {A B} (r : result A) (k : A -> result B) : result B :=
  match r with
  | Ok a => k a
  | Raise e => Raise e
  end.

Notation "'try!' x ':=' r 'in' k" := (bind r (fun x => k))
  (at level 10, x name, r at level 100, k at level 200).

(** Reading text as a number and printing a value are the interpreter's;
    a conversion table supplies them. *)
Record Conv := mkConv {
  float_of_str : string -> option Q;
  int_of_str : string -> option Z;
  repr : value -> string
}.

Section Unify.

Variable conv : Conv.

(** [float(v)] *)
Definition py_float (v : value) : result Q :=
  match v with
  | VInt z => Ok (inject_Z z)
  | VFloat q => Ok q
  | VBool b => Ok (if b then 1%Q else 0%Q)
  | VStr s => match float_of_str conv s with
              | Some q => Ok q
              | None => Raise ValueError
              end
  | VNone | VList _ => Raise TypeError
  end.

(** [int(v)]; a float is truncated towards zero. *)
Definition py_int (v : value) : result Z :=
  match v with
  | VInt z => Ok z
  | VFloat q => Ok (Z.quot (Qnum q) (Zpos (Qden q)))
  | VBool b => Ok (if b then 1 else 0)
  | VStr s => match int_of_str conv s with
              | Some z => Ok z
              | None => Raise ValueError
              end
  | VNone | VList _ => Raise TypeError
  end.

(** [str(v)] *)
Definition py_str (v : value) : string :=
  match v with
  | VStr s => s
  | _ => repr conv v
  end.

(** [d.get(key, default)] and [d.get(key)] *)
Definition get (d : gmap string value) (key : string) (dflt : value) : value :=
  default dflt (d !! key).
Definition get_or_none (d : gmap string value) (key : string) : value :=
  default VNone (d !! key).

(** [key in d] *)
Definition has_key (d : gmap string value) (key : string) : bool :=
  bool_decide (is_Some (d !! key)).

Definition unify_transaction_data (transaction : gmap string value)
  : result (gmap string value) :=
  let unified : gmap string value := ∅ in
  if has_key transaction "From Bank" then
    try! amount := py_float (get transaction "Amount Received" (VInt 0)) in
    try! label := py_int (get transaction "Is Laundering" (VInt 0)) in
    Ok (list_to_map
      [("transaction_id",
          VStr ("HI_" +:+ py_str (get transaction "Account" (VStr "unknown"))));
       ("customer_id", get transaction "Account" (VStr "unknown"));
       ("counterparty_id", get transaction "To Bank" (VStr "unknown"));
       ("amount", VFloat amount);
       ("currency", get transaction "Receiving Currency" (VStr "USD"));
       ("transaction_type", get transaction "Payment Format" (VStr "unknown"));
       ("transaction_date", get transaction "Timestamp" (VStr ""));
       ("location", VStr "Unknown");
       ("country", VStr "Unknown");
       ("description", VStr "HI-Small_Trans transaction");
       ("status", VStr "completed");
       ("from_bank", get_or_none transaction "From Bank");
       ("to_bank", get_or_none transaction "To Bank");
       ("payment_format", get_or_none transaction "Payment Format");
       ("ground_truth_label", VInt label)]%string ∪ unified)
  else if has_key transaction "transaction_id" then
    try! amount := py_float (get transaction "amount" (VInt 0)) in
    Ok (list_to_map
      [("transaction_id", get_or_none transaction "transaction_id");
       ("customer_id", get transaction "customer_id" (VStr "unknown"));
       ("counterparty_id", get_or_none transaction "counterparty_id");
       ("amount", VFloat amount);
       ("currency", get transaction "currency" (VStr "USD"));
       ("transaction_type", get transaction "transaction_type" (VStr "unknown"));
       ("transaction_date", get transaction "transaction_date" (VStr ""));
       ("location", get transaction "location" (VStr "Unknown"));
       ("country", get transaction "country" (VStr "Unknown"));
       ("description", get transaction "description" (VStr ""));
       ("status", get transaction "status" (VStr "completed"));
       ("asset_type", get transaction "asset_type" (VStr "FIAT"));
       ("crypto_details", get_or_none transaction "crypto_details");
       ("origin_country", get_or_none transaction "origin_country");
       ("destination_country", get_or_none transaction "destination_country");
       ("intermediate_countries",
          get transaction "intermediate_countries" (VList []));
       ("documents", get transaction "documents" (VList []))]%string ∪ unified)
  else if has_key transaction "SENDER_ACCOUNT_ID" then
    try! amount := py_float (get transaction "amount" (VInt 0)) in
    try! label := py_int (get transaction "IS_FRAUD" (VInt 0)) in
    Ok (list_to_map
      [("transaction_id",
          VStr (py_str (get transaction "transaction_id" (VStr "unknown"))));
       ("customer_id", get transaction "SENDER_ACCOUNT_ID" (VStr "unknown"));
       ("counterparty_id", get transaction "RECEIVER_ACCOUNT_ID" (VStr "unknown"));
       ("amount", VFloat amount);
       ("currency", VStr "USD");
       ("transaction_type", get transaction "TX_TYPE" (VStr "unknown"));
       ("transaction_date", VStr (py_str (get transaction "TIMESTAMP" (VStr ""))));
       ("location", VStr "Unknown");
       ("country", VStr "Unknown");
       ("description", VStr "Fraud detection transaction");
       ("status", VStr "completed");
       ("ground_truth_label", VInt label)]%string ∪ unified)
  else Ok unified.

(** The record has one of the recognised source shapes. *)
Definition recognised (transaction : gmap string value) : bool :=
  has_key transaction "From Bank" || has_key transaction "transaction_id"
  || has_key transaction "SENDER_ACCOUNT_ID".

End Unify.

(** A conversion table for the examples: text is read as an unsigned
    decimal integer, values other than strings print as "?". *)
Definition decimal_conv : Conv :=
  mkConv
    (fun s => match Tools.digits_value 0 (list_ascii_of_string s) with
              | Some z => Some (inject_Z z) | None => None end)
    (fun s => Tools.digits_value 0 (list_ascii_of_string s))
    (fun _ => "?"%string).

End Raw.

(** ** Execution interface (production_workflow.py, lines 956-1013 and
    1227-1255) *)

(** [workflow.invoke(state, config)] on the compiled graph.  The graph is
    compiled with a checkpointer, [workflow.compile(checkpointer=self.memory)]
    (line 956), and a checkpointer files the checkpoints of a run under the
    thread id of the call's config: a call whose config names no thread
    raises ValueError before the first stage runs.  [config] is that thread
    id, [None] when the call passes no config.  With a thread id the run is
    that of [invoke]; running out of the recursion limit raises
    GraphRecursionError, a RuntimeError. *)
Definition workflow_invoke (env : Env) (config : option string) (s0 : AMLState)
  : Raw.result AMLState :=
  match config with
  | None => Raw.Raise Raw.ValueError
  | Some _ =>
      match invoke env s0 with
      | Some (_, result) => Raw.Ok result
      | None => Raw.Raise Raw.RuntimeError
      end
  end.

(** [run_analysis], from the initial state it builds (lines 973-1007).  The
    graph is invoked with the state alone (line 1010): no config. *)
Definition run_analysis (env : Env) (s0 : AMLState) : Raw.result AnalysisOutput :=
  Raw.bind (workflow_invoke env None s0)
    (fun result => Raw.Ok (format_analysis_output result)).

(** Lines 1246-1253, the statements of [analyze_transaction] that follow
    the run: its result is added to the chat thread when one is named, and
    stored in the index under its case number when it has one. *)
Definition store_investigation (result : AnalysisOutput)
    (thread_id : option string) (reg : Registry) : Registry :=
  let threads :=
    if str_truthy thread_id
    then add_investigation_to_thread (CHAT_THREADS reg)
           (default ""%string thread_id) result
    else CHAT_THREADS reg in
  let case_id := out_case_id result in
  let index :=
    if str_truthy case_id
    then <[default ""%string case_id := result]> (INVESTIGATION_RESULTS reg)
    else INVESTIGATION_RESULTS reg in
  mkRegistry threads index.

(** [analyze_transaction]: the outcome of the call and the registries after
    it.  When the run raises, the exception leaves the function before
    either registry is touched. *)
Definition analyze_transaction (env : Env) (s0 : AMLState)
    (thread_id : option string) (reg : Registry)
  : Raw.result AnalysisOutput * Registry :=
  match run_analysis env s0 with
  | Raw.Ok result => (Raw.Ok result, store_investigation result thread_id reg)
  | Raw.Raise e => (Raw.Raise e, reg)
  end.

(** ** Batch processing (batch_processor.py, lines 180-297) *)

Module Batch.

(** An investigation result dictionary, through the keys the batch
    processor reads and writes. *)
Record InvResult := mkInvResult {
  risk_level : option string;
  reporting_status : option string;
  approval_status : option string;
  ground_truth : option Z;
  prediction : option Z
}.

Record Stats := mkStats {
  total_processed : Z;
  escalated_cases : Z;
  sar_cases : Z;
  pending_approvals : Z;
  errors : Z
}.

Definition level_in (levels : list string) (level : option string) : bool :=
  PyStr.omem level levels.

Definition _update_stats (stats : Stats) (result : InvResult) : Stats :=
  let total := total_processed stats + 1 in
  let level := Some (default "Low"%string (risk_level result)) in
  let escalated :=
    if level_in ["High"; "Critical"]%string level
    then escalated_cases stats + 1 else escalated_cases stats in
  let sar :=
    if bool_decide (reporting_status result = Some "SAR_FILED"%string)
    then sar_cases stats + 1 else sar_cases stats in
  let pending :=
    if bool_decide (approval_status result = Some "pending"%string)
    then pending_approvals stats + 1 else pending_approvals stats in
  mkStats total escalated sar pending (errors stats).

Definition count_error (stats : Stats) : Stats :=
  mkStats (total_processed stats) (escalated_cases stats) (sar_cases stats)
    (pending_approvals stats) (errors stats + 1).

Section Processor.

(** A row of the batch data frame, and the two collaborators called on
    it: the event conversion and the investigation run (which lives
    outside this module); either may raise. *)
Variable Row : Type.
Variable TxnEvent : Type.
Variable make_txn_event : Row -> Raw.result TxnEvent.
Variable run_aml_investigation : TxnEvent -> Raw.result InvResult.
(** [row.get("Is Laundering", 0)] *)
Variable is_laundering : Row -> Z.

(** The body of the [try] block for one row. *)
Definition investigate_row (row : Row) : Raw.result InvResult :=
  Raw.bind (make_txn_event row) (fun txn_event =>
  Raw.bind (run_aml_investigation txn_event) (fun result =>
  let predicted :=
    if level_in ["High"; "Critical"]%string (risk_level result) then 1 else 0 in
  Raw.Ok (mkInvResult (risk_level result) (reporting_status result)
            (approval_status result) (Some (is_laundering row)) (Some predicted)))).

(** One turn of the loop over the rows, with its [except] branch. *)
Definition process_row (acc : Stats * list InvResult) (row : Row)
  : Stats * list InvResult :=
  let '(stats, results) := acc in
  match investigate_row row with
  | Raw.Ok result => (_update_stats stats result, results ++ [result])
  | Raw.Raise _ => (count_error stats, results)
  end.

Definition _process_hi_trans_batch (stats : Stats) (df : list Row)
  : Stats * list InvResult :=
  fold_left process_row df (stats, []).

Definition fails (row : Row) : bool :=
  match investigate_row row with
  | Raw.Ok _ => false
  | Raw.Raise _ => true
  end.

(** The results of the rows whose [try] block completes, in order. *)
Definition completed (df : list Row) : list InvResult :=
  flat_map (fun row => match investigate_row row with
                       | Raw.Ok result => [result]
                       | Raw.Raise _ => []
                       end) df.

Definition failures (df : list Row) : Z := count_if fails df.

End Processor.

Record Metrics := mkMetrics {
  accuracy : Q;
  precision : Q;
  recall : Q;
  f1_score : Q;
  true_positives : Z;
  false_positives : Z;
  true_negatives : Z;
  false_negatives : Z;
  total_samples : Z
}.

Definition has_labels (r : InvResult) : bool :=
  match ground_truth r, prediction r with
  | Some _, Some _ => true
  | _, _ => false
  end.

Definition count_pairs (p gt : Z) (pairs : list (Z * Z)) : Z :=
  count_if (fun '(p', gt') => (p' =? p) && (gt' =? gt)) pairs.

(** [None] stands for the empty dictionary the function returns when
    there is nothing to measure. *)
Definition calculate_accuracy_metrics (results : list InvResult) : option Metrics :=
  match results with
  | [] => None
  | _ :: _ =>
      let valid_results := List.filter has_labels results in
      match valid_results with
      | [] => None
      | _ :: _ =>
          let predictions := map (fun r => default 0 (prediction r)) valid_results in
          let truth := map (fun r => default 0 (ground_truth r)) valid_results in
          let pairs := combine predictions truth in
          let tp := count_pairs 1 1 pairs in
          let fp := count_pairs 1 0 pairs in
          let tn := count_pairs 0 0 pairs in
          let fn := count_pairs 0 1 pairs in
          let prec := if 0 <? tp + fp
                      then (inject_Z tp / inject_Z (tp + fp))%Q else 0%Q in
          let rec := if 0 <? tp + fn
                     then (inject_Z tp / inject_Z (tp + fn))%Q else 0%Q in
          let f1 := if Qltb 0 (prec + rec)
                    then (2 * (prec * rec) / (prec + rec))%Q else 0%Q in
          let acc := (inject_Z (tp + tn)
                      / inject_Z (Z.of_nat (length valid_results)))%Q in
          Some (mkMetrics acc prec rec f1 tp fp tn fn
                  (Z.of_nat (length valid_results)))
      end
  end.

End Batch.

(** ** The screening stages over shared list objects

    A state dictionary holds references to its lists, and [{**state, ...}]
    copies the references, not the lists.  This model keeps the list
    objects in a table indexed by address, so that an in-place
    [list.append] is seen through every reference to the same object. *)

Module Aliased.

(** Addresses, and the list objects by address. *)
Abbreviation loc := nat.
Abbreviation Heap := (list (list string)).

Definition read (h : Heap) (l : loc) : list string := default [] (h !! l).

(** A new list object (the result of [a + b], or a list display). *)
Definition alloc (h : Heap) (v : list string) : loc * Heap := (length h, h ++ [v]).

(** [l.append(x)]: the object at [l] changes in place. *)
Definition append (h : Heap) (l : loc) (x : string) : Heap :=
  <[l := read h l ++ [x]]> h.

(** The entries of the state the two screening stages touch: references
    for the lists, values for the rest.  [parties_ref] is the list under
    [transaction["parties"]], when the key is present. *)
Record StateRef := mkStateRef {
  decision_path_ref : loc;
  risk_factors_ref : loc;
  sanction_hits_ref : loc;
  pep_status_val : option bool;
  customer_name : option string;
  counterparty : option string;
  parties_ref : option loc
}.

Definition update_path (h : Heap) (st : StateRef) (step : string) : StateRef * Heap :=
  let '(l, h) := alloc h (read h (decision_path_ref st) ++ [step]) in
  (mkStateRef l (risk_factors_ref st) (sanction_hits_ref st) (pep_status_val st)
     (customer_name st) (counterparty st) (parties_ref st), h).

Definition sanctions_screening (h : Heap) (st : StateRef) : StateRef * Heap :=
  let '(st, h) := update_path h st "sanctions_check" in
  let '(parties, h) :=
    match parties_ref st with
    | Some l => (l, h)
    | None => alloc h []
    end in
  let h := append h parties (default ""%string (customer_name st)) in
  let h := append h parties (default ""%string (counterparty st)) in
  let hits := check_sanctions_list (read h parties) in
  let '(hits_ref, h) := alloc h hits in
  let '(factors_ref, h) :=
    alloc h (read h (risk_factors_ref st)
             ++ map (fun hit => ("SANCTION_HIT_" +:+ hit)%string) hits) in
  (mkStateRef (decision_path_ref st) factors_ref hits_ref (pep_status_val st)
     (customer_name st) (counterparty st) (parties_ref st), h).

Definition pep_screening (h : Heap) (st : StateRef) : StateRef * Heap :=
  let '(st, h) := update_path h st "pep_check" in
  let is_pep := check_pep_database (default ""%string (customer_name st)) in
  let risk_factors := risk_factors_ref st in
  let h := if is_pep then append h risk_factors "PEP_CUSTOMER" else h in
  (mkStateRef (decision_path_ref st) risk_factors (sanction_hits_ref st) (Some is_pep)
     (customer_name st) (counterparty st) (parties_ref st), h).

(** What a state holds, read through its references. *)
Record Contents := mkContents {
  c_decision_path : list string;
  c_risk_factors : list string;
  c_sanction_hits : list string;
  c_pep_status : option bool;
  c_parties : option (list string)
}.

Definition contents (h : Heap) (st : StateRef) : Contents :=
  mkContents (read h (decision_path_ref st)) (read h (risk_factors_ref st))
    (read h (sanction_hits_ref st)) (pep_status_val st)
    (read h <$> parties_ref st).

(** Every reference of the state points into the table. *)
Definition valid (h : Heap) (st : StateRef) : Prop :=
  (decision_path_ref st < length h)%nat /\
  (risk_factors_ref st < length h)%nat /\
  (sanction_hits_ref st < length h)%nat /\
  match parties_ref st with Some l => (l < length h)%nat | None => True end.

(** An input for pep_screening: a customer named "Senator Smith", with
    empty decision path, risk factors and sanction hits. *)
Definition senator_heap : Heap := [[]; []; []].
Definition senator_state : StateRef :=
  mkStateRef 0%nat 1%nat 2%nat None (Some "Senator Smith"%string) (Some "ACME"%string) None.

(** An input for sanctions_screening: the transaction carries a parties
    list, and the customer is named after a sanctioned entity. *)
Definition listed_heap : Heap := [[]; []; []; ["Broker One"%string]].
Definition listed_state : StateRef :=
  mkStateRef 0%nat 1%nat 2%nat None (Some "ISIS_Financial_Network Ltd"%string)
    (Some "ACME"%string) (Some 3%nat).

Definition senator_once : StateRef * Heap := pep_screening senator_heap senator_state.
Definition senator_twice : StateRef * Heap := pep_screening (snd senator_once) senator_state.
Definition listed_once : StateRef * Heap := sanctions_screening listed_heap listed_state.
Definition listed_twice : StateRef * Heap :=
  sanctions_screening (snd listed_once) listed_state.

End Aliased.

(** ** Bookkeeping used to state the graph properties *)

(** The name each stage appends to [decision_path]. *)
Definition stage_label (st : Stage.t) : string :=
  match st with
  | Stage.initial_screening => "start"
  | Stage.crypto_analysis => "crypto_analysis"
  | Stage.geo_analysis => "geo_analysis"
  | Stage.document_check => "document_analysis"
  | Stage.behavior_check => "behavior_analysis"
  | Stage.sanctions_check => "sanctions_check"
  | Stage.pep_check => "pep_check"
  | Stage.edd => "enhanced_dd"
  | Stage.score_risk => "risk_scoring"
  | Stage.generate_sar => "sar_generation"
  | Stage.human_review => "human_review"
  end.

(** A topological numbering of the graph. *)
Definition stage_rank (st : Stage.t) : nat :=
  match st with
  | Stage.initial_screening => 0
  | Stage.crypto_analysis => 1
  | Stage.geo_analysis => 2
  | Stage.document_check => 3
  | Stage.behavior_check => 4
  | Stage.sanctions_check => 5
  | Stage.pep_check => 6
  | Stage.edd => 7
  | Stage.score_risk => 8
  | Stage.generate_sar => 9
  | Stage.human_review => 10
  end.

(** Stages in a trace carry strictly increasing ranks. *)
Definition ascending (trace : list Stage.t) : Prop :=
  StronglySorted (fun a b => (stage_rank a < stage_rank b)%nat) trace.

(** The weighted sum of section 4.5, before the cap. *)
Definition weighted_sum (s : AMLState) : Z :=
  40 * Z.of_nat (length (sanction_hits s))
  + 35 * Z.b2z (truthy (pep_status s))
  + 25 * count_if (PyStr.contains "CRYPTO") (risk_factors s)
  + 20 * count_if (fun rf => PyStr.contains "HIGH_RISK" rf || PyStr.contains "TAX_HAVEN" rf)
                  (risk_factors s)
  + 15 * Z.of_nat (length (document_risks s))
  + 10 * Z.of_nat (length (alerts s))
  + 30 * Z.b2z (structuring_detected s)
  + 30 * Z.b2z (smurfing_detected s).

(** ** Concrete inputs used in the examples *)

(** A raw record with none of the keys [run_analysis] copies. *)
Definition no_raw_fields : RawView :=
  mkRawView None None None None None None None None None None.

(** A FIAT payment of 500 from flagged bank 03208 by a 3-day-old account. *)
Definition flagged_bank_new_account : AMLState :=
  initial_state
    (mkTransaction (Some "FIAT"%string) (Some 500%Q) (Some "03208"%string)
       (Some "011"%string) None None None None None None None None)
    (mkCustomer (Some "Account_17"%string) (Some 3) None)
    no_raw_fields.

(** A FIAT payment of 500 between unflagged banks by a customer of 400
    days whose name contains a sanctioned entity. *)
Definition sanctioned_customer_payment : AMLState :=
  initial_state
    (mkTransaction (Some "FIAT"%string) (Some 500%Q) (Some "011"%string)
       (Some "012"%string) None None None None None None None None)
    (mkCustomer (Some "ISIS_Financial_Network Ltd"%string) (Some 400) None)
    no_raw_fields.

(** Collaborators that answer nothing: every analysis text is empty and no
    code is extracted from it; the clock reads 2024-01-01 00:00:00 and the
    digest is that of the empty message. *)
Definition quiet_env : Env :=
  mkEnv (fun _ _ => ""%string) (fun _ _ => []) 1704067200000000 1704067200000000
    1704067200000000 1704067200000000 (fun _ => "2024-01-01 00:00:00"%string)
    (fun _ => "e3b0c44298fc1c149afbf4c8996fb92427ae41e4649b934ca495991b7852b855"%string).

Definition plain_tx (amount : Q) (timestamp : Z) : Transaction :=
  mkTransaction (Some "FIAT"%string) (Some amount) None None None None None None
    None None None (Some timestamp).

Definition hour_us : Z := 3600 * 1000000.

(** Four payments of 100 within three hours: three in the history, then
    the current one. *)
Definition small_payments : AMLState :=
  initial_state (plain_tx 100 (1704067200000000 + 3 * hour_us))
    (mkCustomer (Some "Account_17"%string) (Some 400)
       (Some [plain_tx 100 1704067200000000;
              plain_tx 100 (1704067200000000 + hour_us);
              plain_tx 100 (1704067200000000 + 2 * hour_us)]))
    no_raw_fields.

(** Four payments of 9,600 within three hours. *)
Definition near_threshold_day : AMLState :=
  initial_state (plain_tx 9600 (1704067200000000 + 3 * hour_us))
    (mkCustomer (Some "Account_17"%string) (Some 400)
       (Some [plain_tx 9600 1704067200000000;
              plain_tx 9600 (1704067200000000 + hour_us);
              plain_tx 9600 (1704067200000000 + 2 * hour_us)]))
    no_raw_fields.

(** The same four payments spread over thirty days. *)
Definition near_threshold_month : AMLState :=
  initial_state (plain_tx 9600 (1704067200000000 + 30 * day_us))
    (mkCustomer (Some "Account_17"%string) (Some 400)
       (Some [plain_tx 9600 1704067200000000;
              plain_tx 9600 (1704067200000000 + 10 * day_us);
              plain_tx 9600 (1704067200000000 + 20 * day_us)]))
    no_raw_fields.

(** A raw record with none of the sentinel fields. *)
Definition unknown_shape_record : gmap string Raw.value :=
  {[ "record_id"%string := Raw.VStr "17"; "value"%string := Raw.VInt 250 ]}.

(** A batch of fifty rows, numbered from 0, in which the analysis of row
    17 times out. *)
Definition fifty_rows : list nat := seq 0 50.
Definition demo_make_txn_event (row : nat) : Raw.result nat := Raw.Ok row.
Definition demo_investigation (event : nat) : Raw.result Batch.InvResult :=
  if (event =? 17)%nat then Raw.Raise Raw.RuntimeError
  else Raw.Ok (Batch.mkInvResult
                 (Some (if (event mod 5 =? 0)%nat then "High" else "Low")%string)
                 None None None None).
Definition demo_label (row : nat) : Z := if (row mod 10 =? 0)%nat then 1 else 0.

(** SHA-256 digests in hexadecimal are 64 characters long. *)
Definition quiet_env_digest_length :
  forall m, String.length (sha256_hexdigest quiet_env m) = 64%nat :=
  fun _ => eq_refl.

Definition wire (date recipient : string) (amount : Q) : Tools.Tx :=
  Tools.mkTx (Some date) (Some recipient) (Some amount).

(** Three payments of 5,000 to one recipient, 20 hours apart: each is
    within 24 hours of the one before, the third is 40 hours after the
    first. *)
Definition twenty_hour_chain : list Tools.Tx :=
  [wire "2024-01-01T00:00:00" "R-1" 5000;
   wire "2024-01-01T20:00:00" "R-1" 5000;
   wire "2024-01-02T16:00:00" "R-1" 5000]%string.

(** The specification's smurfing scenarios: three payments within two
    hours to one counterparty, and to three different counterparties. *)
Definition same_counterparty : list Tools.Tx :=
  [wire "2024-01-01T09:00:00" "R-1" 4990;
   wire "2024-01-01T10:00:00" "R-1" 5005;
   wire "2024-01-01T11:00:00" "R-1" 4998]%string.
Definition three_counterparties : list Tools.Tx :=
  [wire "2024-01-01T09:00:00" "R-1" 4990;
   wire "2024-01-01T10:00:00" "R-2" 5005;
   wire "2024-01-01T11:00:00" "R-3" 4998]%string.

(** Three payments to one recipient within two hours.  Their amounts are
    the doubles written 963.1401665379259, 1001.87 and 1040.5998334620742:
    as rationals they have a variance below 1000, and numpy's variance of
    them is 1000. *)
Definition variance_at_ceiling : list Tools.Tx :=
  [wire "2024-01-01T09:00:00" "R-1" (Float.nearest_double 963.1401665379259);
   wire "2024-01-01T10:00:00" "R-1" (Float.nearest_double 1001.87);
   wire "2024-01-01T11:00:00" "R-1" (Float.nearest_double 1040.5998334620742)]%string.
From Stdlib Require Import Lqa.


(** ** Entry-to-END paths of the workflow graph *)

(** The stage sequences the edges allow from a stage to [END], following
    at most [depth] stages. *)
Fixpoint paths_from (depth : nat) (st : Stage.t) : list (list Stage.t) :=
  match depth with
  | O => []
  | S depth' =>
      flat_map (fun target =>
                  match target with
                  | END => [[st]]
                  | Node st' => map (cons st) (paths_from depth' st')
                  end)
               (successors st)
  end.

Definition workflow_paths : list (list Stage.t) :=
  paths_from recursion_limit entry_point.

Definition stage_in (st : Stage.t) (trace : list Stage.t) : bool :=
  existsb (Stage.eqb st) trace.

(** What holds of the state on which a stage is entered, in a run whose
    initial risk score is [r0]: no stage before score_risk changes the score,
    and only sanctions_check, on a hit, leads on with sanction hits. *)
Definition on_entry (r0 : Z) (st : Stage.t) (s : AMLState) : Prop :=
  match st with
  | Stage.generate_sar =>
      (sanction_hits s <> [] /\ risk_score s = r0) \/
      (sanction_hits s = [] /\ 65 <= risk_score s <= 100)
  | Stage.human_review => sanction_hits s = [] /\ 40 <= risk_score s < 65
  | _ => sanction_hits s = [] /\ risk_score s = r0
  end.

(** The parties sanctions_screening checks. *)
Definition screened_parties (s : AMLState) : list string :=
  default [] (tx_parties (transaction s))
  ++ [default ""%string (cust_name (customer s));
      default ""%string (tx_counterparty_id (transaction s))].

(** The shape every entry-to-END path has: between 3 and 9 stages; not
    both crypto_analysis and geo_analysis; document_check, behavior_check
    and sanctions_check run together or not at all; pep_check only after
    sanctions_check; and score_risk runs unless the path ends with
    sanctions_check followed by generate_sar. *)
Definition path_shape (path : list Stage.t) : bool :=
  (3 <=? length path)%nat && (length path <=? 9)%nat
  && negb (stage_in Stage.crypto_analysis path && stage_in Stage.geo_analysis path)
  && Bool.eqb (stage_in Stage.document_check path) (stage_in Stage.behavior_check path)
  && Bool.eqb (stage_in Stage.behavior_check path) (stage_in Stage.sanctions_check path)
  && implb (stage_in Stage.pep_check path) (stage_in Stage.sanctions_check path)
  && (stage_in Stage.score_risk path
      || match rev path with
         | Stage.generate_sar :: Stage.sanctions_check :: _ => true
         | _ => false
         end).

(** The three ways a run that goes from initial_screening straight to edd
    can continue. *)
Definition new_account_traces : list (list Stage.t) :=
  [[Stage.initial_screening; Stage.edd; Stage.score_risk];
   [Stage.initial_screening; Stage.edd; Stage.score_risk; Stage.generate_sar];
   [Stage.initial_screening; Stage.edd; Stage.score_risk; Stage.human_review]].

(** ** Vocabulary for the geographic and crypto stages *)

(** The locations geographic_risk_assessment checks: origin, destination
    and country, then the intermediate countries, empty ones dropped. *)
Definition geo_locations (s : AMLState) : list string :=
  let tx := transaction s in
  List.filter (fun loc => negb (String.eqb loc ""))
    ([default ""%string (tx_origin_country tx);
      default ""%string (tx_destination_country tx);
      default ""%string (tx_country tx)]
     ++ default [] (tx_intermediate_countries tx)).

Definition flagged_location (country : string) : bool :=
  PyStr.mem country HIGH_RISK_COUNTRIES || PyStr.mem country TAX_HAVENS.

(** The factors risk_scoring counts as jurisdiction risks. *)
Definition jurisdiction_factor (rf : string) : bool :=
  PyStr.contains "HIGH_RISK" rf || PyStr.contains "TAX_HAVEN" rf.

(** The codes the crypto stage extracts from the analysis answer. *)
Definition crypto_llm_codes (env : Env) (s : AMLState) : list string :=
  findall_codes env 4 (llm env "crypto" (update_path s "crypto_analysis")).

(** A crypto payment whose details trip all four rule-based findings:
    a mixer, a listed darknet market, a 2-day-old wallet, five swaps. *)
Definition mixer_payment : AMLState :=
  initial_state
    (mkTransaction (Some "CRYPTO"%string) (Some 2500%Q) None None None None None
       None (Some (mkCryptoDetails (Some true) (Some "Hydra"%string) (Some 2) (Some 5)))
       None None None)
    (mkCustomer (Some "Account_17"%string) (Some 400) None)
    no_raw_fields.

(** The weighted sum without its sanction and smurfing terms. *)
Definition reachable_sum (s : AMLState) : Z :=
  35 * Z.b2z (truthy (pep_status s))
  + 25 * count_if (PyStr.contains "CRYPTO") (risk_factors s)
  + 20 * count_if jurisdiction_factor (risk_factors s)
  + 15 * Z.of_nat (length (document_risks s))
  + 10 * Z.of_nat (length (alerts s))
  + 30 * Z.b2z (structuring_detected s).

(** ** Vocabulary for the structuring tool *)

(** The lower edge of the tool's band: the float product of the reporting
    threshold and 0.95. *)
Definition band_edge (fl : Float.Arith) (reporting_threshold : Q) : Q :=
  Float.mul fl reporting_threshold (Float.lit fl 0.95).

(** Amount in the tool's band: at least the edge and below the threshold. *)
Definition in_band (fl : Float.Arith) (reporting_threshold : Q) (tx : Tools.Tx)
  : bool :=
  Qltb (Tools.amount_or_zero tx) reporting_threshold
  && Qle_bool (band_edge fl reporting_threshold) (Tools.amount_or_zero tx).

(** The total the tool reports: the current amount increased, in the order
    of the list, by each amount of the band. *)
Definition band_total (fl : Float.Arith) (current_amount : Q)
    (band : list Tools.Tx) : Q :=
  fold_left (Float.add fl) (map Tools.amount_or_zero band) current_amount.

(** Names that differ in letter case only. *)
Definition mixed_case_names : list string :=
  ["Senator Smith"; "ISIS_Financial_Network Ltd"; "Account_17"]%string.
Definition upper_case_names : list string :=
  ["SENATOR SMITH"; "ISIS_FINANCIAL_NETWORK LTD"; "ACCOUNT_17"]%string.

(** ** Vocabulary for the batch statistics *)

Definition binary (z : Z) : Prop := z = 0 \/ z = 1.

(** The tallies [_update_stats] would add for a list of results. *)
Definition escalated_in (results : list Batch.InvResult) : Z :=
  count_if (fun r => bool_decide (Batch.prediction r = Some 1)) results.
Definition sar_in (results : list Batch.InvResult) : Z :=
  count_if (fun r => bool_decide (Batch.reporting_status r = Some "SAR_FILED"%string))
    results.
Definition pending_in (results : list Batch.InvResult) : Z :=
  count_if (fun r => bool_decide (Batch.approval_status r = Some "pending"%string))
    results.

(** The (prediction, ground truth) pairs the metrics are computed from. *)
Definition label_pairs (results : list Batch.InvResult) : list (Z * Z) :=
  combine
    (map (fun r => default 0 (Batch.prediction r))
       (List.filter Batch.has_labels results))
    (map (fun r => default 0 (Batch.ground_truth r))
       (List.filter Batch.has_labels results)).

(** Four labelled results: a true positive, a false positive, a true
    negative and a false negative. *)
Definition four_outcomes : list Batch.InvResult :=
  [Batch.mkInvResult (Some "High"%string) None None (Some 1) (Some 1);
   Batch.mkInvResult (Some "Critical"%string) None None (Some 0) (Some 1);
   Batch.mkInvResult (Some "Low"%string) None None (Some 0) (Some 0);
   Batch.mkInvResult (Some "Medium"%string) None None (Some 1) (Some 0)].

(** ** Behavioural anomaly tool (production_analysis_tools.py, lines 249-392) *)

Module Behavior.

Record TimingPatterns := mkTimingPatterns {
  pattern_type : string;
  frequency : string;
  anomaly_detected : bool
}.

Record Metrics := mkMetrics {
  transaction_count : nat;
  average_amount : Q;
  max_amount : Q;
  amount_variance : Q;
  transaction_frequency : Q;
  amount_trend : string;
  timing_patterns : TimingPatterns
}.

(** [max(amounts)] for a non-empty list given by its head and tail: the
    first of the largest elements. *)
Definition py_max (first : Q) (rest : list Q) : Q :=
  fold_left (fun best x => if Qltb best x then x else best) rest first.

Section Arithmetic.

Variable fl : Float.Arith.

Definition _calculate_amount_trend (amounts : list Q) : string :=
  if (length amounts <? 2)%nat then "insufficient_data"
  else
    let first_half := Float.np_mean fl (firstn (length amounts / 2) amounts) in
    let second_half := Float.np_mean fl (skipn (length amounts / 2) amounts) in
    if Qltb (Float.mul fl first_half (Float.lit fl 1.2)) second_half
    then "increasing"
    else if Qltb second_half (Float.mul fl first_half (Float.lit fl 0.8))
    then "decreasing"
    else "stable".

Definition _analyze_timing_patterns (dates : list (option string)) : TimingPatterns :=
  mkTimingPatterns "regular" "daily" false.

(** The amounts the metrics are computed from: those of the related
    transactions, then the current one. *)
Definition amounts_of (transaction_data : Tools.Tx)
    (related_transactions : list Tools.Tx) : list Q :=
  map Tools.amount_or_zero related_transactions
  ++ [Tools.amount_or_zero transaction_data].

(** [transaction_frequency] is the quotient of the count by 30, two whole
    numbers.  Rounding to the nearest double keeps the order and 5 is a
    double, so the double of the quotient exceeds 5 exactly when the quotient
    does, and the frequency is kept as the quotient. *)
Definition _calculate_behavioral_metrics (transaction_data : Tools.Tx)
    (related_transactions : list Tools.Tx) : Metrics :=
  let transaction_count := (length related_transactions + 1)%nat in
  let amounts := amounts_of transaction_data related_transactions in
  let avg_amount :=
    match amounts with [] => 0%Q | _ :: _ => Float.np_mean fl amounts end in
  let max_amount := match amounts with [] => 0%Q | a :: rest => py_max a rest end in
  let amount_variance :=
    if (1 <? length amounts)%nat then Float.np_var fl amounts else 0%Q in
  let dates := map Tools.transaction_date related_transactions
               ++ [Tools.transaction_date transaction_data] in
  mkMetrics transaction_count avg_amount max_amount amount_variance
    (inject_Z (Z.of_nat transaction_count) / 30)%Q
    (_calculate_amount_trend amounts) (_analyze_timing_patterns dates).

Definition _calculate_anomaly_score (metrics : Metrics) : Q :=
  let score := 0%Q in
  let score := if Qltb 5 (transaction_frequency metrics)
               then (score + 0.3)%Q else score in
  let score := if Qltb 1000000 (amount_variance metrics)
               then (score + 0.3)%Q else score in
  let score := if String.eqb (amount_trend metrics) "increasing"
               then (score + 0.2)%Q else score in
  let score := if anomaly_detected (timing_patterns metrics)
               then (score + 0.2)%Q else score in
  Tools.Qmin 1 score.

Definition _identify_anomalies (metrics : Metrics) : list string :=
  (if Qltb 5 (transaction_frequency metrics)
   then ["High transaction frequency"%string] else []) ++
  (if Qltb 1000000 (amount_variance metrics)
   then ["High amount variance"%string] else []) ++
  (if String.eqb (amount_trend metrics) "increasing"
   then ["Increasing transaction amounts"%string] else []) ++
  (if anomaly_detected (timing_patterns metrics)
   then ["Unusual timing patterns"%string] else []).

Record AnomalyResult := mkAnomalyResult {
  anomaly_score : Q;
  is_anomalous : bool;
  behavioral_metrics : Metrics;
  anomalies : list string;
  confidence_level : string
}.

(** [customer_data] and [baseline_period_days] are not read.  The
    [except] branch is taken only when an amount cannot be read as a number;
    the amounts of [Tools.Tx] are numbers. *)
Definition analyze_behavioral_anomalies (transaction_data : Tools.Tx)
    (related_transactions : list Tools.Tx) : AnomalyResult :=
  let behavioral_metrics :=
    _calculate_behavioral_metrics transaction_data related_transactions in
  let anomaly_score := _calculate_anomaly_score behavioral_metrics in
  let anomalies := _identify_anomalies behavioral_metrics in
  mkAnomalyResult anomaly_score (Qle_bool 0.7 anomaly_score) behavioral_metrics
    anomalies (Tools.confidence_level anomaly_score).

End Arithmetic.

End Behavior.

(** ** Geographic risk tool (production_analysis_tools.py, lines 399-515) *)

Module Geo.

(** [s.split(",")[-1]]: the text after the last comma, the whole string
    when there is none. *)
Definition last_field (s : string) : string :=
  string_of_list_ascii
    (fold_left (fun field c => if Ascii.eqb c "," then [] else field ++ [c])
       (list_ascii_of_string s) []).

(** [str.isspace] on the ASCII range: tab to carriage return, the four
    separators 28-31, and the space. *)
Definition is_space (c : ascii) : bool :=
  let n := nat_of_ascii c in
  ((9 <=? n)%nat && (n <=? 13)%nat) || ((28 <=? n)%nat && (n <=? 32)%nat).

Fixpoint lstrip (cs : list ascii) : list ascii :=
  match cs with
  | c :: rest => if is_space c then lstrip rest else cs
  | [] => []
  end.

(** [s.strip()] *)
Definition strip (s : string) : string :=
  string_of_list_ascii (rev (lstrip (rev (lstrip (list_ascii_of_string s))))).

Record CountryRisk := mkCountryRisk {
  risk_level : string;
  risk_score : Q;
  description : string
}.

Definition high_risk_countries : list string :=
  ["AF"; "IR"; "KP"; "SY"; "VE"; "CU"; "BY"; "MM"; "ZW"]%string.
Definition medium_risk_countries : list string :=
  ["CN"; "RU"; "TR"; "PK"; "BD"; "NG"; "KE"; "GH"; "UG"]%string.

Definition _assess_country_risk (country_code : string) : CountryRisk :=
  if PyStr.mem country_code high_risk_countries
  then mkCountryRisk "high" 0.8 "High-risk country"
  else if PyStr.mem country_code medium_risk_countries
  then mkCountryRisk "medium" 0.5 "Medium-risk country"
  else mkCountryRisk "low" 0.2 "Low-risk country".

Record LocationMismatch := mkLocationMismatch {
  mismatch_detected : bool;
  mismatch_score : Q;
  mismatch_description : string
}.

Definition _assess_location_mismatch (customer_location transaction_location : string)
  : LocationMismatch :=
  if String.eqb customer_location "" || String.eqb transaction_location ""
  then mkLocationMismatch false 0 "Insufficient location data"
  else
    let customer_country := strip (last_field customer_location) in
    let transaction_country := strip (last_field transaction_location) in
    let mismatch_detected := negb (String.eqb customer_country transaction_country) in
    mkLocationMismatch mismatch_detected
      (if mismatch_detected then 0.7 else 0)%Q
      (if mismatch_detected then "Customer and transaction locations differ"
       else "Locations match").

Definition _calculate_geographic_risk_score (country_risk : CountryRisk)
    (location_mismatch : LocationMismatch) : Q :=
  (risk_score country_risk * 0.7 + mismatch_score location_mismatch * 0.3)%Q.

Definition _determine_risk_level (risk_score : Q) : string :=
  if Qle_bool 0.7 risk_score then "high"
  else if Qle_bool 0.4 risk_score then "medium"
  else "low".

Record GeographicRisk := mkGeographicRisk {
  geographic_risk_score : Q;
  country_risk : CountryRisk;
  location_mismatch : LocationMismatch;
  geographic_risk_level : string;
  confidence_level : string
}.

Definition assess_geographic_risks
    (customer_location transaction_location transaction_country : string)
  : GeographicRisk :=
  let country_risk := _assess_country_risk transaction_country in
  let location_mismatch :=
    _assess_location_mismatch customer_location transaction_location in
  let geographic_risk_score :=
    _calculate_geographic_risk_score country_risk location_mismatch in
  mkGeographicRisk geographic_risk_score country_risk location_mismatch
    (_determine_risk_level geographic_risk_score)
    (Tools.confidence_level geographic_risk_score).

End Geo.

(** ** Network analysis tool (production_analysis_tools.py, lines 522-654) *)

Module Network.

(** A transaction dictionary through the keys the network tool reads. *)
Record Tx := mkTx {
  transaction_id : option string;
  customer_id : option string;
  counterparty_id : option string;
  amount : option Q;
  transaction_date : option string
}.

Record GraphNode := mkGraphNode {
  node_id : option string;
  node_type : string;
  node_amount : option Q;
  node_date : option string
}.

Record GraphEdge := mkGraphEdge {
  source : option string;
  target : option string;
  weight : Q
}.

Record Graph := mkGraph {
  nodes : list GraphNode;
  edges : list GraphEdge
}.

Definition same_customer (tx1 tx2 : Tx) : bool :=
  bool_decide (customer_id tx1 = customer_id tx2).
Definition same_counterparty (tx1 tx2 : Tx) : bool :=
  bool_decide (counterparty_id tx1 = counterparty_id tx2).

Definition _are_connected (tx1 tx2 : Tx) : bool :=
  same_customer tx1 tx2 || same_counterparty tx1 tx2.

Definition Qmax (a b : Q) : Q := if Qle_bool b a then a else b.

Section Arithmetic.

Variable fl : Float.Arith.

(** Both amounts positive and the float quotient of the smaller by the
    larger above the float 0.8. *)
Definition similar_amounts (tx1 tx2 : Tx) : bool :=
  let amount1 := default 0%Q (amount tx1) in
  let amount2 := default 0%Q (amount tx2) in
  Qltb 0 amount1 && Qltb 0 amount2
  && Qltb (Float.lit fl 0.8)
          (Float.div fl (Tools.Qmin amount1 amount2) (Qmax amount1 amount2)).

Definition _calculate_connection_weight (tx1 tx2 : Tx) : Q :=
  let weight := 0%Q in
  let weight := if same_customer tx1 tx2 then (weight + 0.5)%Q else weight in
  let weight := if same_counterparty tx1 tx2 then (weight + 0.5)%Q else weight in
  let weight := if similar_amounts tx1 tx2 then (weight + 0.3)%Q else weight in
  Tools.Qmin 1 weight.

Definition node_of (tx : Tx) : GraphNode :=
  mkGraphNode (transaction_id tx) "transaction" (amount tx) (transaction_date tx).

(** One turn of the loop over the related transactions. *)
Definition graph_step (transaction_data : Tx) (graph : Graph) (tx : Tx) : Graph :=
  let nodes := nodes graph ++ [node_of tx] in
  if _are_connected transaction_data tx
  then mkGraph nodes
         (edges graph ++ [mkGraphEdge (transaction_id transaction_data)
                            (transaction_id tx)
                            (_calculate_connection_weight transaction_data tx)])
  else mkGraph nodes (edges graph).

Definition _build_network_graph (transaction_data : Tx)
    (related_transactions : list Tx) : Graph :=
  fold_left (graph_step transaction_data) related_transactions
    (mkGraph [node_of transaction_data] []).

Record Properties := mkProperties {
  node_count : nat;
  edge_count : nat;
  density : Q;
  average_degree : Q
}.

Definition _analyze_network_properties (network_graph : Graph) : Properties :=
  let n := inject_Z (Z.of_nat (length (nodes network_graph))) in
  let e := inject_Z (Z.of_nat (length (edges network_graph))) in
  mkProperties (length (nodes network_graph)) (length (edges network_graph))
    (Float.div fl e (Qmax 1 (Float.div fl (n * (n - 1)) 2)))
    (Float.div fl (e * 2) (Qmax 1 n)).

Definition suspicious_connection_threshold : Q := 0.8.

Definition _identify_suspicious_connections (network_graph : Graph) : list GraphEdge :=
  List.filter (fun edge => Qle_bool suspicious_connection_threshold (weight edge))
    (edges network_graph).

Record Analysis := mkAnalysis {
  network_size : nat;
  network_properties : Properties;
  suspicious_connections : nat;
  suspicious_connection_details : list GraphEdge;
  confidence_level : string
}.

(** [max_network_depth] is not read; as for the other tools, the [except]
    branch needs an amount that is not a number. *)
Definition analyze_transaction_network (transaction_data : Tx)
    (related_transactions : list Tx) : Analysis :=
  let network_graph := _build_network_graph transaction_data related_transactions in
  let network_properties := _analyze_network_properties network_graph in
  let suspicious_connections := _identify_suspicious_connections network_graph in
  mkAnalysis (length (nodes network_graph)) network_properties
    (length suspicious_connections) suspicious_connections
    (if (0 <? length suspicious_connections)%nat then "high" else "medium").

(** A related transaction that ends up as a suspicious connection. *)
Definition strongly_linked (transaction_data tx : Tx) : bool :=
  (same_customer transaction_data tx && same_counterparty transaction_data tx)
  || ((same_customer transaction_data tx || same_counterparty transaction_data tx)
      && similar_amounts transaction_data tx).

End Arithmetic.

End Network.

(** ** Overall risk score and recommendations
    (production_analysis_tools.py, lines 661-735 and 810-840) *)

Module Overall.

(** The four analysis dictionaries through the keys the calculation
    reads; a field is [None] when the key is absent. *)
Record Inputs := mkInputs {
  structuring_score : option Q;
  smurfing_score : option Q;
  anomaly_score : option Q;
  geographic_risk_score : option Q;
  suspicious_connections : option Z
}.

Definition _determine_overall_risk_level (risk_score : Q) : string :=
  if Qle_bool 0.8 risk_score then "CRITICAL"
  else if Qle_bool 0.6 risk_score then "HIGH"
  else if Qle_bool 0.4 risk_score then "MEDIUM"
  else "LOW".

Record ComponentScores := mkComponentScores {
  pattern_score : Q;
  behavioral_score : Q;
  geographic_score : Q;
  network_score : Q
}.

Record Assessment := mkAssessment {
  overall_risk_score : Q;
  risk_level : string;
  component_scores : ComponentScores;
  confidence_level : string
}.

Definition component_scores_of (inputs : Inputs) : ComponentScores :=
  mkComponentScores
    (default 0%Q (structuring_score inputs) + default 0%Q (smurfing_score inputs))%Q
    (default 0%Q (anomaly_score inputs))
    (default 0%Q (geographic_risk_score inputs))
    (Tools.Qmin 1 (inject_Z (default 0 (suspicious_connections inputs)) / 5)).

(** The weighted combination, before it is clamped. *)
Definition overall_score (inputs : Inputs) : Q :=
  let scores := component_scores_of inputs in
  (pattern_score scores * 0.3 + behavioral_score scores * 0.25
   + geographic_score scores * 0.2 + network_score scores * 0.25)%Q.

Definition calculate_overall_risk_score (inputs : Inputs) : Assessment :=
  let overall_score := overall_score inputs in
  let risk_level := _determine_overall_risk_level overall_score in
  mkAssessment (Tools.Qmin 1 (Network.Qmax 0 overall_score)) risk_level
    (component_scores_of inputs) (Tools.confidence_level overall_score).

Definition _generate_recommendations (risk_level : string) : list string :=
  if String.eqb risk_level "CRITICAL" then
    ["Immediate escalation required"; "Enhanced due diligence mandatory";
     "Regulatory filing required"; "Account review and potential suspension"]
  else if String.eqb risk_level "HIGH" then
    ["Enhanced monitoring required"; "Regulatory filing recommended";
     "Additional documentation needed"; "Regular review schedule"]
  else if String.eqb risk_level "MEDIUM" then
    ["Standard monitoring sufficient"; "Document findings for audit";
     "Regular review recommended"]
  else
    ["Continue standard monitoring"; "Document for compliance records"].

End Overall.

(** ** Statistics over investigation results
    (production_workflow.py, lines 1190-1217) *)

Record InvestigationStatistics := mkInvestigationStatistics {
  stat_total : Z;
  stat_high_risk : Z;
  stat_medium_risk : Z;
  stat_low_risk : Z;
  stat_sar_filed : Z;
  stat_human_review : Z
}.

(** One turn of the loop over the investigations; the results it is run
    on are formatted outputs, whose risk level is always present. *)
Definition statistics_step (stats : InvestigationStatistics) (inv : AnalysisOutput)
  : InvestigationStatistics :=
  let risk_level := out_risk_level inv in
  let status := out_status inv in
  let stats :=
    if PyStr.mem risk_level ["HIGH"; "CRITICAL"]%string
    then mkInvestigationStatistics (stat_total stats) (stat_high_risk stats + 1)
           (stat_medium_risk stats) (stat_low_risk stats) (stat_sar_filed stats)
           (stat_human_review stats)
    else if String.eqb risk_level "MEDIUM"
    then mkInvestigationStatistics (stat_total stats) (stat_high_risk stats)
           (stat_medium_risk stats + 1) (stat_low_risk stats) (stat_sar_filed stats)
           (stat_human_review stats)
    else mkInvestigationStatistics (stat_total stats) (stat_high_risk stats)
           (stat_medium_risk stats) (stat_low_risk stats + 1) (stat_sar_filed stats)
           (stat_human_review stats) in
  if bool_decide (status = Some "SAR_FILED"%string)
  then mkInvestigationStatistics (stat_total stats) (stat_high_risk stats)
         (stat_medium_risk stats) (stat_low_risk stats) (stat_sar_filed stats + 1)
         (stat_human_review stats)
  else if bool_decide (status = Some "HUMAN_REVIEW"%string)
  then mkInvestigationStatistics (stat_total stats) (stat_high_risk stats)
         (stat_medium_risk stats) (stat_low_risk stats) (stat_sar_filed stats)
         (stat_human_review stats + 1)
  else stats.

Definition _calculate_investigation_statistics (investigations : list AnalysisOutput)
  : InvestigationStatistics :=
  fold_left statistics_step investigations
    (mkInvestigationStatistics (Z.of_nat (length investigations)) 0 0 0 0 0).

(** The formatted final state of a run of the graph from an initial
    state. *)
Definition pipeline_output (output : AnalysisOutput) : Prop :=
  exists env unified_tx customer raw trace final,
    invoke env (initial_state unified_tx customer raw) = Some (trace, final) /\
    output = format_analysis_output final.

(** The results whose report was filed on a sanction hit. *)
Definition sanction_reports (investigations : list AnalysisOutput) : Z :=
  count_if (fun inv => negb (bool_decide (out_sanctions_hits inv = []))) investigations.

(** ** Vocabulary for the unified record *)

(** The keys every recognised source shape is mapped to. *)
Definition common_keys : list string :=
  ["transaction_id"; "customer_id"; "counterparty_id"; "amount"; "currency";
   "transaction_type"; "transaction_date"; "location"; "country"; "description";
   "status"]%string.

(** An operational record and an HI-Small record. *)
Definition operational_record : gmap string Raw.value :=
  {[ "transaction_id"%string := Raw.VStr "T-1";
     "customer_id"%string := Raw.VStr "C-9";
     "amount"%string := Raw.VInt 250;
     "asset_type"%string := Raw.VStr "CRYPTO" ]}.
Definition hi_small_record : gmap string Raw.value :=
  {[ "From Bank"%string := Raw.VStr "03208";
     "Account"%string := Raw.VStr "8000EBD30";
     "To Bank"%string := Raw.VStr "011";
     "Amount Received"%string := Raw.VInt 3697;
     "Is Laundering"%string := Raw.VInt 1 ]}.

(** ** The batch loop over HI-Small_Trans
    (batch_processor.py, lines 120-178; aml_data_loader.py, lines 158-181
    and 218-292) *)

Module BatchLoop.

Section Loop.

Variable Row : Type.
Variable TxnEvent : Type.
Variable make_txn_event : Row -> Raw.result TxnEvent.
Variable run_aml_investigation : TxnEvent -> Raw.result Batch.InvResult.
Variable is_laundering : Row -> Z.

(** [data_loader.load_hi_trans_batch batch_size offset] and
    [data_loader.engineer_features df]; either may raise, and the loop
    does not catch it. *)
Variable load_hi_trans_batch : Z -> Z -> Raw.result (list Row).
Variable engineer_features : list Row -> Raw.result (list Row).

Variable batch_size : Z.
Variable offset : Z.
Variable max_batches : option Z.

(** [max_batches and batch_count >= max_batches]: [None] and 0 are
    both false. *)
Definition cap_reached (batch_count : Z) : bool :=
  match max_batches with
  | Some m => negb (m =? 0) && (m <=? batch_count)
  | None => false
  end.

(** The [while True] loop from a given batch count; [fuel] bounds the
    number of turns, [None] is a loop that has not ended within it.  The
    state is the processor's statistics and the results so far. *)
Fixpoint batches_from (fuel : nat) (batch_count : Z) (stats : Batch.Stats)
    (all_results : list Batch.InvResult)
  : option (Raw.result (Batch.Stats * list Batch.InvResult)) :=
  match fuel with
  | O => None
  | S fuel' =>
      if cap_reached batch_count then Some (Raw.Ok (stats, all_results))
      else
        match load_hi_trans_batch batch_size (offset + batch_count * batch_size) with
        | Raw.Raise e => Some (Raw.Raise e)
        | Raw.Ok [] => Some (Raw.Ok (stats, all_results))
        | Raw.Ok (row :: rows) =>
            match engineer_features (row :: rows) with
            | Raw.Raise e => Some (Raw.Raise e)
            | Raw.Ok df =>
                let out := Batch._process_hi_trans_batch Row TxnEvent make_txn_event
                             run_aml_investigation is_laundering stats df in
                let all_results := all_results ++ snd out in
                if Z.of_nat (length df) <? batch_size
                then Some (Raw.Ok (fst out, all_results))
                else batches_from fuel' (batch_count + 1) (fst out) all_results
            end
        end
  end.

(** The loop from batch 0 with no results yet.  Switching the approval
    manager to mock mode and the log lines are left out; an investigation is
    taken as a function of the event, as in [Batch]. *)
Definition process_hi_trans_batch (fuel : nat) (stats : Batch.Stats)
  : option (Raw.result (Batch.Stats * list Batch.InvResult)) :=
  batches_from fuel 0 stats [].

(** Batch number [k] was loaded and engineered into [df]. *)
Definition batch_is (k : Z) (df : list Row) : Prop :=
  exists loaded,
    load_hi_trans_batch batch_size (offset + k * batch_size) = Raw.Ok loaded /\
    engineer_features loaded = Raw.Ok df.

(** [dfs] are the batches numbered from [first] on. *)
Fixpoint batches_are (first : Z) (dfs : list (list Row)) : Prop :=
  match dfs with
  | [] => True
  | df :: later => batch_is first df /\ batches_are (first + 1) later
  end.

(** The statistics and results after processing the batches [dfs]. *)
Definition after_batches (stats : Batch.Stats) (dfs : list (list Row))
  : Batch.Stats * list Batch.InvResult :=
  fold_left
    (fun acc df =>
       let out := Batch._process_hi_trans_batch Row TxnEvent make_txn_event
                    run_aml_investigation is_laundering (fst acc) df in
       (fst out, snd acc ++ snd out))
    dfs (stats, []).

End Loop.

End BatchLoop.

(** A loader over fifty rows held in memory, and feature engineering that
    leaves the rows as they are. *)
Definition demo_load (batch_size offset : Z) : Raw.result (list nat) :=
  Raw.Ok (firstn (Z.to_nat batch_size) (skipn (Z.to_nat offset) fifty_rows)).
Definition demo_engineer (df : list nat) : Raw.result (list nat) := Raw.Ok df.

(** ** The batch summary (batch_processor.py, lines 299-329) *)

(** [BatchProcessingResult], without its identifier and clock readings. *)
Record BatchProcessingResult := mkBatchProcessingResult {
  total_transactions : Z;
  processed_transactions : Z;
  summary_escalated_cases : Z;
  summary_sar_cases : Z;
  summary_pending_approvals : Z;
  summary_accuracy_metrics : option Batch.Metrics
}.

(** [stats] is the processor's statistics and [pending] the number of
    approvals the approval manager holds when the summary is made. *)
Definition create_batch_summary (stats : Batch.Stats) (pending : Z)
    (results : list Batch.InvResult) : BatchProcessingResult :=
  let accuracy_metrics := Batch.calculate_accuracy_metrics results in
  let escalated_cases :=
    count_if (fun r => Batch.level_in ["High"; "Critical"]%string (Batch.risk_level r))
      results in
  let sar_cases :=
    count_if (fun r => bool_decide (Batch.reporting_status r = Some "SAR_FILED"%string))
      results in
  mkBatchProcessingResult (Z.of_nat (length results)) (Batch.total_processed stats)
    escalated_cases sar_cases pending accuracy_metrics.

(** ** Vocabulary for the smurfing tool *)

(** All transactions of the window name the same counterparty. *)
Definition single_recipient (group : list Tools.Tx) : bool :=
  (length (remove_dups (map Tools.counterparty_id group)) =? 1)%nat.

(** The variance numpy returns for the amounts of the window is below
    1000. *)
Definition low_variance (fl : Float.Arith) (group : list Tools.Tx) : bool :=
  Qltb (Float.np_var fl (map Tools.amount_or_zero group)) 1000.

Definition coordinated_window (group : list Tools.Tx) : bool :=
  (3 <=? length group)%nat && single_recipient group.

(** ** Vocabulary for the alerts of a run *)

(** The alerts the stages can raise. *)
Definition rule_alerts : list string :=
  ["MISSING_DOCUMENTS"; "STRUCTURING_PATTERN"; "UNIFORM_TRANSACTIONS"]%string.

(** The alerts are distinct rule alerts, and the structuring flag says
    whether STRUCTURING_PATTERN is among them. *)
Definition alerts_consistent (s : AMLState) : Prop :=
  NoDup (alerts s) /\
  (forall alert, In alert (alerts s) -> In alert rule_alerts) /\
  (structuring_detected s = true <-> In "STRUCTURING_PATTERN"%string (alerts s)).

(** What holds of the alerts when a stage is entered: none before the
    document check, at most MISSING_DOCUMENTS before the behaviour check. *)
Definition alerts_on_entry (st : Stage.t) (s : AMLState) : Prop :=
  match st with
  | Stage.initial_screening | Stage.crypto_analysis | Stage.geo_analysis
  | Stage.document_check =>
      alerts s = [] /\ structuring_detected s = false
  | Stage.behavior_check =>
      (alerts s = [] \/ alerts s = ["MISSING_DOCUMENTS"%string]) /\
      structuring_detected s = false
  | _ => alerts_consistent s
  end.

(** * Properties *)

(** ** Risk scoring *)

Lemma count_if_nonneg {A} (p : A -> bool) (xs : list A) : 0 <= count_if p xs.
Proof. unfold count_if. lia. Qed.

Lemma risk_scoring_score (s : AMLState) :
  risk_score (risk_scoring s) = Z.min (weighted_sum s) 100.
Proof.
  unfold risk_scoring, weighted_sum. cbn [risk_score set_risk_score update_path
    set_decision_path sanction_hits pep_status risk_factors document_risks alerts
    structuring_detected smurfing_detected].
  destruct (truthy (pep_status s)), (structuring_detected s), (smurfing_detected s);
    cbn [Z.b2z]; f_equal; lia.
Qed.

Lemma weighted_sum_nonneg (s : AMLState) : 0 <= weighted_sum s.
Proof.
  unfold weighted_sum.
  pose proof (count_if_nonneg (PyStr.contains "CRYPTO") (risk_factors s)).
  pose proof (count_if_nonneg
    (fun rf => PyStr.contains "HIGH_RISK" rf || PyStr.contains "TAX_HAVEN" rf)
    (risk_factors s)).
  destruct (truthy (pep_status s)), (structuring_detected s), (smurfing_detected s);
    cbn [Z.b2z]; lia.
Qed.

(** C1: the score computed at score_risk is min(100, weighted sum of the
    state's factors); it lies in [0,100] and does not depend on the score
    the state carried before (it is recomputed, never accumulated). *)
Theorem risk_scoring_fresh_weighted_sum (env : Env) (s : AMLState) :
  workflow_nodes env Stage.score_risk s = risk_scoring s /\
  risk_score (risk_scoring s) =
    Z.min 100
      (40 * Z.of_nat (length (sanction_hits s))
       + 35 * (if truthy (pep_status s) then 1 else 0)
       + 25 * Z.of_nat (length (List.filter (PyStr.contains "CRYPTO") (risk_factors s)))
       + 20 * Z.of_nat (length (List.filter
                (fun rf => PyStr.contains "HIGH_RISK" rf || PyStr.contains "TAX_HAVEN" rf)
                (risk_factors s)))
       + 15 * Z.of_nat (length (document_risks s))
       + 10 * Z.of_nat (length (alerts s))
       + 30 * (if structuring_detected s then 1 else 0)
       + 30 * (if smurfing_detected s then 1 else 0)) /\
  0 <= risk_score (risk_scoring s) <= 100 /\
  (forall previous : Z,
      risk_score (risk_scoring (set_risk_score previous s)) =
      risk_score (risk_scoring s)) /\
  risk_score (risk_scoring (risk_scoring s)) = risk_score (risk_scoring s).
Proof.
  split; [reflexivity|].
  split.
  { rewrite risk_scoring_score, Z.min_comm. reflexivity. }
  split.
  { rewrite risk_scoring_score. pose proof (weighted_sum_nonneg s). lia. }
  split.
  { intros previous. rewrite !risk_scoring_score. reflexivity. }
  rewrite !risk_scoring_score. reflexivity.
Qed.

(** ** Routing out of score_risk *)

(** C4: after score_risk the graph goes to generate_sar exactly when the
    score is at least 65, to human_review exactly when it is in [40,65),
    and ends exactly when it is below 40. *)
Theorem route_risk_score_thresholds (s : AMLState) :
  (next_target Stage.score_risk s = Some (Node Stage.generate_sar)
     <-> 65 <= risk_score s) /\
  (next_target Stage.score_risk s = Some (Node Stage.human_review)
     <-> 40 <= risk_score s < 65) /\
  (next_target Stage.score_risk s = Some END <-> risk_score s < 40).
Proof.
  unfold next_target; cbn [workflow_edges]; unfold route_risk_score.
  destruct (65 <=? risk_score s) eqn:H65;
    [apply Z.leb_le in H65 | apply Z.leb_gt in H65];
    [| destruct (40 <=? risk_score s) eqn:H40;
       [apply Z.leb_le in H40 | apply Z.leb_gt in H40]];
    cbn; repeat split; intros; try lia; try discriminate; try reflexivity.
Qed.

(** ** Routing out of initial_screening *)

(** C3, as stated, fails: a FIAT transaction of 500 from flagged bank 03208
    by a 3-day-old account is routed to edd, where the stated priority
    order gives geo_analysis. *)
Lemma flagged_bank_new_account_goes_to_edd :
  next_target Stage.initial_screening flagged_bank_new_account
    = Some (Node Stage.edd) /\
  SpecWording.initial_successor flagged_bank_new_account = Stage.geo_analysis /\
  next_target Stage.initial_screening flagged_bank_new_account
    <> Some (Node (SpecWording.initial_successor flagged_bank_new_account)).
Proof. split; [reflexivity | split; [reflexivity | discriminate]]. Qed.

(** C3, amended: the successor of initial_screening is crypto_analysis for
    a CRYPTO asset; otherwise geo_analysis when the amount exceeds 100,000;
    otherwise edd when the account is younger than 7 days (365 when the age
    is missing); otherwise geo_analysis when either bank is flagged;
    otherwise document_check. *)
Theorem route_initial_screening_priority (s : AMLState) :
  next_target Stage.initial_screening s =
    Some (Node
      (if bool_decide (tx_asset_type (transaction s) = Some "CRYPTO"%string)
       then Stage.crypto_analysis
       else if Qltb 100000 (amount_of (transaction s)) then Stage.geo_analysis
       else if default 365 (account_age_days (customer s)) <? 7 then Stage.edd
       else if PyStr.omem (tx_from_bank (transaction s)) HIGH_RISK_BANKS
               || PyStr.omem (tx_to_bank (transaction s)) HIGH_RISK_BANKS
            then Stage.geo_analysis
       else Stage.document_check)).
Proof.
  unfold next_target; cbn [workflow_edges]; unfold route_initial_screening.
  repeat (match goal with |- context [if ?c then _ else _] =>
            destruct c; try reflexivity end).
Qed.

(** ** The workflow graph is total and acyclic *)

Lemma successors_ranked (st st' : Stage.t) :
  In (Node st') (successors st) -> (stage_rank st < stage_rank st')%nat.
Proof.
  destruct st; cbn; intros H;
    repeat (destruct H as [H | H]; [inversion H; subst; cbn; lia |]);
    contradiction.
Qed.

Lemma next_target_in_successors (st : Stage.t) (s : AMLState) :
  exists t, next_target st s = Some t /\ In t (successors st).
Proof.
  destruct st; unfold next_target, successors; cbn [workflow_edges].
  - unfold route_initial_screening.
    repeat (match goal with |- context [if ?c then _ else _] => destruct c end);
      eexists; (split; [reflexivity | cbn; tauto]).
  - unfold route_crypto_analysis.
    match goal with |- context [if ?c then _ else _] => destruct c end;
      eexists; (split; [reflexivity | cbn; tauto]).
  - eexists; split; [reflexivity | cbn; tauto].
  - eexists; split; [reflexivity | cbn; tauto].
  - eexists; split; [reflexivity | cbn; tauto].
  - unfold route_sanctions_check. destruct (sanction_hits s);
      eexists; (split; [reflexivity | cbn; tauto]).
  - unfold route_pep_check. destruct (truthy (pep_status s));
      eexists; (split; [reflexivity | cbn; tauto]).
  - eexists; split; [reflexivity | cbn; tauto].
  - unfold route_risk_score.
    repeat (match goal with |- context [if ?c then _ else _] => destruct c end);
      eexists; (split; [reflexivity | cbn; tauto]).
  - eexists; split; [reflexivity | cbn; tauto].
  - eexists; split; [reflexivity | cbn; tauto].
Qed.

Lemma node_appends_label (env : Env) (st : Stage.t) (s : AMLState) :
  decision_path (workflow_nodes env st s) = decision_path s ++ [stage_label st].
Proof.
  destruct st; cbn [workflow_nodes stage_label]; try reflexivity.
  - unfold async_crypto_risk_analysis.
    match goal with |- context [if ?c then _ else _] => destruct c end; reflexivity.
  - unfold async_document_analysis.
    destruct (documents (update_path s "document_analysis")); reflexivity.
Qed.

Lemma ascending_NoDup (trace : list Stage.t) : ascending trace -> NoDup trace.
Proof.
  induction 1 as [| a l Hl IH Ha]; constructor; [| exact IH].
  intros Hin. apply list_elem_of_In in Hin.
  rewrite Forall_forall in Ha. specialize (Ha a).
  assert (stage_rank a < stage_rank a)%nat; [| lia].
  apply Ha. apply list_elem_of_In. exact Hin.
Qed.

Lemma stage_label_inj (a b : Stage.t) : stage_label a = stage_label b -> a = b.
Proof. destruct a, b; cbn; intros H; first [reflexivity | discriminate H]. Qed.

Lemma invoke_from_runs (env : Env) (limit : nat) :
  forall (st : Stage.t) (s : AMLState),
    (11 <= limit + stage_rank st)%nat ->
    exists trace final,
      invoke_from env limit st s = Some (st :: trace, final) /\
      ascending (st :: trace) /\
      decision_path final = decision_path s ++ map stage_label (st :: trace).
Proof.
  induction limit as [| limit IH]; intros st s Hfuel.
  - destruct st; cbn in Hfuel; lia.
  - cbn [invoke_from].
    destruct (next_target_in_successors st (workflow_nodes env st s))
      as [t [Hnext Hin]].
    rewrite Hnext. destruct t as [st' |].
    + pose proof (successors_ranked st st' Hin) as Hrank.
      destruct (IH st' (workflow_nodes env st s)) as [trace [final [Hrun [Hasc Hpath]]]];
        [lia |].
      rewrite Hrun. exists (st' :: trace), final.
      split; [reflexivity |]. split.
      * constructor; [exact Hasc |].
        constructor; [exact Hrank |].
        inversion Hasc as [| ? ? _ Hall]; subst.
        eapply Forall_impl; [exact Hall |]. cbn. intros; lia.
      * rewrite Hpath, node_appends_label, <- app_assoc. reflexivity.
    + exists [], (workflow_nodes env st s).
      split; [reflexivity |]. split.
      * constructor; constructor.
      * rewrite node_appends_label. reflexivity.
Qed.

(** C2: every edge of the graph leads to a stage of higher rank (the
    graph is acyclic), every router label has an edge (it is total), and
    every run from initial_screening reaches END having run each stage at
    most once; the decision path grows by one distinct name per stage run,
    so a run from the initial state never records a stage twice. *)
Theorem workflow_runs_each_stage_at_most_once (env : Env) (s0 : AMLState) :
  (forall st st', In (Node st') (successors st) ->
                  (stage_rank st < stage_rank st')%nat) /\
  (forall st s, exists t, next_target st s = Some t /\ In t (successors st)) /\
  exists trace final,
    invoke env s0 = Some (trace, final) /\
    hd_error trace = Some Stage.initial_screening /\
    NoDup trace /\
    decision_path final = decision_path s0 ++ map stage_label trace /\
    (decision_path s0 = [] -> NoDup (decision_path final)).
Proof.
  split; [exact successors_ranked |].
  split; [exact next_target_in_successors |].
  destruct (invoke_from_runs env recursion_limit entry_point s0)
    as [trace [final [Hrun [Hasc Hpath]]]]; [cbn; lia |].
  exists (entry_point :: trace), final.
  split; [exact Hrun |]. split; [reflexivity |].
  pose proof (ascending_NoDup _ Hasc) as Hnd.
  split; [exact Hnd |]. split; [exact Hpath |].
  intros Hempty. rewrite Hpath, Hempty. cbn [app].
  assert (Inj (=) (=) stage_label) as Hinj
    by (intros a b; apply stage_label_inj).
  exact (NoDup_fmap_2 stage_label _ Hnd).
Qed.

(** ** Case numbers and reporting status *)

(** No report has been made yet: the condition every stage before
    generate_sar and human_review preserves. *)
Lemma analysis_stage_keeps_reporting (env : Env) (st : Stage.t) (s : AMLState) :
  st <> Stage.generate_sar -> st <> Stage.human_review ->
  case_id (workflow_nodes env st s) = case_id s /\
  reporting_status (workflow_nodes env st s) = reporting_status s.
Proof.
  intros Hsar Hrev.
  destruct st; cbn [workflow_nodes]; try contradiction; try (split; reflexivity).
  - unfold async_crypto_risk_analysis.
    match goal with |- context [if ?c then _ else _] => destruct c end;
      split; reflexivity.
  - unfold async_document_analysis.
    destruct (documents (update_path s "document_analysis")); split; reflexivity.
Qed.

Lemma invoke_from_nonempty (env : Env) (limit : nat) (st : Stage.t) (s : AMLState)
    (trace : list Stage.t) (final : AMLState) :
  invoke_from env limit st s = Some (trace, final) -> exists rest, trace = st :: rest.
Proof.
  destruct limit as [| limit]; cbn [invoke_from]; [discriminate |].
  destruct (next_target st (workflow_nodes env st s)) as [[st' |] |];
    [| intros [= <- _]; eauto | discriminate].
  destruct (invoke_from env limit st' (workflow_nodes env st s)) as [[tr fin] |];
    [intros [= <- _]; eauto | discriminate].
Qed.

Lemma invoke_from_disposition (env : Env) (limit : nat) :
  forall (st : Stage.t) (s : AMLState) (trace : list Stage.t) (final : AMLState),
    invoke_from env limit st s = Some (trace, final) ->
    case_id s = None -> reporting_status s = None ->
    (last trace = Some Stage.generate_sar /\
     reporting_status final = Some "SAR_FILED"%string /\
     case_id final = Some (generate_case_id env)) \/
    (last trace = Some Stage.human_review /\
     reporting_status final = Some "HUMAN_REVIEW"%string /\
     review_deadline final = Some (now_review env + 24 * 3600 * 1000000) /\
     case_id final = None) \/
    (last trace = Some Stage.score_risk /\
     reporting_status final = None /\ case_id final = None).
Proof.
  induction limit as [| limit IH]; intros st s trace final Hrun Hcase Hstatus;
    [discriminate |].
  cbn [invoke_from] in Hrun.
  destruct (Stage.eqb st Stage.generate_sar) eqn:Esar.
  { destruct st; try discriminate Esar. cbn in Hrun.
    injection Hrun as <- <-. left. cbn. auto. }
  destruct (Stage.eqb st Stage.human_review) eqn:Erev.
  { destruct st; try discriminate Erev. cbn in Hrun.
    injection Hrun as <- <-. right; left. cbn. rewrite Hcase. auto. }
  destruct (analysis_stage_keeps_reporting env st s) as [Hc Hr].
  { intros ->; discriminate Esar. }
  { intros ->; discriminate Erev. }
  rewrite Hcase in Hc. rewrite Hstatus in Hr.
  destruct (next_target st (workflow_nodes env st s)) as [[st' |] |] eqn:Hnext;
    [| | discriminate].
  - destruct (invoke_from env limit st' (workflow_nodes env st s))
      as [[tr fin] |] eqn:Hrec; [| discriminate].
    injection Hrun as <- <-.
    destruct (invoke_from_nonempty _ _ _ _ _ _ Hrec) as [rest ->].
    specialize (IH _ _ _ _ Hrec Hc Hr).
    change (last (st :: st' :: rest)) with (last (st' :: rest)). exact IH.
  - injection Hrun as <- <-.
    assert (st = Stage.score_risk) as ->.
    { destruct st; try reflexivity; try discriminate Esar; try discriminate Erev;
        unfold next_target in Hnext; cbn [workflow_edges] in Hnext;
        try discriminate Hnext.
      - unfold route_initial_screening in Hnext.
        repeat (match type of Hnext with context [if ?c then _ else _] =>
                  destruct c end); discriminate Hnext.
      - unfold route_crypto_analysis in Hnext.
        match type of Hnext with context [if ?c then _ else _] => destruct c end;
          discriminate Hnext.
      - unfold route_sanctions_check in Hnext.
        destruct (sanction_hits _); discriminate Hnext.
      - unfold route_pep_check in Hnext.
        destruct (truthy _); discriminate Hnext. }
    right; right. cbn [last]. auto.
Qed.

Lemma substring_nonempty (n : nat) (digest : string) :
  (0 < String.length digest)%nat -> String.substring 0 (S n) digest <> ""%string.
Proof. destruct digest; cbn; [lia | discriminate]. Qed.

(** C10: a run of the graph from the initial state ends in exactly one
    of three ways: through generate_sar with status SAR_FILED and a case
    number, through human_review with status HUMAN_REVIEW, a deadline 24
    hours after the review clock reading and no case number, or by
    auto-close with neither.  So a case number is present exactly for
    SAR_FILED, and the storing step of analyze_transaction puts into the
    global index exactly the results of SAR-filed runs (a case number, a
    prefix of a 64-character digest, is never empty).  The run needs a
    thread id in the config of the call.  analyze_transaction invokes the
    graph without a config: the call raises ValueError before its storing
    step, both registries stay as they were, and no case, SAR-filed or
    not, enters the index through it. *)
Theorem case_id_only_for_filed_sar (env : Env) (unified_tx : Transaction)
    (customer : Customer) (raw : RawView)
    (Hdigest : forall m, String.length (sha256_hexdigest env m) = 64%nat) :
  let s0 := initial_state unified_tx customer raw in
  (exists trace final,
     invoke env s0 = Some (trace, final) /\
     (forall thread : string, workflow_invoke env (Some thread) s0 = Raw.Ok final) /\
     (case_id final <> None <-> reporting_status final = Some "SAR_FILED"%string) /\
     ((last trace = Some Stage.generate_sar /\
       reporting_status final = Some "SAR_FILED"%string /\
       case_id final = Some (generate_case_id env)) \/
      (last trace = Some Stage.human_review /\
       reporting_status final = Some "HUMAN_REVIEW"%string /\
       review_deadline final = Some (now_review env + 24 * 3600 * 1000000) /\
       case_id final = None) \/
      (last trace = Some Stage.score_risk /\
       reporting_status final = None /\ case_id final = None)) /\
     forall (thread_id : option string) (reg : Registry),
       INVESTIGATION_RESULTS
         (store_investigation (format_analysis_output final) thread_id reg) =
         if bool_decide (reporting_status final = Some "SAR_FILED"%string)
         then <[generate_case_id env := format_analysis_output final]>
                (INVESTIGATION_RESULTS reg)
         else INVESTIGATION_RESULTS reg) /\
  workflow_invoke env None s0 = Raw.Raise Raw.ValueError /\
  run_analysis env s0 = Raw.Raise Raw.ValueError /\
  forall (thread_id : option string) (reg : Registry),
    analyze_transaction env s0 thread_id reg = (Raw.Raise Raw.ValueError, reg).
Proof.
  intros s0. split; [| split; [reflexivity | split; [reflexivity | reflexivity]]].
  destruct (invoke_from_runs env recursion_limit entry_point s0)
    as [trace [final [Hrun _]]]; [cbn; lia |].
  exists (entry_point :: trace), final.
  pose proof (invoke_from_disposition env _ _ _ _ _ Hrun eq_refl eq_refl) as Hdisp.
  split; [exact Hrun |].
  split.
  { intros thread. unfold workflow_invoke, invoke. rewrite Hrun. reflexivity. }
  split.
  { destruct Hdisp as [(_ & Hs & Hc) | [(_ & Hs & _ & Hc) | (_ & Hs & Hc)]];
      rewrite Hs, Hc; split; intros H; congruence. }
  split; [exact Hdisp |].
  intros thread_id reg. unfold store_investigation.
  cbn [INVESTIGATION_RESULTS out_case_id format_analysis_output].
  destruct Hdisp as [(_ & Hs & Hc) | [(_ & Hs & _ & Hc) | (_ & Hs & Hc)]];
    rewrite Hs, Hc; cbn [str_truthy default].
  - rewrite bool_decide_eq_true_2 by reflexivity.
    assert (String.eqb (generate_case_id env) "" = false) as ->; [| reflexivity].
    apply String.eqb_neq. unfold generate_case_id.
    apply substring_nonempty. rewrite Hdigest. lia.
  - rewrite bool_decide_eq_false_2 by discriminate. reflexivity.
  - rewrite bool_decide_eq_false_2 by discriminate. reflexivity.
Qed.

(** The reporting theorem on a run that files a report: a FIAT payment of
    500 by a customer named after a sanctioned entity, with silent
    collaborators.  The graph, given a thread id, goes through generate_sar
    and ends SAR_FILED with a case number; analyze_transaction on the same
    input raises and leaves the empty registries empty. *)
Lemma case_id_only_for_filed_sar_witness :
  exists trace final,
    invoke quiet_env sanctioned_customer_payment = Some (trace, final) /\
    workflow_invoke quiet_env (Some "thread-1"%string) sanctioned_customer_payment
      = Raw.Ok final /\
    last trace = Some Stage.generate_sar /\
    reporting_status final = Some "SAR_FILED"%string /\
    case_id final = Some (generate_case_id quiet_env) /\
    generate_case_id quiet_env <> ""%string /\
    analyze_transaction quiet_env sanctioned_customer_payment None
      (mkRegistry ∅ ∅) = (Raw.Raise Raw.ValueError, mkRegistry ∅ ∅).
Proof.
  destruct (case_id_only_for_filed_sar quiet_env
              (transaction sanctioned_customer_payment)
              (customer sanctioned_customer_payment) no_raw_fields
              quiet_env_digest_length)
    as ((trace & final & Hrun & Hthread & _ & Hdisp & _) & _ & _ & Hraise).
  assert (Hstatus :
            option_map (fun run => reporting_status (snd run))
              (invoke quiet_env sanctioned_customer_payment)
            = Some (Some "SAR_FILED"%string)) by (vm_compute; reflexivity).
  change (initial_state (transaction sanctioned_customer_payment)
            (customer sanctioned_customer_payment) no_raw_fields)
    with sanctioned_customer_payment in Hrun, Hthread, Hraise.
  rewrite Hrun in Hstatus. cbn [option_map snd] in Hstatus.
  injection Hstatus as Hstatus.
  exists trace, final.
  split; [exact Hrun |]. split; [exact (Hthread "thread-1"%string) |].
  destruct Hdisp as [(Hlast & Hs & Hc) | [(_ & Hs & _) | (_ & Hs & _)]];
    [| rewrite Hs in Hstatus; discriminate Hstatus
     | rewrite Hs in Hstatus; discriminate Hstatus].
  split; [exact Hlast |]. split; [exact Hs |]. split; [exact Hc |].
  split; [vm_compute; discriminate | exact (Hraise None (mkRegistry ∅ ∅))].
Defined.

(** ** The screening stages and the lists they share with their input *)

Lemma read_alloc_new (h : Aliased.Heap) (v : list string) :
  Aliased.read (snd (Aliased.alloc h v)) (fst (Aliased.alloc h v)) = v.
Proof.
  unfold Aliased.read, Aliased.alloc; cbn [fst snd].
  rewrite lookup_app_r by lia. rewrite Nat.sub_diag. reflexivity.
Qed.

Lemma read_alloc_old (h : Aliased.Heap) (v : list string) (l : Aliased.loc) :
  (l < length h)%nat ->
  Aliased.read (snd (Aliased.alloc h v)) l = Aliased.read h l.
Proof.
  intros Hl. unfold Aliased.read, Aliased.alloc; cbn [snd].
  rewrite lookup_app_l by exact Hl. reflexivity.
Qed.

Lemma read_append_same (h : Aliased.Heap) (l : Aliased.loc) (x : string) :
  (l < length h)%nat ->
  Aliased.read (Aliased.append h l x) l = Aliased.read h l ++ [x].
Proof.
  intros Hl. unfold Aliased.append, Aliased.read at 1.
  rewrite list_lookup_insert_eq by exact Hl. reflexivity.
Qed.

Lemma read_append_other (h : Aliased.Heap) (l l' : Aliased.loc) (x : string) :
  l <> l' -> Aliased.read (Aliased.append h l x) l' = Aliased.read h l'.
Proof.
  intros Hne. unfold Aliased.append, Aliased.read at 1.
  rewrite list_lookup_insert_ne by exact Hne. reflexivity.
Qed.

(** What pep_screening returns, read through the returned references, is
    what the value-level stage computes: the two models differ only in what
    happens to the input's own lists. *)
Lemma pep_screening_returns (h : Aliased.Heap) (st : Aliased.StateRef) (s : AMLState) :
  Aliased.valid h st ->
  cust_name (customer s) = Aliased.customer_name st ->
  Aliased.read h (Aliased.decision_path_ref st) = decision_path s ->
  Aliased.read h (Aliased.risk_factors_ref st) = risk_factors s ->
  let out := Aliased.pep_screening h st in
  Aliased.c_decision_path (Aliased.contents (snd out) (fst out))
    = decision_path (pep_screening s) /\
  Aliased.c_risk_factors (Aliased.contents (snd out) (fst out))
    = risk_factors (pep_screening s) /\
  Aliased.c_pep_status (Aliased.contents (snd out) (fst out))
    = pep_status (pep_screening s).
Proof.
  intros (Hdp & Hrf & _ & _) Hname Hpath Hfactors out. subst out.
  unfold Aliased.pep_screening, Aliased.update_path, pep_screening, update_path.
  cbn [Aliased.alloc Aliased.customer_name Aliased.risk_factors_ref
       Aliased.decision_path_ref Aliased.contents fst snd
       Aliased.c_decision_path Aliased.c_risk_factors Aliased.c_pep_status
       Aliased.pep_status_val customer set_decision_path set_risk_factors
       set_pep_status decision_path risk_factors pep_status].
  rewrite Hname.
  set (grown := h ++ [Aliased.read h (Aliased.decision_path_ref st) ++ ["pep_check"%string]]).
  assert (Hlen : length grown = S (length h))
    by (subst grown; rewrite length_app; cbn; lia).
  assert (Hnew : Aliased.read grown (length h)
                 = Aliased.read h (Aliased.decision_path_ref st) ++ ["pep_check"%string]).
  { exact (read_alloc_new h _). }
  assert (Hold : Aliased.read grown (Aliased.risk_factors_ref st)
                 = Aliased.read h (Aliased.risk_factors_ref st)).
  { exact (read_alloc_old h _ _ Hrf). }
  destruct (check_pep_database (default ""%string (Aliased.customer_name st))).
  - rewrite read_append_other by lia.
    rewrite read_append_same by lia.
    rewrite Hnew, Hold, Hpath, Hfactors. auto.
  - rewrite Hnew, Hold, Hpath, Hfactors. auto.
Qed.

Lemma length_append (h : Aliased.Heap) (l : Aliased.loc) (x : string) :
  length (Aliased.append h l x) = length h.
Proof. unfold Aliased.append. apply length_insert. Qed.

Lemma read_snoc_old (h : Aliased.Heap) (v : list string) (l : Aliased.loc) :
  (l < length h)%nat -> Aliased.read (h ++ [v]) l = Aliased.read h l.
Proof. exact (read_alloc_old h v l). Qed.

Lemma read_snoc_new (h : Aliased.Heap) (v : list string) :
  Aliased.read (h ++ [v]) (length h) = v.
Proof. exact (read_alloc_new h v). Qed.

(** The same for sanctions_screening, when the parties list is not the
    very list object that holds the risk factors. *)
Lemma sanctions_screening_returns (h : Aliased.Heap) (st : Aliased.StateRef)
    (s : AMLState) :
  Aliased.valid h st ->
  Aliased.parties_ref st <> Some (Aliased.risk_factors_ref st) ->
  cust_name (customer s) = Aliased.customer_name st ->
  tx_counterparty_id (transaction s) = Aliased.counterparty st ->
  tx_parties (transaction s) = Aliased.read h <$> Aliased.parties_ref st ->
  Aliased.read h (Aliased.decision_path_ref st) = decision_path s ->
  Aliased.read h (Aliased.risk_factors_ref st) = risk_factors s ->
  let out := Aliased.sanctions_screening h st in
  Aliased.c_decision_path (Aliased.contents (snd out) (fst out))
    = decision_path (sanctions_screening s) /\
  Aliased.c_sanction_hits (Aliased.contents (snd out) (fst out))
    = sanction_hits (sanctions_screening s) /\
  Aliased.c_risk_factors (Aliased.contents (snd out) (fst out))
    = risk_factors (sanctions_screening s).
Proof.
  intros (Hdp & Hrf & _ & Hpv) Hdistinct Hname Hcp Hparties Hpath Hfactors out.
  subst out.
  unfold Aliased.sanctions_screening, Aliased.update_path, sanctions_screening,
    update_path.
  cbn [Aliased.alloc Aliased.customer_name Aliased.counterparty
       Aliased.risk_factors_ref Aliased.decision_path_ref Aliased.parties_ref
       customer transaction set_decision_path set_risk_factors set_sanction_hits
       decision_path risk_factors sanction_hits].
  rewrite Hname, Hcp, Hparties, <- Hpath, <- Hfactors.
  set (name := default ""%string (Aliased.customer_name st)).
  set (cp := default ""%string (Aliased.counterparty st)).
  set (h1 := h ++ [Aliased.read h (Aliased.decision_path_ref st) ++ ["sanctions_check"%string]]).
  assert (Hlen1 : length h1 = S (length h))
    by (subst h1; rewrite length_app; cbn; lia).
  destruct (Aliased.parties_ref st) as [lp |] eqn:Eparties.
  - assert (lp <> Aliased.risk_factors_ref st) as Hne by congruence.
    cbn [fmap option_fmap option_map default].
    set (h2 := Aliased.append (Aliased.append h1 lp name) lp cp).
    assert (Hlen2 : length h2 = S (length h))
      by (subst h2; rewrite !length_append; exact Hlen1).
    assert (Hp : Aliased.read h2 lp = (Aliased.read h lp ++ [name]) ++ [cp]).
    { subst h2. rewrite read_append_same by (rewrite length_append; lia).
      rewrite read_append_same by lia. subst h1. rewrite read_snoc_old by lia.
      reflexivity. }
    assert (Hr : Aliased.read h2 (Aliased.risk_factors_ref st)
                 = Aliased.read h (Aliased.risk_factors_ref st)).
    { subst h2. rewrite !read_append_other by exact Hne.
      subst h1. apply read_snoc_old. exact Hrf. }
    assert (Hd : Aliased.read h2 (length h)
                 = Aliased.read h (Aliased.decision_path_ref st) ++ ["sanctions_check"%string]).
    { subst h2. rewrite !read_append_other by lia. subst h1. apply read_snoc_new. }
    rewrite Hp.
    set (hits := check_sanctions_list ((Aliased.read h lp ++ [name]) ++ [cp])).
    cbn [Aliased.contents fst snd Aliased.c_decision_path Aliased.c_sanction_hits
         Aliased.c_risk_factors Aliased.decision_path_ref Aliased.sanction_hits_ref
         Aliased.risk_factors_ref].
    rewrite (read_snoc_old h2) by lia. rewrite Hr.
    split.
    { rewrite read_snoc_old by (rewrite length_app; cbn; lia).
      rewrite read_snoc_old by lia. exact Hd. }
    split.
    { rewrite read_snoc_old by (rewrite length_app; cbn; lia).
      exact (read_snoc_new h2 hits). }
    exact (read_snoc_new (h2 ++ [hits]) _).
  - cbn [fmap option_fmap option_map default Aliased.alloc].
    set (h2 := Aliased.append (Aliased.append (h1 ++ [[]]) (length h1) name)
                 (length h1) cp).
    assert (Hlen2 : length h2 = S (S (length h))).
    { subst h2. rewrite !length_append, length_app. cbn. lia. }
    assert (Hp : Aliased.read h2 (length h1) = ([] ++ [name]) ++ [cp]).
    { subst h2. rewrite read_append_same
        by (rewrite length_append, length_app; cbn; lia).
      rewrite read_append_same by (rewrite length_app; cbn; lia).
      rewrite read_snoc_new. reflexivity. }
    assert (Hr : Aliased.read h2 (Aliased.risk_factors_ref st)
                 = Aliased.read h (Aliased.risk_factors_ref st)).
    { subst h2. rewrite !read_append_other by lia.
      rewrite read_snoc_old by lia. subst h1. apply read_snoc_old. exact Hrf. }
    assert (Hd : Aliased.read h2 (length h)
                 = Aliased.read h (Aliased.decision_path_ref st) ++ ["sanctions_check"%string]).
    { subst h2. rewrite !read_append_other by lia.
      rewrite read_snoc_old by lia. subst h1. apply read_snoc_new. }
    rewrite Hp.
    set (hits := check_sanctions_list (([] ++ [name]) ++ [cp])).
    cbn [Aliased.contents fst snd Aliased.c_decision_path Aliased.c_sanction_hits
         Aliased.c_risk_factors Aliased.decision_path_ref Aliased.sanction_hits_ref
         Aliased.risk_factors_ref].
    rewrite (read_snoc_old h2) by lia. rewrite Hr.
    split.
    { rewrite read_snoc_old by (rewrite length_app; cbn; lia).
      rewrite read_snoc_old by lia. exact Hd. }
    split.
    { rewrite read_snoc_old by (rewrite length_app; cbn; lia).
      exact (read_snoc_new h2 hits). }
    exact (read_snoc_new (h2 ++ [hits]) _).
Qed.

(** C9: the screening stages change lists of their input.  On a state for
    the customer "Senator Smith" with no risk factors, pep_screening leaves
    PEP_CUSTOMER in the input's own risk_factors list, and a second call on
    the same state returns the factor twice.  On a state whose transaction
    carries a parties list and whose customer is named after a sanctioned
    entity, sanctions_screening appends to that parties list, and a second
    call on the same state returns the hit twice. *)
Theorem screening_changes_input_lists :
  Aliased.read Aliased.senator_heap (Aliased.risk_factors_ref Aliased.senator_state) = []
  /\ Aliased.read (snd Aliased.senator_once)
       (Aliased.risk_factors_ref Aliased.senator_state) = ["PEP_CUSTOMER"%string]
  /\ Aliased.c_risk_factors
       (Aliased.contents (snd Aliased.senator_once) (fst Aliased.senator_once))
     = ["PEP_CUSTOMER"%string]
  /\ Aliased.c_risk_factors
       (Aliased.contents (snd Aliased.senator_twice) (fst Aliased.senator_twice))
     = ["PEP_CUSTOMER"; "PEP_CUSTOMER"]%string
  /\ Aliased.c_parties (Aliased.contents Aliased.listed_heap Aliased.listed_state)
     = Some ["Broker One"%string]
  /\ Aliased.c_parties
       (Aliased.contents (snd Aliased.listed_once) Aliased.listed_state)
     = Some ["Broker One"; "ISIS_Financial_Network Ltd"; "ACME"]%string
  /\ Aliased.c_sanction_hits
       (Aliased.contents (snd Aliased.listed_once) (fst Aliased.listed_once))
     = ["ISIS_Financial_Network Ltd"%string]
  /\ Aliased.c_sanction_hits
       (Aliased.contents (snd Aliased.listed_twice) (fst Aliased.listed_twice))
     = ["ISIS_Financial_Network Ltd"; "ISIS_Financial_Network Ltd"]%string.
Proof. repeat split; vm_compute; reflexivity. Qed.

(** ** Structuring flags of the behavioural stage *)

Lemma Qltb_lt (a b : Q) : Qltb a b = true <-> (a < b)%Q.
Proof.
  unfold Qltb. rewrite negb_true_iff. split.
  - intros H. apply Qnot_le_lt. intros Hle.
    apply Qle_bool_iff in Hle. congruence.
  - intros H. destruct (Qle_bool b a) eqn:E; [| reflexivity].
    apply Qle_bool_iff in E. exfalso. exact (Qlt_not_le _ _ H E).
Qed.

Lemma structuring_pattern_flag (recent : list Transaction) :
  In "STRUCTURING_PATTERN"%string (structuring_alerts recent) <->
  (3 < length recent)%nat /\
  Forall (fun tx => (amount_of tx < CTR_THRESHOLD)%Q) recent.
Proof.
  unfold structuring_alerts. rewrite in_app_iff.
  assert (Hall : forallb (fun tx => Qltb (amount_of tx) CTR_THRESHOLD) recent = true
                 <-> Forall (fun tx => (amount_of tx < CTR_THRESHOLD)%Q) recent).
  { rewrite forallb_forall, List.Forall_forall.
    split; intros H tx Hin; apply Qltb_lt, H, Hin. }
  split.
  - intros [H | H].
    + destruct (Nat.ltb_spec 3 (length recent)); [| contradiction].
      destruct (forallb _ recent) eqn:E; [| contradiction].
      split; [assumption | apply Hall; reflexivity].
    + destruct (5 <? length recent)%nat; [| contradiction].
      destruct (_ && _); [| contradiction].
      destruct H as [H | []]; discriminate H.
  - intros [Hlen Hfor]. left.
    apply Nat.ltb_lt in Hlen. rewrite Hlen.
    apply Hall in Hfor. rewrite Hfor. left; reflexivity.
Qed.

Lemma below_edge_outside_band (tx : Transaction) :
  (amount_of tx < SUSPICIOUS_THRESHOLD)%Q ->
  SpecWording.near_threshold CTR_THRESHOLD tx = false.
Proof.
  intros Hlow. unfold SpecWording.near_threshold.
  assert (Qle_bool (0.95 * CTR_THRESHOLD) (amount_of tx) = false) as ->;
    [| reflexivity].
  destruct (Qle_bool (0.95 * CTR_THRESHOLD) (amount_of tx)) eqn:E; [| reflexivity].
  apply Qle_bool_iff in E. unfold SUSPICIOUS_THRESHOLD in Hlow. exfalso. lra.
Qed.

Lemma below_edge_below_threshold (tx : Transaction) :
  (amount_of tx < SUSPICIOUS_THRESHOLD)%Q -> (amount_of tx < CTR_THRESHOLD)%Q.
Proof. unfold SUSPICIOUS_THRESHOLD, CTR_THRESHOLD. intros H. lra. Qed.

(** The specification's two structuring scenarios: four payments of 9,600
    within a day are detected, the same four over thirty days are not. *)
Example structuring_scenarios :
  structuring_detected (async_behavioral_analysis quiet_env near_threshold_day) = true /\
  structuring_detected (async_behavioral_analysis quiet_env near_threshold_month) = false.
Proof. split; vm_compute; reflexivity. Qed.

(** C5, a defect of the behavioural stage: STRUCTURING_PATTERN is raised
    without regard to the band.  The stage compares each amount of the
    window with CTR_THRESHOLD only; SUSPICIOUS_THRESHOLD, the 95% edge of
    the band, is defined and never read.  So a window of more than 3
    transactions that are all below the edge, none of them in
    [0.95*threshold, threshold), raises the flag and sets
    structuring_detected, where the rule of the specification, more than 3
    transactions in the band, raises nothing. *)
Theorem structuring_flag_ignores_band (env : Env) (s : AMLState)
    (Hmany : (3 < length (recent_transactions env s))%nat)
    (Hsmall : Forall (fun tx => (amount_of tx < SUSPICIOUS_THRESHOLD)%Q)
                (recent_transactions env s)) :
  In "STRUCTURING_PATTERN"%string (alerts (async_behavioral_analysis env s)) /\
  structuring_detected (async_behavioral_analysis env s) = true /\
  List.filter (SpecWording.near_threshold CTR_THRESHOLD) (recent_transactions env s)
    = [] /\
  SpecWording.structuring_pattern CTR_THRESHOLD (recent_transactions env s) = false.
Proof.
  assert (Hflag : In "STRUCTURING_PATTERN"%string
                    (structuring_alerts (recent_transactions env s))).
  { apply structuring_pattern_flag. split; [exact Hmany |].
    eapply List.Forall_impl; [| exact Hsmall].
    intros tx. apply below_edge_below_threshold. }
  assert (Hband : List.filter (SpecWording.near_threshold CTR_THRESHOLD)
                    (recent_transactions env s) = []).
  { clear Hmany Hflag.
    induction Hsmall as [| tx txs Htx _ IH]; [reflexivity |].
    cbn [List.filter]. rewrite (below_edge_outside_band tx Htx). exact IH. }
  split.
  { change (alerts (async_behavioral_analysis env s))
      with (alerts s ++ structuring_alerts (recent_transactions env s)).
    apply in_or_app. right. exact Hflag. }
  split.
  { change (structuring_detected (async_behavioral_analysis env s))
      with (PyStr.mem "STRUCTURING_PATTERN"
              (structuring_alerts (recent_transactions env s))).
    unfold PyStr.mem. apply existsb_exists.
    exists "STRUCTURING_PATTERN"%string.
    split; [exact Hflag | apply String.eqb_refl]. }
  split; [exact Hband |].
  unfold SpecWording.structuring_pattern. rewrite Hband. reflexivity.
Qed.

(** The defect on four payments of 100 made within three hours: the window
    holds the four of them, the stage raises STRUCTURING_PATTERN as its only
    alert and sets structuring_detected, and no payment is in
    [9500, 10000). *)
Lemma structuring_flag_ignores_band_witness :
  map amount_of (recent_transactions quiet_env small_payments)
    = [100; 100; 100; 100]%Q /\
  alerts (async_behavioral_analysis quiet_env small_payments)
    = ["STRUCTURING_PATTERN"%string] /\
  (In "STRUCTURING_PATTERN"%string
     (alerts (async_behavioral_analysis quiet_env small_payments)) /\
   structuring_detected (async_behavioral_analysis quiet_env small_payments) = true /\
   List.filter (SpecWording.near_threshold CTR_THRESHOLD)
     (recent_transactions quiet_env small_payments) = [] /\
   SpecWording.structuring_pattern CTR_THRESHOLD
     (recent_transactions quiet_env small_payments) = false).
Proof.
  split; [vm_compute; reflexivity |]. split; [vm_compute; reflexivity |].
  apply (structuring_flag_ignores_band quiet_env small_payments).
  - vm_compute. lia.
  - repeat constructor; vm_compute; reflexivity.
Defined.

(** ** Canonicalisation of unrecognised records *)

(** C7, as stated, fails: a record with the fields record_id and value,
    none of them a sentinel field, is canonicalised to the empty record
    without any error. *)
Lemma unknown_shape_gives_empty_record :
  Raw.recognised unknown_shape_record = false /\
  Raw.unify_transaction_data Raw.decimal_conv unknown_shape_record = Raw.Ok ∅ /\
  (forall e, Raw.unify_transaction_data Raw.decimal_conv unknown_shape_record
             <> Raw.Raise e).
Proof.
  split; [vm_compute; reflexivity |].
  assert (Raw.unify_transaction_data Raw.decimal_conv unknown_shape_record = Raw.Ok ∅)
    as H by (vm_compute; reflexivity).
  split; [exact H |]. intros e. rewrite H. discriminate.
Qed.

Lemma nonempty_by_key (d : gmap string Raw.value) (key : string) (v : Raw.value) :
  d !! key = Some v -> Raw.Ok d <> Raw.Ok (∅ : gmap string Raw.value).
Proof.
  intros Hlook Heq. injection Heq as ->. rewrite lookup_empty in Hlook.
  discriminate Hlook.
Qed.

(** C7, amended: canonicalisation returns the empty record, raising no
    error, exactly for the records that carry none of the sentinel fields
    "From Bank", "transaction_id" and "SENDER_ACCOUNT_ID"; a record with a
    sentinel field yields a non-empty record or a conversion error. *)
Theorem unify_empty_iff_unrecognised (conv : Raw.Conv)
    (transaction : gmap string Raw.value) :
  Raw.unify_transaction_data conv transaction = Raw.Ok ∅ <->
  Raw.has_key transaction "From Bank" = false /\
  Raw.has_key transaction "transaction_id" = false /\
  Raw.has_key transaction "SENDER_ACCOUNT_ID" = false.
Proof.
  unfold Raw.unify_transaction_data.
  destruct (Raw.has_key transaction "From Bank") eqn:E1.
  { split; [| intros (H & _); discriminate H]. intros H. exfalso.
    destruct (Raw.py_float conv _) as [amount | e]; [| discriminate H].
    destruct (Raw.py_int conv _) as [label | e]; [| discriminate H].
    cbn [Raw.bind] in H. revert H.
    apply (nonempty_by_key _ "status"%string (Raw.VStr "completed")).
    vm_compute. reflexivity. }
  destruct (Raw.has_key transaction "transaction_id") eqn:E2.
  { split; [| intros (_ & H & _); discriminate H]. intros H. exfalso.
    destruct (Raw.py_float conv _) as [amount | e]; [| discriminate H].
    cbn [Raw.bind] in H. revert H.
    apply (nonempty_by_key _ "amount"%string (Raw.VFloat amount)).
    vm_compute. reflexivity. }
  destruct (Raw.has_key transaction "SENDER_ACCOUNT_ID") eqn:E3.
  { split; [| intros (_ & _ & H); discriminate H]. intros H. exfalso.
    destruct (Raw.py_float conv _) as [amount | e]; [| discriminate H].
    destruct (Raw.py_int conv _) as [label | e]; [| discriminate H].
    cbn [Raw.bind] in H. revert H.
    apply (nonempty_by_key _ "status"%string (Raw.VStr "completed")).
    vm_compute. reflexivity. }
  split; [intros _; auto | reflexivity].
Qed.

(** ** Batch processing with failing cases *)

Section BatchRun.

Context {Row TxnEvent : Type}.
Variable make_txn_event : Row -> Raw.result TxnEvent.
Variable run_aml_investigation : TxnEvent -> Raw.result Batch.InvResult.
Variable is_laundering : Row -> Z.

Local Abbreviation investigate :=
  (Batch.investigate_row Row TxnEvent make_txn_event run_aml_investigation
     is_laundering).
Local Abbreviation step :=
  (Batch.process_row Row TxnEvent make_txn_event run_aml_investigation
     is_laundering).
Local Abbreviation completed :=
  (Batch.completed Row TxnEvent make_txn_event run_aml_investigation
     is_laundering).
Local Abbreviation failures :=
  (Batch.failures Row TxnEvent make_txn_event run_aml_investigation
     is_laundering).

Lemma update_stats_count_error (stats : Batch.Stats) (result : Batch.InvResult) :
  Batch._update_stats (Batch.count_error stats) result
  = Batch.count_error (Batch._update_stats stats result).
Proof. reflexivity. Qed.

Lemma process_rows_count_error (df : list Row) :
  forall stats results,
    fold_left step df (Batch.count_error stats, results)
    = (Batch.count_error (fst (fold_left step df (stats, results))),
       snd (fold_left step df (stats, results))).
Proof.
  induction df as [| row df IH]; intros stats results; [reflexivity |].
  cbn [fold_left]. unfold Batch.process_row at 2 4 6.
  destruct (investigate row) as [result | e].
  - rewrite update_stats_count_error. apply IH.
  - apply IH.
Qed.

Lemma process_rows_tally (df : list Row) :
  forall stats results,
    snd (fold_left step df (stats, results)) = results ++ completed df /\
    Batch.errors (fst (fold_left step df (stats, results)))
      = Batch.errors stats + failures df /\
    Batch.total_processed (fst (fold_left step df (stats, results)))
      = Batch.total_processed stats + Z.of_nat (length (completed df)).
Proof.
  induction df as [| row df IH]; intros stats results.
  - cbn. rewrite app_nil_r. unfold Batch.failures, count_if. cbn.
    repeat split; lia.
  - cbn [fold_left]. unfold Batch.process_row at 2 4 6.
    unfold Batch.completed, Batch.failures, count_if, Batch.fails in *.
    cbn [flat_map List.filter].
    destruct (investigate row) as [result | e].
    + destruct (IH (Batch._update_stats stats result) (results ++ [result]))
        as (Hres & Herr & Htot).
      rewrite Hres, Herr, Htot. cbn [Batch._update_stats
        Batch.errors Batch.total_processed app length].
      rewrite <- app_assoc. cbn [app]. repeat split; lia.
    + destruct (IH (Batch.count_error stats) results) as (Hres & Herr & Htot).
      rewrite Hres, Herr, Htot.
      cbn [Batch.count_error Batch.errors Batch.total_processed app length].
      repeat split; lia.
Qed.

Lemma completed_have_labels (df : list Row) :
  List.filter Batch.has_labels (completed df) = completed df.
Proof.
  unfold Batch.completed.
  induction df as [| row df IH]; [reflexivity |].
  cbn [flat_map]. unfold Batch.investigate_row at 1 3.
  destruct (make_txn_event row) as [event | e]; cbn [Raw.bind app]; [| exact IH].
  destruct (run_aml_investigation event) as [result | e]; cbn [Raw.bind app];
    [| exact IH].
  cbn [List.filter Batch.has_labels Batch.ground_truth Batch.prediction].
  f_equal. exact IH.
Qed.

Lemma completed_and_failures (df : list Row) :
  Z.of_nat (length (completed df)) + failures df = Z.of_nat (length df).
Proof.
  unfold Batch.completed, Batch.failures, count_if, Batch.fails.
  induction df as [| row df IH]; [reflexivity |].
  cbn [flat_map List.filter]. destruct (investigate row) as [result | e];
    cbn [app length]; lia.
Qed.

Lemma metrics_count_completed (df : list Row) (m : Batch.Metrics) :
  Batch.calculate_accuracy_metrics (completed df) = Some m ->
  Batch.total_samples m = Z.of_nat (length (completed df)).
Proof.
  unfold Batch.calculate_accuracy_metrics.
  rewrite completed_have_labels.
  destruct (completed df) as [| r rest]; [discriminate |].
  intros [= <-]. reflexivity.
Qed.

(** C8: a case whose processing raises does not stop the batch.  With
    the failing row in the batch, the results are those of the batch without
    it (every other case is processed and recorded, in order), the
    statistics are those of the batch without it except for the error
    counter, which is one higher, and the accuracy metrics, computed from
    the recorded results only, are unchanged; their sample count is the
    number of rows processed without failure. *)
Theorem failed_case_does_not_abort_batch (stats : Batch.Stats)
    (before after : list Row) (bad : Row)
    (Hbad : Batch.fails Row TxnEvent make_txn_event run_aml_investigation
              is_laundering bad = true) :
  let with_bad :=
    Batch._process_hi_trans_batch Row TxnEvent make_txn_event
      run_aml_investigation is_laundering stats (before ++ bad :: after) in
  let without :=
    Batch._process_hi_trans_batch Row TxnEvent make_txn_event
      run_aml_investigation is_laundering stats (before ++ after) in
  snd with_bad = snd without /\
  snd with_bad = completed (before ++ after) /\
  fst with_bad = Batch.count_error (fst without) /\
  Batch.errors (fst with_bad) = Batch.errors (fst without) + 1 /\
  Batch.errors (fst with_bad) = Batch.errors stats + failures (before ++ bad :: after) /\
  Batch.total_processed (fst with_bad)
    = Batch.total_processed stats
      + (Z.of_nat (length (before ++ bad :: after)) - failures (before ++ bad :: after)) /\
  Batch.calculate_accuracy_metrics (snd with_bad)
    = Batch.calculate_accuracy_metrics (snd without) /\
  (forall m, Batch.calculate_accuracy_metrics (snd with_bad) = Some m ->
     Batch.total_samples m
     = Z.of_nat (length (before ++ bad :: after)) - failures (before ++ bad :: after)).
Proof.
  intros with_bad without.
  assert (Hstep : forall acc, step acc bad = (Batch.count_error (fst acc), snd acc)).
  { intros [st res]. unfold Batch.process_row. unfold Batch.fails in Hbad.
    destruct (investigate bad); [discriminate Hbad | reflexivity]. }
  assert (Hwith : with_bad = (Batch.count_error (fst without), snd without)).
  { subst with_bad without. unfold Batch._process_hi_trans_batch.
    rewrite !fold_left_app. cbn [fold_left]. rewrite Hstep.
    rewrite process_rows_count_error.
    destruct (fold_left step before (stats, [])) as [st res]. reflexivity. }
  destruct (process_rows_tally (before ++ after) stats []) as (Hres & _ & _).
  destruct (process_rows_tally (before ++ bad :: after) stats [])
    as (Hres' & Herr' & Htot').
  pose proof (completed_and_failures (before ++ bad :: after)) as Hsum.
  fold without in Hres. cbn [app] in Hres, Hres'.
  change (fold_left step (before ++ bad :: after) (stats, [])) with with_bad
    in Hres', Herr', Htot'.
  split; [rewrite Hwith; reflexivity |].
  split; [rewrite Hwith; exact Hres |].
  split; [rewrite Hwith; reflexivity |].
  split; [rewrite Hwith; reflexivity |].
  split; [exact Herr' |].
  split; [rewrite Htot'; lia |].
  split; [rewrite Hwith; reflexivity |].
  intros m Hm. rewrite Hres' in Hm.
  rewrite (metrics_count_completed _ _ Hm). lia.
Qed.

End BatchRun.

(** The batch theorem on fifty rows, the analysis of row 17 timing out:
    one error is tallied and the other forty-nine rows are recorded. *)
Lemma failed_case_does_not_abort_batch_witness :
  Batch.fails nat nat demo_make_txn_event demo_investigation demo_label 17%nat = true /\
  Batch.errors
    (fst (Batch._process_hi_trans_batch nat nat demo_make_txn_event
            demo_investigation demo_label (Batch.mkStats 0 0 0 0 0)
            (seq 0 17 ++ 17%nat :: seq 18 32))) = 1 /\
  length
    (snd (Batch._process_hi_trans_batch nat nat demo_make_txn_event
            demo_investigation demo_label (Batch.mkStats 0 0 0 0 0)
            (seq 0 17 ++ 17%nat :: seq 18 32))) = 49%nat.
Proof.
  split; [reflexivity |].
  destruct (failed_case_does_not_abort_batch demo_make_txn_event
              demo_investigation demo_label (Batch.mkStats 0 0 0 0 0)
              (seq 0 17) (seq 18 32) 17%nat eq_refl)
    as (_ & Hres & _ & Herr & _).
  split.
  - rewrite Herr. vm_compute. reflexivity.
  - rewrite Hres. vm_compute. reflexivity.
Defined.

(** ** Smurfing detection *)

Section SmurfingWindows.

Variable fl : Float.Arith.
Variable fromisoformat : string -> option Z.
Variable hours : Z.

Local Abbreviation within := (Tools._within_time_window fl fromisoformat).
Local Abbreviation anchored := (Tools.anchored fl fromisoformat hours).
Local Abbreviation starts_after := (Tools.starts_after fl fromisoformat hours).
Local Abbreviation separated := (Tools.separated fl fromisoformat hours).
Local Abbreviation group_step := (Tools.group_step fl fromisoformat hours).

Lemma separated_snoc (groups : list (list Tools.Tx)) (group next : list Tools.Tx) :
  separated (groups ++ [group]) -> starts_after group next ->
  separated (groups ++ [group; next]).
Proof.
  induction groups as [| g groups IH]; intros Hsep Hnext.
  - cbn. auto.
  - cbn [app Tools.separated] in *. destruct Hsep as [Hhead Hrest].
    split; [| exact (IH Hrest Hnext)].
    destruct groups; exact Hhead.
Qed.

Lemma separated_same_head (groups : list (list Tools.Tx)) (group group' : list Tools.Tx) :
  separated (groups ++ [group]) -> head group' = head group ->
  separated (groups ++ [group']).
Proof.
  induction groups as [| g groups IH]; intros Hsep Hhead.
  - cbn. auto.
  - cbn [app Tools.separated] in *. destruct Hsep as [Hfirst Hrest].
    split; [| exact (IH Hrest Hhead)].
    destruct groups as [| g' groups']; [| exact Hfirst].
    cbn [app] in *. unfold Tools.starts_after in *. rewrite Hhead. exact Hfirst.
Qed.

(** What the grouping loop maintains: the closed groups followed by the
    current one are anchored and separated windows that, laid end to end,
    give the transactions consumed so far. *)
Lemma group_step_invariant (txs : list Tools.Tx) :
  forall (groups : list (list Tools.Tx)) (current : list Tools.Tx) (seen : list Tools.Tx),
    (current = [] -> groups = []) ->
    concat (Tools.close_groups (groups, current)) = seen ->
    Forall anchored (Tools.close_groups (groups, current)) ->
    separated (Tools.close_groups (groups, current)) ->
    concat (Tools.close_groups (fold_left group_step txs (groups, current)))
      = seen ++ txs /\
    Forall anchored (Tools.close_groups (fold_left group_step txs (groups, current))) /\
    separated (Tools.close_groups (fold_left group_step txs (groups, current))).
Proof.
  induction txs as [| tx txs IH]; intros groups current seen Hempty Hcat Hanch Hsep.
  - cbn [fold_left]. rewrite app_nil_r. auto.
  - cbn [fold_left].
    destruct current as [| first rest].
    + rewrite (Hempty eq_refl) in *. cbn in Hcat. subst seen.
      change (group_step ([], []) tx) with (([] : list (list Tools.Tx)), [tx]).
      apply (IH [] [tx] [tx]); [discriminate | reflexivity | |].
      * cbn. constructor; [constructor | constructor].
      * cbn. auto.
    + cbn [Tools.close_groups] in Hcat, Hanch, Hsep.
      change (group_step (groups, first :: rest) tx)
        with (if within first tx hours
              then (groups, (first :: rest) ++ [tx])
              else (groups ++ [first :: rest], [tx])).
      destruct (within first tx hours) eqn:Hin.
      * replace (seen ++ tx :: txs) with ((seen ++ [tx]) ++ txs)
          by (rewrite <- app_assoc; reflexivity).
        apply IH; [destruct rest; discriminate | | |].
        -- cbn [app Tools.close_groups]. rewrite !concat_app in *. cbn [concat] in *.
           rewrite !app_nil_r in *. rewrite <- Hcat.
           rewrite <- !app_assoc. reflexivity.
        -- cbn [app Tools.close_groups].
           apply Forall_app in Hanch. destruct Hanch as [Hold Hcur].
           apply Forall_app. split; [exact Hold |].
           constructor; [| constructor].
           inversion Hcur as [| ? ? Hc _]; subst. cbn in Hc |- *.
           apply Forall_app. split; [exact Hc |]. constructor; [exact Hin | constructor].
        -- cbn [app Tools.close_groups].
           apply (separated_same_head groups (first :: rest)); [exact Hsep |].
           reflexivity.
      * replace (seen ++ tx :: txs) with ((seen ++ [tx]) ++ txs)
          by (rewrite <- app_assoc; reflexivity).
        apply IH; [discriminate | | |].
        -- cbn [Tools.close_groups]. rewrite concat_app. cbn [concat].
           rewrite app_nil_r. rewrite Hcat. reflexivity.
        -- cbn [Tools.close_groups]. apply Forall_app. split; [exact Hanch |].
           constructor; [| constructor]. cbn. constructor.
        -- cbn [Tools.close_groups]. rewrite <- app_assoc. cbn [app].
           apply separated_snoc; [exact Hsep |].
           unfold Tools.starts_after. cbn. exact Hin.
Qed.

Lemma group_by_time_window_windows (transactions : list Tools.Tx) :
  let groups := Tools._group_by_time_window fl fromisoformat transactions hours in
  concat groups = Tools.sorted_by_date transactions /\
  Forall anchored groups /\ separated groups.
Proof.
  unfold Tools._group_by_time_window.
  apply (group_step_invariant (Tools.sorted_by_date transactions) [] [] []);
    cbn; auto.
Qed.

End SmurfingWindows.

Lemma Qltb_compat (c a b : Q) : (a == b)%Q -> Qltb c a = Qltb c b.
Proof.
  intros Hab.
  destruct (Qltb c a) eqn:Ea, (Qltb c b) eqn:Eb; try reflexivity.
  - apply Qltb_lt in Ea. rewrite Hab in Ea. apply Qltb_lt in Ea. congruence.
  - apply Qltb_lt in Eb. rewrite <- Hab in Eb. apply Qltb_lt in Eb. congruence.
Qed.

Lemma coordination_score_as_worded (fl : Float.Arith) (group : list Tools.Tx) :
  (3 <= length group)%nat ->
  (Tools._calculate_coordination_score fl group
   == Tools.spec_coordination_score fl group)%Q.
Proof.
  intros Hlen.
  unfold Tools._calculate_coordination_score, Tools.spec_coordination_score.
  assert ((length group <? 2)%nat = false) as -> by (apply Nat.ltb_ge; lia).
  assert ((1 <? length (map Tools.amount_or_zero group))%nat = true) as ->
    by (apply Nat.ltb_lt; rewrite length_map; lia).
  assert ((3 <=? length group)%nat = true) as -> by (apply Nat.leb_le; lia).
  destruct (length (remove_dups (map Tools.counterparty_id group)) =? 1)%nat,
    (Qltb (Float.np_var fl (map Tools.amount_or_zero group)) 1000);
    vm_compute; reflexivity.
Qed.

Lemma coordinated_of_filter (fl : Float.Arith) (groups : list (list Tools.Tx)) :
  Tools.coordinated_of fl groups =
  map (fun group => (group, Tools._calculate_coordination_score fl group))
    (List.filter
       (fun group => (3 <=? length group)%nat
                     && Qltb 0.6 (Tools.spec_coordination_score fl group))
       groups).
Proof.
  unfold Tools.coordinated_of, Tools.min_coordinated_accounts.
  induction groups as [| group groups IH]; [reflexivity |].
  cbn [flat_map List.filter].
  destruct (Nat.leb_spec 3 (length group)) as [Hlen | Hlen]; cbn [andb].
  - rewrite <- (Qltb_compat _ _ _ (coordination_score_as_worded fl group Hlen)).
    destruct (Qltb 0.6 (Tools._calculate_coordination_score fl group));
      cbn [app map]; rewrite IH; reflexivity.
  - cbn [app]. exact IH.
Qed.

(** C6, as stated, fails: of three payments of 5,000 to one recipient made
    20 hours apart, the third is grouped apart from the first two (it is 40
    hours after the first), no window reaches 3 transactions and nothing is
    detected, while chaining by the gap between consecutive payments gives
    one window of three and a detection. *)
Lemma twenty_hour_chain_is_split :
  Tools._group_by_time_window Float.binary64 Tools.iso_seconds_form twenty_hour_chain 24
    = [[wire "2024-01-01T00:00:00" "R-1" 5000; wire "2024-01-01T20:00:00" "R-1" 5000];
       [wire "2024-01-02T16:00:00" "R-1" 5000]]%string /\
  Tools.detected
    (Tools.detect_smurfing_patterns Float.binary64 Tools.iso_seconds_form (wire "" "" 0)
       twenty_hour_chain 24) = false /\
  Tools.spec_chain_windows Float.binary64 Tools.iso_seconds_form twenty_hour_chain 24
    = [twenty_hour_chain] /\
  Tools.spec_detected Float.binary64 Tools.iso_seconds_form twenty_hour_chain 24 = true.
Proof. repeat split; vm_compute; reflexivity. Qed.

(** The specification's two smurfing scenarios: three payments within two
    hours to one counterparty score above 0.6 and are detected; to three
    different counterparties they are not. *)
Example smurfing_scenarios :
  (0.6 < Tools._calculate_coordination_score Float.binary64 same_counterparty)%Q /\
  Tools.detected
    (Tools.detect_smurfing_patterns Float.binary64 Tools.iso_seconds_form (wire "" "" 0)
       same_counterparty 24) = true /\
  Tools.detected
    (Tools.detect_smurfing_patterns Float.binary64 Tools.iso_seconds_form (wire "" "" 0)
       three_counterparties 24) = false.
Proof.
  split; [apply Qltb_lt; vm_compute; reflexivity |].
  split; vm_compute; reflexivity.
Qed.

(** Rounding decides at the ceiling: for three payments to one recipient
    whose amounts have a variance just below 1000 as rationals, numpy's
    variance is 1000, not below the ceiling, so the window scores 0.7, the
    smurfing score is 0.59 and nothing is detected. *)
Example variance_at_the_ceiling :
  (sq_dev (map Tools.amount_or_zero variance_at_ceiling) / 3 < 1000)%Q /\
  (Float.np_var Float.binary64 (map Tools.amount_or_zero variance_at_ceiling)
   == 1000)%Q /\
  (Tools._calculate_coordination_score Float.binary64 variance_at_ceiling == 0.7)%Q /\
  (Tools.smurfing_score
     (Tools.detect_smurfing_patterns Float.binary64 Tools.iso_seconds_form
        (wire "" "" 0) variance_at_ceiling 24) == 0.59)%Q /\
  Tools.detected
    (Tools.detect_smurfing_patterns Float.binary64 Tools.iso_seconds_form
       (wire "" "" 0) variance_at_ceiling 24) = false.
Proof.
  split; [apply Qltb_lt; vm_compute; reflexivity |].
  split; [apply Qeq_bool_iff; vm_compute; reflexivity |].
  split; [apply Qeq_bool_iff; vm_compute; reflexivity |].
  split; [apply Qeq_bool_iff; vm_compute; reflexivity |].
  vm_compute. reflexivity.
Qed.

(** The structuring tool on the specification's scenario: a payment of
    9,600 with three related payments of 9,600 scores 0.9 and is detected. *)
Example structuring_tool_scenario :
  Tools.structuring_detected_flag
    (Tools.detect_structuring_patterns Float.binary64 (wire "" "" 9600)
       [wire "" "" 9600; wire "" "" 9600; wire "" "" 9600] 10000) = true.
Proof. vm_compute. reflexivity. Qed.

(** C6, amended: the related transactions, sorted by date, are cut into
    consecutive windows; a transaction joins the current window when it is
    within the time window of that window's FIRST transaction, and starts a
    new window otherwise.  For a window of at least 3 transactions the
    coordination score is 0.5*[one distinct recipient] + 0.3*[amount
    variance below 1000] + 0.2*[at least 3 transactions], the variance
    being the float that numpy.var returns, whatever its rounding; the
    coordinated windows are those of at least 3 transactions scoring above
    0.6; the smurfing score is 0 when there is none and otherwise
    0.7*mean(their scores) + 0.3*min(1, their number / 3); detected holds
    exactly when the smurfing score exceeds 0.7. *)
Theorem smurfing_detection_by_anchored_windows (fl : Float.Arith)
    (fromisoformat : string -> option Z) (transaction_data : Tools.Tx)
    (related_transactions : list Tools.Tx) (time_window_hours : Z) :
  let groups :=
    Tools._group_by_time_window fl fromisoformat related_transactions
      time_window_hours in
  let result :=
    Tools.detect_smurfing_patterns fl fromisoformat transaction_data
      related_transactions time_window_hours in
  concat groups = Tools.sorted_by_date related_transactions /\
  Forall (Tools.anchored fl fromisoformat time_window_hours) groups /\
  Tools.separated fl fromisoformat time_window_hours groups /\
  Forall (fun group =>
            (3 <= length group)%nat ->
            (Tools._calculate_coordination_score fl group
             == Tools.spec_coordination_score fl group)%Q) groups /\
  Tools.coordinated_groups result =
    map (fun group => (group, Tools._calculate_coordination_score fl group))
      (List.filter
         (fun group => (3 <=? length group)%nat
                       && Qltb 0.6 (Tools.spec_coordination_score fl group))
         groups) /\
  (Tools.smurfing_score result ==
     match Tools.coordinated_groups result with
     | [] => 0
     | _ :: _ => Tools.spec_smurfing_score (map snd (Tools.coordinated_groups result))
     end)%Q /\
  (Tools.detected result = true <-> (0.7 < Tools.smurfing_score result)%Q).
Proof.
  intros groups result.
  destruct (group_by_time_window_windows fl fromisoformat time_window_hours
              related_transactions) as (Hcat & Hanch & Hsep).
  split; [exact Hcat |]. split; [exact Hanch |]. split; [exact Hsep |].
  split.
  { apply List.Forall_forall. intros group _. apply coordination_score_as_worded. }
  split; [apply coordinated_of_filter |].
  split.
  - subst result. unfold Tools.detect_smurfing_patterns.
    cbn [Tools.smurfing_score Tools.coordinated_groups].
    unfold Tools._calculate_smurfing_score, Tools.spec_smurfing_score.
    destruct (Tools.coordinated_of _ _) as [| g gs]; [reflexivity |].
    rewrite length_map.
    rewrite (Qmult_comm _ 0.7), (Qmult_comm _ 0.3). reflexivity.
  - subst result. unfold Tools.detect_smurfing_patterns.
    cbn [Tools.detected Tools.smurfing_score]. apply Qltb_lt.
Qed.

(** * Further properties of the workflow *)

(** ** What each stage leaves alone *)

Lemma node_frame (env : Env) (st : Stage.t) (s : AMLState) :
  transaction (workflow_nodes env st s) = transaction s /\
  customer (workflow_nodes env st s) = customer s /\
  (st <> Stage.sanctions_check ->
     sanction_hits (workflow_nodes env st s) = sanction_hits s) /\
  (st <> Stage.pep_check -> pep_status (workflow_nodes env st s) = pep_status s) /\
  (st <> Stage.score_risk -> risk_score (workflow_nodes env st s) = risk_score s).
Proof.
  destruct st; cbn [workflow_nodes];
    try (repeat split; intros; first [reflexivity | contradiction]).
  - unfold async_crypto_risk_analysis.
    match goal with |- context [if ?c then _ else _] => destruct c end;
      repeat split; intros; reflexivity.
  - unfold async_document_analysis.
    destruct (documents (update_path s "document_analysis"));
      repeat split; intros; reflexivity.
Qed.

Lemma invoke_from_step (env : Env) (limit : nat) (st : Stage.t) (s : AMLState) :
  invoke_from env (S limit) st s =
  match next_target st (workflow_nodes env st s) with
  | None => None
  | Some END => Some ([st], workflow_nodes env st s)
  | Some (Node st') =>
      match invoke_from env limit st' (workflow_nodes env st s) with
      | Some (trace, final) => Some (st :: trace, final)
      | None => None
      end
  end.
Proof. reflexivity. Qed.

Lemma stage_eqb_eq (a b : Stage.t) : Stage.eqb a b = true <-> a = b.
Proof. destruct a, b; cbn; split; intros H; first [reflexivity | discriminate H]. Qed.

Lemma stage_eqb_refl (a : Stage.t) : Stage.eqb a a = true.
Proof. apply stage_eqb_eq. reflexivity. Qed.

Lemma stage_in_cons_other (st other : Stage.t) (trace : list Stage.t) :
  other <> st -> stage_in st (other :: trace) = stage_in st trace.
Proof.
  intros Hne. unfold stage_in. cbn [existsb].
  destruct (Stage.eqb st other) eqn:E; [| reflexivity].
  apply stage_eqb_eq in E. congruence.
Qed.

(** A field a stage alone writes keeps its value along any run that does
    not pass that stage; the transaction and the customer are never
    changed. *)
Lemma run_frame (env : Env) (limit : nat) :
  forall (st : Stage.t) (s : AMLState) (trace : list Stage.t) (final : AMLState),
    invoke_from env limit st s = Some (trace, final) ->
    transaction final = transaction s /\
    customer final = customer s /\
    (stage_in Stage.sanctions_check trace = false ->
       sanction_hits final = sanction_hits s) /\
    (stage_in Stage.pep_check trace = false -> pep_status final = pep_status s) /\
    (stage_in Stage.score_risk trace = false -> risk_score final = risk_score s).
Proof.
  induction limit as [| limit IH]; intros st s trace final Hrun; [discriminate |].
  rewrite invoke_from_step in Hrun.
  destruct (node_frame env st s) as (Htx & Hcu & Hhits & Hpep & Hscore).
  assert (Hout : forall target rest,
             stage_in target (st :: rest) = false ->
             st <> target /\ stage_in target rest = false).
  { intros target rest Hin. unfold stage_in in *. cbn [existsb] in Hin.
    apply orb_false_iff in Hin. destruct Hin as [Hne Hrest].
    split; [| exact Hrest]. intros ->. rewrite stage_eqb_refl in Hne.
    discriminate Hne. }
  destruct (next_target st (workflow_nodes env st s)) as [[st' |] |];
    [| | discriminate].
  - destruct (invoke_from env limit st' (workflow_nodes env st s))
      as [[tr fin] |] eqn:Hrec; [| discriminate].
    injection Hrun as <- <-.
    destruct (IH _ _ _ _ Hrec) as (Htx' & Hcu' & Hhits' & Hpep' & Hscore').
    split; [congruence |]. split; [congruence |].
    split; [| split]; intros Hin; destruct (Hout _ _ Hin) as [Hne Hrest].
    + rewrite (Hhits' Hrest). apply Hhits. exact Hne.
    + rewrite (Hpep' Hrest). apply Hpep. exact Hne.
    + rewrite (Hscore' Hrest). apply Hscore. exact Hne.
  - injection Hrun as <- <-.
    split; [exact Htx |]. split; [exact Hcu |].
    split; [| split]; intros Hin; destruct (Hout _ _ Hin) as [Hne _]; auto.
Qed.

Lemma terminal_run (env : Env) (limit : nat) (st : Stage.t) (s : AMLState)
    (trace : list Stage.t) (final : AMLState) :
  st = Stage.generate_sar \/ st = Stage.human_review ->
  invoke_from env limit st s = Some (trace, final) ->
  trace = [st] /\ final = workflow_nodes env st s.
Proof.
  intros Hst Hrun. destruct limit; [discriminate |].
  rewrite invoke_from_step in Hrun.
  destruct Hst as [-> | ->]; unfold next_target in Hrun;
    cbn [workflow_edges] in Hrun; revert Hrun; intros [= <- <-]; auto.
Qed.

(** The stages before the scoring and reporting ones lead on to a stage
    that is neither generate_sar nor human_review, sanctions_check apart. *)
Lemma analysis_stage_leads_on (st : Stage.t) (s : AMLState) :
  st <> Stage.sanctions_check -> st <> Stage.score_risk ->
  st <> Stage.generate_sar -> st <> Stage.human_review ->
  exists st', next_target st s = Some (Node st') /\
              st' <> Stage.generate_sar /\ st' <> Stage.human_review.
Proof.
  intros H1 H2 H3 H4.
  destruct (next_target_in_successors st s) as [t [Hnext Hin]].
  destruct st; try contradiction; cbn in Hin;
    repeat (destruct Hin as [<- | Hin];
            [eexists; split; [exact Hnext | split; discriminate] |]);
    contradiction.
Qed.

Lemma risk_scoring_bounds (s : AMLState) :
  0 <= risk_score (risk_scoring s) <= 100.
Proof. rewrite risk_scoring_score. pose proof (weighted_sum_nonneg s). lia. Qed.

Lemma next_after_score_risk (s : AMLState) :
  next_target Stage.score_risk s =
  Some (if 65 <=? risk_score s then Node Stage.generate_sar
        else if 40 <=? risk_score s then Node Stage.human_review
        else END).
Proof.
  unfold next_target; cbn [workflow_edges]; unfold route_risk_score.
  destruct (65 <=? risk_score s); [reflexivity |].
  destruct (40 <=? risk_score s); reflexivity.
Qed.

Lemma next_after_sanctions_check (s : AMLState) :
  next_target Stage.sanctions_check s =
  Some (match sanction_hits s with
        | [] => Node Stage.pep_check
        | _ :: _ => Node Stage.generate_sar
        end).
Proof.
  unfold next_target; cbn [workflow_edges]; unfold route_sanctions_check.
  destruct (sanction_hits s); reflexivity.
Qed.

(** How a run ends, from the condition on which its first stage is
    entered. *)
Lemma run_outcome (env : Env) (r0 : Z) (limit : nat) :
  forall (st : Stage.t) (s : AMLState) (trace : list Stage.t) (final : AMLState),
    invoke_from env limit st s = Some (trace, final) ->
    on_entry r0 st s ->
    ((last trace = Some Stage.generate_sar /\
      ((sanction_hits final <> [] /\ risk_score final = r0 /\
        stage_in Stage.score_risk trace = false) \/
       (sanction_hits final = [] /\ 65 <= risk_score final <= 100))) \/
     (last trace = Some Stage.human_review /\
      sanction_hits final = [] /\ 40 <= risk_score final < 65) \/
     (last trace = Some Stage.score_risk /\
      sanction_hits final = [] /\ 0 <= risk_score final < 40)).
Proof.
  induction limit as [| limit IH]; intros st s trace final Hrun Hpre;
    [discriminate |].
  destruct (Stage.eqb st Stage.generate_sar) eqn:Esar.
  { apply stage_eqb_eq in Esar. subst st.
    destruct (terminal_run env _ _ _ _ _ (or_introl eq_refl) Hrun) as [-> ->].
    left. split; [reflexivity |].
    destruct (node_frame env Stage.generate_sar s) as (_ & _ & Gh & _ & Gs).
    rewrite Gh, Gs by discriminate. cbn [on_entry] in Hpre.
    destruct Hpre as [[Hh Hr] | [Hh Hr]]; [left | right]; auto. }
  destruct (Stage.eqb st Stage.human_review) eqn:Erev.
  { apply stage_eqb_eq in Erev. subst st.
    destruct (terminal_run env _ _ _ _ _ (or_intror eq_refl) Hrun) as [-> ->].
    right; left. split; [reflexivity |].
    destruct (node_frame env Stage.human_review s) as (_ & _ & Gh & _ & Gs).
    rewrite Gh, Gs by discriminate. exact Hpre. }
  assert (Hnsar : st <> Stage.generate_sar)
    by (intros ->; discriminate Esar).
  assert (Hnrev : st <> Stage.human_review)
    by (intros ->; discriminate Erev).
  assert (Hentry : sanction_hits s = [] /\ risk_score s = r0)
    by (destruct st; try contradiction; exact Hpre).
  destruct Hentry as [Hhits Hscore].
  rewrite invoke_from_step in Hrun.
  destruct (node_frame env st s) as (_ & _ & Fhits & _ & Fscore).
  set (s' := workflow_nodes env st s) in *.
  assert (Htail : forall st' tr,
             last (st :: st' :: tr) = last (st' :: tr)) by reflexivity.
  destruct (Stage.eqb st Stage.score_risk) eqn:Escore.
  { apply stage_eqb_eq in Escore. subst st.
    assert (Hb : 0 <= risk_score s' <= 100) by apply risk_scoring_bounds.
    assert (Hh' : sanction_hits s' = []) by (rewrite Fhits; [exact Hhits | discriminate]).
    rewrite next_after_score_risk in Hrun.
    destruct (Z.leb_spec 65 (risk_score s')) as [H65 | H65].
    - destruct (invoke_from env limit Stage.generate_sar s')
        as [[tr fin] |] eqn:Hrec; [| discriminate].
      injection Hrun as <- <-.
      destruct (terminal_run env _ _ _ _ _ (or_introl eq_refl) Hrec) as [-> ->].
      left. split; [reflexivity |]. right.
      destruct (node_frame env Stage.generate_sar s') as (_ & _ & Gh & _ & Gs).
      rewrite Gh, Gs by discriminate. split; [exact Hh' | lia].
    - destruct (Z.leb_spec 40 (risk_score s')) as [H40 | H40].
      + destruct (invoke_from env limit Stage.human_review s')
          as [[tr fin] |] eqn:Hrec; [| discriminate].
        injection Hrun as <- <-.
        destruct (terminal_run env _ _ _ _ _ (or_intror eq_refl) Hrec) as [-> ->].
        right; left. split; [reflexivity |].
        destruct (node_frame env Stage.human_review s') as (_ & _ & Gh & _ & Gs).
        rewrite Gh, Gs by discriminate. split; [exact Hh' | lia].
      + injection Hrun as <- <-.
        right; right. split; [reflexivity |]. split; [exact Hh' | lia]. }
  assert (Hnscore : st <> Stage.score_risk)
    by (intros ->; discriminate Escore).
  assert (Hr' : risk_score s' = r0) by (rewrite Fscore; assumption).
  destruct (Stage.eqb st Stage.sanctions_check) eqn:Esanc.
  { apply stage_eqb_eq in Esanc. subst st.
    rewrite next_after_sanctions_check in Hrun.
    destruct (sanction_hits s') as [| hit hits] eqn:Ehits.
    - destruct (invoke_from env limit Stage.pep_check s')
        as [[tr fin] |] eqn:Hrec; [| discriminate].
      injection Hrun as <- <-.
      destruct (invoke_from_nonempty _ _ _ _ _ _ Hrec) as [rest ->].
      rewrite Htail, stage_in_cons_other by discriminate.
      apply (IH _ _ _ _ Hrec). cbn. auto.
    - destruct (invoke_from env limit Stage.generate_sar s')
        as [[tr fin] |] eqn:Hrec; [| discriminate].
      injection Hrun as <- <-.
      destruct (terminal_run env _ _ _ _ _ (or_introl eq_refl) Hrec) as [-> ->].
      left. split; [reflexivity |]. left.
      destruct (node_frame env Stage.generate_sar s') as (_ & _ & Gh & _ & Gs).
      rewrite Gh, Gs by discriminate. rewrite Ehits.
      repeat split; [discriminate | exact Hr']. }
  assert (Hnsanc : st <> Stage.sanctions_check)
    by (intros ->; discriminate Esanc).
  destruct (analysis_stage_leads_on st s' Hnsanc Hnscore Hnsar Hnrev)
    as (st' & Hnext & Hs1 & Hs2).
  rewrite Hnext in Hrun.
  destruct (invoke_from env limit st' s') as [[tr fin] |] eqn:Hrec; [| discriminate].
  injection Hrun as <- <-.
  destruct (invoke_from_nonempty _ _ _ _ _ _ Hrec) as [rest ->].
  rewrite Htail, stage_in_cons_other by exact Hnscore.
  apply (IH _ _ _ _ Hrec).
  assert (sanction_hits s' = [] /\ risk_score s' = r0) as Hpre'
    by (split; [rewrite Fhits; assumption | exact Hr']).
  destruct st'; try contradiction; exact Hpre'.
Qed.

Lemma trace_is_graph_path (env : Env) (limit : nat) :
  forall (st : Stage.t) (s : AMLState) (trace : list Stage.t) (final : AMLState),
    invoke_from env limit st s = Some (trace, final) ->
    In trace (paths_from limit st).
Proof.
  induction limit as [| limit IH]; intros st s trace final Hrun; [discriminate |].
  rewrite invoke_from_step in Hrun. cbn [paths_from].
  destruct (next_target_in_successors st (workflow_nodes env st s))
    as [t [Hnext Hin]].
  rewrite Hnext in Hrun. apply in_flat_map. exists t. split; [exact Hin |].
  destruct t as [st' |].
  - destruct (invoke_from env limit st' (workflow_nodes env st s))
      as [[tr fin] |] eqn:Hrec; [| discriminate].
    injection Hrun as <- <-. apply in_map. exact (IH _ _ _ _ Hrec).
  - injection Hrun as <- <-. left. reflexivity.
Qed.

Lemma run_ascending (env : Env) (limit : nat) :
  forall (st : Stage.t) (s : AMLState) (trace : list Stage.t) (final : AMLState),
    invoke_from env limit st s = Some (trace, final) -> ascending trace.
Proof.
  induction limit as [| limit IH]; intros st s trace final Hrun; [discriminate |].
  rewrite invoke_from_step in Hrun.
  destruct (next_target_in_successors st (workflow_nodes env st s))
    as [t [Hnext Hin]].
  rewrite Hnext in Hrun. destruct t as [st' |].
  - destruct (invoke_from env limit st' (workflow_nodes env st s))
      as [[tr fin] |] eqn:Hrec; [| discriminate].
    injection Hrun as <- <-.
    pose proof (IH _ _ _ _ Hrec) as Hasc.
    destruct (invoke_from_nonempty _ _ _ _ _ _ Hrec) as [rest ->].
    pose proof (successors_ranked st st' Hin) as Hrank.
    constructor; [exact Hasc |].
    constructor; [exact Hrank |].
    inversion Hasc as [| ? ? _ Hall]; subst.
    eapply Forall_impl; [exact Hall |]. cbn. intros; lia.
  - injection Hrun as <- <-. constructor; constructor.
Qed.

Lemma not_in_later_stages (st : Stage.t) (rest : list Stage.t) :
  ascending (st :: rest) -> stage_in st rest = false.
Proof.
  intros Hasc. inversion Hasc as [| ? ? _ Hall]; subst.
  unfold stage_in. apply not_true_is_false. intros Hex.
  apply existsb_exists in Hex. destruct Hex as [x [Hin Heq]].
  apply stage_eqb_eq in Heq. subst x.
  rewrite List.Forall_forall in Hall. specialize (Hall st Hin). lia.
Qed.

(** Once sanctions_check has run, the hits in the final state are those it
    found among the transaction's parties, the customer and the
    counterparty. *)
Lemma run_sanction_hits (env : Env) (limit : nat) :
  forall (st : Stage.t) (s : AMLState) (trace : list Stage.t) (final : AMLState),
    invoke_from env limit st s = Some (trace, final) ->
    stage_in Stage.sanctions_check trace = true ->
    sanction_hits final = check_sanctions_list (screened_parties s).
Proof.
  induction limit as [| limit IH]; intros st s trace final Hrun Hin;
    [discriminate |].
  pose proof (run_ascending env _ _ _ _ _ Hrun) as Hasc.
  rewrite invoke_from_step in Hrun.
  destruct (node_frame env st s) as (Htx & Hcu & _).
  destruct (next_target st (workflow_nodes env st s)) as [[st' |] |] eqn:Hnext;
    [| | discriminate].
  - destruct (invoke_from env limit st' (workflow_nodes env st s))
      as [[tr fin] |] eqn:Hrec; [| discriminate].
    injection Hrun as <- <-.
    destruct (Stage.eqb st Stage.sanctions_check) eqn:E.
    + apply stage_eqb_eq in E. subst st.
      destruct (run_frame env _ _ _ _ _ Hrec) as (_ & _ & Hkeep & _).
      rewrite Hkeep by exact (not_in_later_stages _ _ Hasc).
      unfold screened_parties. cbn [workflow_nodes sanctions_screening
        sanction_hits set_risk_factors set_sanction_hits update_path
        set_decision_path transaction customer].
      rewrite <- app_assoc. reflexivity.
    + rewrite stage_in_cons_other in Hin
        by (intros ->; rewrite stage_eqb_refl in E; discriminate E).
      rewrite (IH _ _ _ _ Hrec Hin). unfold screened_parties.
      rewrite Htx, Hcu. reflexivity.
  - injection Hrun as <- <-.
    unfold stage_in in Hin. cbn [existsb] in Hin. rewrite orb_false_r in Hin.
    apply stage_eqb_eq in Hin. subst st.
    rewrite next_after_sanctions_check in Hnext.
    destruct (sanction_hits _); discriminate Hnext.
Qed.

Lemma every_path_has_shape : forallb path_shape workflow_paths = true.
Proof. vm_compute. reflexivity. Qed.

Lemma pep_check_leads_to_score :
  forallb (fun path => implb (stage_in Stage.pep_check path)
                             (stage_in Stage.score_risk path))
          workflow_paths = true.
Proof. vm_compute. reflexivity. Qed.

(** X1: the disposition of a run agrees with its score.  A run from the
    initial state ends through human_review with a score in [40,65), by
    auto-close after score_risk with a score in [0,40), or through
    generate_sar, then either with a score in [65,100] or on a sanction hit,
    in which case the score was never computed and is still 0. *)
Theorem disposition_follows_score (env : Env) (unified_tx : Transaction)
    (customer : Customer) (raw : RawView) :
  exists trace final,
    invoke env (initial_state unified_tx customer raw) = Some (trace, final) /\
    ((last trace = Some Stage.generate_sar /\
      reporting_status final = Some "SAR_FILED"%string /\
      ((sanction_hits final <> [] /\ risk_score final = 0) \/
       (sanction_hits final = [] /\ 65 <= risk_score final <= 100))) \/
     (last trace = Some Stage.human_review /\
      reporting_status final = Some "HUMAN_REVIEW"%string /\
      sanction_hits final = [] /\ 40 <= risk_score final < 65) \/
     (last trace = Some Stage.score_risk /\
      reporting_status final = None /\
      sanction_hits final = [] /\ 0 <= risk_score final < 40)).
Proof.
  set (s0 := initial_state unified_tx customer raw).
  destruct (invoke_from_runs env recursion_limit entry_point s0)
    as [trace [final [Hrun _]]]; [cbn; lia |].
  exists (entry_point :: trace), final. split; [exact Hrun |].
  pose proof (invoke_from_disposition env _ _ _ _ _ Hrun eq_refl eq_refl) as Hd.
  assert (Hentry : on_entry 0 entry_point s0) by (cbn; auto).
  pose proof (run_outcome env 0 _ _ _ _ _ Hrun Hentry) as Ho.
  destruct Ho as [(Hl & Ho) | [(Hl & Ho) | (Hl & Ho)]];
    destruct Hd as [(Hl' & Hs & _) | [(Hl' & Hs & _) | (Hl' & Hs & _)]];
    try (rewrite Hl in Hl'; discriminate Hl').
  - left. split; [exact Hl |]. split; [exact Hs |].
    destruct Ho as [(Hh & Hr & _) | Ho]; [left | right]; auto.
  - right; left. split; [exact Hl |]. split; [exact Hs |]. exact Ho.
  - right; right. split; [exact Hl |]. split; [exact Hs |]. exact Ho.
Qed.

(** X2: a sanction hit files a report without scoring.  When the final
    state of a run holds sanction hits, they are the hits found among the
    screened parties, the run ended through generate_sar without running
    pep_check or score_risk, the status is SAR_FILED, and the reported risk
    score is the initial 0, level LOW. *)
Theorem sanction_hit_files_unscored_sar (env : Env) (unified_tx : Transaction)
    (customer : Customer) (raw : RawView) :
  exists trace final,
    invoke env (initial_state unified_tx customer raw) = Some (trace, final) /\
    (stage_in Stage.sanctions_check trace = true ->
       sanction_hits final =
       check_sanctions_list
         (screened_parties (initial_state unified_tx customer raw))) /\
    (sanction_hits final <> [] ->
       stage_in Stage.sanctions_check trace = true /\
       last trace = Some Stage.generate_sar /\
       stage_in Stage.pep_check trace = false /\
       stage_in Stage.score_risk trace = false /\
       reporting_status final = Some "SAR_FILED"%string /\
       out_risk_score (format_analysis_output final) = 0 /\
       out_risk_level (format_analysis_output final) = "LOW"%string).
Proof.
  set (s0 := initial_state unified_tx customer raw).
  destruct (invoke_from_runs env recursion_limit entry_point s0)
    as [trace [final [Hrun _]]]; [cbn; lia |].
  exists (entry_point :: trace), final. split; [exact Hrun |].
  split; [exact (run_sanction_hits env _ _ _ _ _ Hrun) |].
  intros Hhits.
  pose proof (invoke_from_disposition env _ _ _ _ _ Hrun eq_refl eq_refl) as Hd.
  assert (Hentry : on_entry 0 entry_point s0) by (cbn; auto).
  pose proof (run_outcome env 0 _ _ _ _ _ Hrun Hentry) as Ho.
  destruct (run_frame env _ _ _ _ _ Hrun) as (_ & _ & Hkeep & _).
  pose proof (trace_is_graph_path env _ _ _ _ _ Hrun) as Hpath.
  assert (Hsanc : stage_in Stage.sanctions_check (entry_point :: trace) = true).
  { destruct (stage_in Stage.sanctions_check (entry_point :: trace)) eqn:E;
      [reflexivity |]. exfalso. apply Hhits. rewrite (Hkeep eq_refl). reflexivity. }
  destruct Ho as [(Hl & [(_ & Hr & Hns) | (Hh & _)]) | [(_ & Hh & _) | (_ & Hh & _)]];
    try contradiction.
  destruct Hd as [(_ & Hs & _) | [(Hl' & _) | (Hl' & _)]];
    try (rewrite Hl in Hl'; discriminate Hl').
  split; [exact Hsanc |]. split; [exact Hl |].
  split.
  { pose proof pep_check_leads_to_score as Hall.
    rewrite forallb_forall in Hall. specialize (Hall _ Hpath).
    rewrite Hns in Hall.
    destruct (stage_in Stage.pep_check (entry_point :: trace));
      [discriminate Hall | reflexivity]. }
  split; [exact Hns |]. split; [exact Hs |].
  cbn [format_analysis_output out_risk_score out_risk_level].
  rewrite Hr. split; reflexivity.
Qed.

(** X3: every run follows one of the graph's entry-to-END paths.  It runs
    between 3 and 9 stages, never both crypto_analysis and geo_analysis;
    document_check, behavior_check and sanctions_check run together or not
    at all; pep_check runs only after sanctions_check; and score_risk runs
    unless the run ends with sanctions_check followed by generate_sar. *)
Theorem run_follows_graph_path (env : Env) (s0 : AMLState) :
  exists trace final,
    invoke env s0 = Some (trace, final) /\
    In trace workflow_paths /\
    (3 <= length trace <= 9)%nat /\
    (stage_in Stage.crypto_analysis trace = true ->
       stage_in Stage.geo_analysis trace = false) /\
    stage_in Stage.document_check trace = stage_in Stage.behavior_check trace /\
    stage_in Stage.behavior_check trace = stage_in Stage.sanctions_check trace /\
    (stage_in Stage.pep_check trace = true ->
       stage_in Stage.sanctions_check trace = true) /\
    (stage_in Stage.score_risk trace = false ->
       exists before,
         trace = before ++ [Stage.sanctions_check; Stage.generate_sar]).
Proof.
  destruct (invoke_from_runs env recursion_limit entry_point s0)
    as [trace [final [Hrun _]]]; [cbn; lia |].
  exists (entry_point :: trace), final. split; [exact Hrun |].
  pose proof (trace_is_graph_path env _ _ _ _ _ Hrun) as Hpath.
  split; [exact Hpath |].
  pose proof every_path_has_shape as Hall.
  rewrite forallb_forall in Hall. specialize (Hall _ Hpath).
  unfold path_shape in Hall.
  repeat (apply andb_prop in Hall; destruct Hall as [Hall ?]).
  split.
  { split; [apply Nat.leb_le | apply Nat.leb_le]; assumption. }
  split.
  { intros Hc. destruct (stage_in Stage.geo_analysis _); [| reflexivity].
    match goal with H : negb (_ && true) = true |- _ => rewrite Hc in H;
      discriminate H end. }
  split; [apply Bool.eqb_prop; assumption |].
  split; [apply Bool.eqb_prop; assumption |].
  split.
  { intros Hp.
    match goal with H : implb (stage_in Stage.pep_check _) _ = true |- _ =>
      rewrite Hp in H; exact H end. }
  intros Hns.
  match goal with H : (stage_in Stage.score_risk _ || _) = true |- _ =>
    rewrite Hns in H; rewrite orb_false_l in H; rename H into Hend end.
  destruct (rev (entry_point :: trace)) as [| a [| b rest]] eqn:Erev;
    [discriminate Hend | destruct a; discriminate Hend |].
  destruct a, b; cbn in Hend; try discriminate Hend.
  exists (rev rest).
  rewrite <- (rev_involutive (entry_point :: trace)), Erev.
  cbn [rev]. rewrite <- app_assoc. reflexivity.
Qed.

Lemma next_after_initial_screening_new_account (s : AMLState) :
  tx_asset_type (transaction s) <> Some "CRYPTO"%string ->
  (amount_of (transaction s) <= 100000)%Q ->
  default 365 (account_age_days (customer s)) < 7 ->
  next_target Stage.initial_screening s = Some (Node Stage.edd).
Proof.
  intros Hasset Hamount Hage.
  unfold next_target; cbn [workflow_edges]; unfold route_initial_screening.
  rewrite bool_decide_eq_false_2 by exact Hasset.
  assert (Qltb 100000 (amount_of (transaction s)) = false) as ->.
  { unfold Qltb. apply negb_false_iff. apply Qle_bool_iff. exact Hamount. }
  apply Z.ltb_lt in Hage. rewrite Hage. reflexivity.
Qed.

(** X4: a new account is not screened.  For a non-crypto transaction of
    at most 100,000 by an account younger than 7 days, the run goes from
    initial_screening straight to edd and score_risk: the sanctions, PEP,
    document and behaviour stages never run, so the final state has no
    sanction hits, no PEP status, no alerts and no structuring flag, and
    its risk factors are exactly the codes found in the due-diligence
    answer. *)
Theorem new_account_bypasses_screening (env : Env) (unified_tx : Transaction)
    (customer : Customer) (raw : RawView)
    (Hasset : tx_asset_type unified_tx <> Some "CRYPTO"%string)
    (Hamount : (amount_of unified_tx <= 100000)%Q)
    (Hage : default 365 (account_age_days customer) < 7) :
  exists trace final,
    invoke env (initial_state unified_tx customer raw) = Some (trace, final) /\
    In trace new_account_traces /\
    sanction_hits final = [] /\
    pep_status final = None /\
    alerts final = [] /\
    structuring_detected final = false /\
    risk_factors final =
      findall_codes env 3
        (llm env "edd"
           (update_path (update_path (initial_state unified_tx customer raw) "start")
              "enhanced_dd")).
Proof.
  set (s0 := initial_state unified_tx customer raw).
  set (s1 := workflow_nodes env Stage.initial_screening s0).
  set (s2 := workflow_nodes env Stage.edd s1).
  set (s3 := workflow_nodes env Stage.score_risk s2).
  assert (H1 : next_target Stage.initial_screening s1 = Some (Node Stage.edd)).
  { apply next_after_initial_screening_new_account; assumption. }
  assert (H2 : next_target Stage.edd s2 = Some (Node Stage.score_risk))
    by reflexivity.
  pose proof (next_after_score_risk s3) as H3.
  unfold invoke, recursion_limit, entry_point.
  rewrite invoke_from_step. fold s1. rewrite H1.
  rewrite invoke_from_step. fold s2. rewrite H2.
  rewrite invoke_from_step. fold s3. rewrite H3.
  destruct (65 <=? risk_score s3).
  - rewrite invoke_from_step.
    change (next_target Stage.generate_sar
              (workflow_nodes env Stage.generate_sar s3)) with (Some END).
    eexists; eexists. split; [reflexivity |].
    split; [cbn; tauto |]. repeat split; reflexivity.
  - destruct (40 <=? risk_score s3).
    + rewrite invoke_from_step.
      change (next_target Stage.human_review
                (workflow_nodes env Stage.human_review s3)) with (Some END).
      eexists; eexists. split; [reflexivity |].
      split; [cbn; tauto |]. repeat split; reflexivity.
    + eexists; eexists. split; [reflexivity |].
      split; [cbn; tauto |]. repeat split; reflexivity.
Qed.

(** The new-account theorem at a 3-day-old account paying 500 through a
    flagged bank. *)
Lemma new_account_bypasses_screening_witness :
  exists trace final,
    invoke quiet_env flagged_bank_new_account = Some (trace, final) /\
    In trace new_account_traces /\ sanction_hits final = [] /\
    pep_status final = None.
Proof.
  destruct (new_account_bypasses_screening quiet_env
              (transaction flagged_bank_new_account)
              (customer flagged_bank_new_account) no_raw_fields)
    as (trace & final & Hrun & Hin & Hh & Hp & _).
  - discriminate.
  - unfold Qle. cbn. lia.
  - cbn. lia.
  - exists trace, final. auto.
Defined.

(** ** The geographic and crypto stages against the scorer *)

Lemma count_if_app {A} (p : A -> bool) (xs ys : list A) :
  count_if p (xs ++ ys) = count_if p xs + count_if p ys.
Proof. unfold count_if. rewrite List.filter_app, length_app. lia. Qed.

Lemma mem_In (x : string) (xs : list string) : PyStr.mem x xs = true -> In x xs.
Proof.
  unfold PyStr.mem. intros H. apply existsb_exists in H.
  destruct H as [y [Hin Heq]]. apply String.eqb_eq in Heq. subst y. exact Hin.
Qed.

Lemma country_flags_counts (country : string) :
  count_if (PyStr.contains "CRYPTO") (country_flags country) = 0 /\
  count_if jurisdiction_factor (country_flags country)
    = Z.b2z (flagged_location country).
Proof.
  unfold country_flags, flagged_location.
  destruct (PyStr.mem country HIGH_RISK_COUNTRIES) eqn:Ehigh.
  - apply mem_In in Ehigh. cbn in Ehigh.
    repeat (destruct Ehigh as [<- | Ehigh]; [vm_compute; auto |]).
    contradiction.
  - destruct (PyStr.mem country TAX_HAVENS) eqn:Etax.
    + apply mem_In in Etax. cbn in Etax.
      repeat (destruct Etax as [<- | Etax]; [vm_compute; auto |]).
      contradiction.
    + vm_compute. auto.
Qed.

Lemma flags_counts (locations : list string) :
  count_if (PyStr.contains "CRYPTO") (flat_map country_flags locations) = 0 /\
  count_if jurisdiction_factor (flat_map country_flags locations)
    = count_if flagged_location locations.
Proof.
  induction locations as [| c locations [IHc IHj]]; [split; reflexivity |].
  cbn [flat_map]. rewrite !count_if_app, IHc, IHj.
  destruct (country_flags_counts c) as [Hc Hj]. rewrite Hc, Hj.
  split; [reflexivity |].
  unfold count_if. cbn [List.filter].
  destruct (flagged_location c); cbn [Z.b2z length]; lia.
Qed.

(** X5: every flagged location costs 20 points.  The geographic stage
    adds one factor per occurrence of a high-risk or tax-haven country among
    the origin, destination, country and intermediate countries, and the
    scorer counts each of them as a jurisdiction risk and none as a crypto
    risk: scoring after the stage gives min(100, previous weighted sum + 20
    per flagged occurrence). *)
Theorem geographic_flags_cost_twenty (s : AMLState) :
  risk_factors (geographic_risk_assessment s)
    = risk_factors s ++ flat_map country_flags (geo_locations s) /\
  weighted_sum (geographic_risk_assessment s)
    = weighted_sum s + 20 * count_if flagged_location (geo_locations s) /\
  risk_score (risk_scoring (geographic_risk_assessment s))
    = Z.min (weighted_sum s + 20 * count_if flagged_location (geo_locations s)) 100.
Proof.
  assert (Hrf : risk_factors (geographic_risk_assessment s)
                = risk_factors s ++ flat_map country_flags (geo_locations s))
    by reflexivity.
  assert (Hws : weighted_sum (geographic_risk_assessment s)
                = weighted_sum s + 20 * count_if flagged_location (geo_locations s)).
  { unfold weighted_sum. rewrite Hrf.
    change (fun rf => PyStr.contains "HIGH_RISK" rf || PyStr.contains "TAX_HAVEN" rf)
      with jurisdiction_factor.
    rewrite !count_if_app.
    destruct (flags_counts (geo_locations s)) as [Hc Hj]. rewrite Hc, Hj.
    change (sanction_hits (geographic_risk_assessment s)) with (sanction_hits s).
    change (pep_status (geographic_risk_assessment s)) with (pep_status s).
    change (document_risks (geographic_risk_assessment s)) with (document_risks s).
    change (alerts (geographic_risk_assessment s)) with (alerts s).
    change (structuring_detected (geographic_risk_assessment s))
      with (structuring_detected s).
    change (smurfing_detected (geographic_risk_assessment s))
      with (smurfing_detected s).
    lia. }
  split; [exact Hrf |]. split; [exact Hws |].
  rewrite risk_scoring_score, Hws. reflexivity.
Qed.

Lemma crypto_rule_risks_count (details : CryptoDetails) :
  count_if (PyStr.contains "CRYPTO") (crypto_rule_risks details)
    = Z.b2z (default false (mixer_used details)).
Proof.
  unfold crypto_rule_risks.
  destruct (default false (mixer_used details)),
    (PyStr.omem (darknet_market details) DARKNET_MARKETS),
    (default 0 (wallet_age_days details) <? 7),
    (3 <? default 0 (cross_chain_swaps details)); reflexivity.
Qed.

(** X6: what escalates a crypto payment.  For a CRYPTO transaction
    the stage's factors with CRYPTO in their name are those already present,
    CRYPTO_MIXER when a mixer was used, and such codes found in the analysis
    answer; a darknet market, a new wallet and complex routing add factors
    that are not counted.  The payment goes to enhanced due diligence exactly
    when that count reaches 2, and to the document check otherwise. *)
Theorem crypto_escalation_counts_crypto_codes (env : Env) (s : AMLState)
    (Hasset : tx_asset_type (transaction s) = Some "CRYPTO"%string) :
  count_if (PyStr.contains "CRYPTO") (risk_factors (async_crypto_risk_analysis env s))
    = count_if (PyStr.contains "CRYPTO") (risk_factors s)
      + Z.b2z (default false
                 (mixer_used (default empty_crypto_details
                                (tx_crypto_details (transaction s)))))
      + count_if (PyStr.contains "CRYPTO") (crypto_llm_codes env s) /\
  (next_target Stage.crypto_analysis (async_crypto_risk_analysis env s)
     = Some (Node Stage.edd)
   <-> 2 <= count_if (PyStr.contains "CRYPTO")
               (risk_factors (async_crypto_risk_analysis env s))) /\
  (next_target Stage.crypto_analysis (async_crypto_risk_analysis env s)
     = Some (Node Stage.document_check)
   <-> count_if (PyStr.contains "CRYPTO")
         (risk_factors (async_crypto_risk_analysis env s)) < 2).
Proof.
  assert (Hrf : risk_factors (async_crypto_risk_analysis env s)
                = risk_factors s
                  ++ crypto_rule_risks (default empty_crypto_details
                                          (tx_crypto_details (transaction s)))
                  ++ crypto_llm_codes env s).
  { unfold async_crypto_risk_analysis.
    change (transaction (update_path s "crypto_analysis")) with (transaction s).
    rewrite Hasset. rewrite bool_decide_eq_true_2 by reflexivity. reflexivity. }
  split.
  - rewrite Hrf, !count_if_app, crypto_rule_risks_count. lia.
  - unfold next_target. cbn [workflow_edges]. unfold route_crypto_analysis, count_if.
    destruct (2 <=? length (List.filter (PyStr.contains "CRYPTO")
                (risk_factors (async_crypto_risk_analysis env s))))%nat eqn:E.
    + apply Nat.leb_le in E. cbn. split; split; intros H; try lia; try discriminate H.
      reflexivity.
    + apply Nat.leb_gt in E. cbn. split; split; intros H; try lia; try discriminate H.
      reflexivity.
Qed.

Lemma crypto_escalation_counts_crypto_codes_witness :
  tx_asset_type (transaction mixer_payment) = Some "CRYPTO"%string /\
  next_target Stage.crypto_analysis (async_crypto_risk_analysis quiet_env mixer_payment)
    = Some (Node Stage.document_check).
Proof.
  split; [reflexivity |].
  apply (crypto_escalation_counts_crypto_codes quiet_env mixer_payment eq_refl).
  vm_compute. reflexivity.
Defined.

(** ** The reported score, level and predicted label *)

Lemma node_untouched (env : Env) (st : Stage.t) (s : AMLState) :
  ground_truth_label (workflow_nodes env st s) = ground_truth_label s /\
  smurfing_detected (workflow_nodes env st s) = smurfing_detected s.
Proof.
  destruct st; cbn [workflow_nodes]; try (split; reflexivity).
  - unfold async_crypto_risk_analysis.
    match goal with |- context [if ?c then _ else _] => destruct c end;
      split; reflexivity.
  - unfold async_document_analysis.
    destruct (documents (update_path s "document_analysis")); split; reflexivity.
Qed.

Lemma run_untouched (env : Env) (limit : nat) :
  forall (st : Stage.t) (s : AMLState) (trace : list Stage.t) (final : AMLState),
    invoke_from env limit st s = Some (trace, final) ->
    ground_truth_label final = ground_truth_label s /\
    smurfing_detected final = smurfing_detected s.
Proof.
  induction limit as [| limit IH]; intros st s trace final Hrun; [discriminate |].
  rewrite invoke_from_step in Hrun.
  destruct (node_untouched env st s) as [Hg Hs].
  destruct (next_target st (workflow_nodes env st s)) as [[st' |] |];
    [| | discriminate].
  - destruct (invoke_from env limit st' (workflow_nodes env st s))
      as [[tr fin] |] eqn:Hrec; [| discriminate].
    injection Hrun as <- <-.
    destruct (IH _ _ _ _ Hrec) as [Hg' Hs']. split; congruence.
  - injection Hrun as <- <-. split; assumption.
Qed.

(** A run that passes score_risk ends with the score of its own final
    state. *)
Lemma scored_run (env : Env) (limit : nat) :
  forall (st : Stage.t) (s : AMLState) (trace : list Stage.t) (final : AMLState),
    invoke_from env limit st s = Some (trace, final) ->
    stage_in Stage.score_risk trace = true ->
    risk_score final = Z.min (weighted_sum final) 100.
Proof.
  induction limit as [| limit IH]; intros st s trace final Hrun Hin;
    [discriminate |].
  rewrite invoke_from_step in Hrun.
  destruct (Stage.eqb st Stage.score_risk) eqn:Escore.
  - apply stage_eqb_eq in Escore. subst st.
    set (s' := workflow_nodes env Stage.score_risk s) in *.
    assert (Hs' : risk_score s' = Z.min (weighted_sum s') 100)
      by exact (risk_scoring_score s).
    rewrite next_after_score_risk in Hrun.
    destruct (65 <=? risk_score s').
    + destruct (invoke_from env limit Stage.generate_sar s')
        as [[tr fin] |] eqn:Hrec; [| discriminate].
      injection Hrun as <- <-.
      destruct (terminal_run env _ _ _ _ _ (or_introl eq_refl) Hrec) as [_ ->].
      exact Hs'.
    + destruct (40 <=? risk_score s').
      * destruct (invoke_from env limit Stage.human_review s')
          as [[tr fin] |] eqn:Hrec; [| discriminate].
        injection Hrun as <- <-.
        destruct (terminal_run env _ _ _ _ _ (or_intror eq_refl) Hrec) as [_ ->].
        exact Hs'.
      * injection Hrun as <- <-. exact Hs'.
  - assert (Hne : st <> Stage.score_risk)
      by (intros ->; discriminate Escore).
    destruct (next_target st (workflow_nodes env st s)) as [[st' |] |];
      [| | discriminate].
    + destruct (invoke_from env limit st' (workflow_nodes env st s))
        as [[tr fin] |] eqn:Hrec; [| discriminate].
      injection Hrun as <- <-.
      rewrite stage_in_cons_other in Hin by exact Hne.
      exact (IH _ _ _ _ Hrec Hin).
    + injection Hrun as <- <-.
      rewrite stage_in_cons_other in Hin by exact Hne. discriminate Hin.
Qed.

(** The three ways a run from the initial state ends, with the status,
    the hits and the range of the score in each. *)
Lemma initial_run_cases (env : Env) (unified_tx : Transaction)
    (customer : Customer) (raw : RawView) (trace : list Stage.t) (final : AMLState) :
  invoke env (initial_state unified_tx customer raw) = Some (trace, final) ->
  (reporting_status final = Some "SAR_FILED"%string /\
   ((sanction_hits final <> [] /\ risk_score final = 0 /\
     stage_in Stage.score_risk trace = false) \/
    (sanction_hits final = [] /\ 65 <= risk_score final <= 100))) \/
  (reporting_status final = Some "HUMAN_REVIEW"%string /\
   sanction_hits final = [] /\ 40 <= risk_score final < 65) \/
  (reporting_status final = None /\
   sanction_hits final = [] /\ 0 <= risk_score final < 40).
Proof.
  intros Hrun. unfold invoke in Hrun.
  pose proof (invoke_from_disposition env _ _ _ _ _ Hrun eq_refl eq_refl) as Hd.
  assert (Hentry : on_entry 0 entry_point (initial_state unified_tx customer raw))
    by (cbn; auto).
  pose proof (run_outcome env 0 _ _ _ _ _ Hrun Hentry) as Ho.
  destruct Ho as [(Hl & Ho) | [(Hl & Ho) | (Hl & Ho)]];
    destruct Hd as [(Hl' & Hs & _) | [(Hl' & Hs & _) | (Hl' & Hs & _)]];
    try (rewrite Hl in Hl'; discriminate Hl').
  - left. split; [exact Hs | exact Ho].
  - right; left. split; [exact Hs | exact Ho].
  - right; right. split; [exact Hs | exact Ho].
Qed.

(** X7: the reported score can be recomputed from the reported state,
    and two of its terms never count.  No stage sets the smurfing flag, and
    score_risk only runs when there is no sanction hit; so whenever a run
    from the initial state passes score_risk, its final score is min(100,
    35*PEP + 25*crypto factors + 20*jurisdiction factors + 15*document risks
    + 10*alerts + 30*structuring) over the final state. *)
Theorem reported_score_recomputable (env : Env) (unified_tx : Transaction)
    (customer : Customer) (raw : RawView) :
  exists trace final,
    invoke env (initial_state unified_tx customer raw) = Some (trace, final) /\
    smurfing_detected final = false /\
    (stage_in Stage.score_risk trace = true ->
       sanction_hits final = [] /\
       weighted_sum final = reachable_sum final /\
       risk_score final = Z.min (reachable_sum final) 100).
Proof.
  set (s0 := initial_state unified_tx customer raw).
  destruct (invoke_from_runs env recursion_limit entry_point s0)
    as [trace [final [Hrun _]]]; [cbn; lia |].
  exists (entry_point :: trace), final. split; [exact Hrun |].
  destruct (run_untouched env _ _ _ _ _ Hrun) as [_ Hsm].
  change (smurfing_detected s0) with false in Hsm.
  split; [exact Hsm |]. intros Hin.
  assert (Hhits : sanction_hits final = []).
  { destruct (initial_run_cases env _ _ _ _ _ Hrun)
      as [(_ & [(_ & _ & Hns) | (Hh & _)]) | [(_ & Hh & _) | (_ & Hh & _)]];
      try exact Hh.
    rewrite Hin in Hns. discriminate Hns. }
  assert (Hsum : weighted_sum final = reachable_sum final).
  { unfold weighted_sum, reachable_sum. rewrite Hhits, Hsm.
    change (fun rf => PyStr.contains "HIGH_RISK" rf || PyStr.contains "TAX_HAVEN" rf)
      with jurisdiction_factor.
    cbn [length Z.b2z]. lia. }
  split; [exact Hhits |]. split; [exact Hsum |].
  rewrite <- Hsum. exact (scored_run env _ _ _ _ _ Hrun Hin).
Qed.

(** X8: the reported level and the predicted label against the
    disposition.  A report filed on the score carries level HIGH or CRITICAL
    and, when the record has a ground-truth label, predicted label 1; a
    referral to human review carries MEDIUM and an auto-closed case LOW, both
    with predicted label 0; and a report filed on a sanction hit carries LOW
    and predicted label 0 as well. *)
Theorem level_and_prediction_by_disposition (env : Env) (unified_tx : Transaction)
    (customer : Customer) (raw : RawView) :
  exists trace final predicted,
    invoke env (initial_state unified_tx customer raw) = Some (trace, final) /\
    out_model_performance (format_analysis_output final)
      = option_map
          (fun label => mkModelPerformance label predicted (predicted =? label))
          (raw_is_laundering raw) /\
    ((out_status (format_analysis_output final) = Some "SAR_FILED"%string /\
      ((out_sanctions_hits (format_analysis_output final) = [] /\
        (out_risk_level (format_analysis_output final) = "HIGH"%string \/
         out_risk_level (format_analysis_output final) = "CRITICAL"%string) /\
        predicted = 1) \/
       (out_sanctions_hits (format_analysis_output final) <> [] /\
        out_risk_level (format_analysis_output final) = "LOW"%string /\
        predicted = 0))) \/
     (out_status (format_analysis_output final) = Some "HUMAN_REVIEW"%string /\
      out_risk_level (format_analysis_output final) = "MEDIUM"%string /\
      predicted = 0) \/
     (out_status (format_analysis_output final) = None /\
      out_risk_level (format_analysis_output final) = "LOW"%string /\
      predicted = 0)).
Proof.
  set (s0 := initial_state unified_tx customer raw).
  destruct (invoke_from_runs env recursion_limit entry_point s0)
    as [trace [final [Hrun _]]]; [cbn; lia |].
  exists (entry_point :: trace), final, (if 65 <=? risk_score final then 1 else 0).
  split; [exact Hrun |].
  destruct (run_untouched env _ _ _ _ _ Hrun) as [Hlabel _].
  change (ground_truth_label s0) with (raw_is_laundering raw) in Hlabel.
  split.
  { cbn [format_analysis_output out_model_performance]. rewrite Hlabel.
    destruct (raw_is_laundering raw); reflexivity. }
  cbn [format_analysis_output out_status out_sanctions_hits out_risk_level].
  unfold _determine_risk_level.
  destruct (initial_run_cases env _ _ _ _ _ Hrun)
    as [(Hs & [(Hh & Hr & _) | (Hh & Hr)]) | [(Hs & Hh & Hr) | (Hs & Hh & Hr)]].
  - left. split; [exact Hs |]. right. rewrite Hr. auto.
  - left. split; [exact Hs |]. left. split; [exact Hh |].
    assert ((65 <=? risk_score final) = true) as -> by (apply Z.leb_le; lia).
    destruct (80 <=? risk_score final); auto.
  - right; left. split; [exact Hs |].
    assert ((80 <=? risk_score final) = false) as -> by (apply Z.leb_gt; lia).
    assert ((65 <=? risk_score final) = false) as -> by (apply Z.leb_gt; lia).
    assert ((40 <=? risk_score final) = true) as -> by (apply Z.leb_le; lia).
    auto.
  - right; right. split; [exact Hs |].
    assert ((80 <=? risk_score final) = false) as -> by (apply Z.leb_gt; lia).
    assert ((65 <=? risk_score final) = false) as -> by (apply Z.leb_gt; lia).
    assert ((40 <=? risk_score final) = false) as -> by (apply Z.leb_gt; lia).
    auto.
Qed.

(** ** The watch lists *)

Lemma sanction_matches_lower (names : list string) (entity : string) :
  map PyStr.lower
    (flat_map (fun sanctioned =>
                 if PyStr.contains (PyStr.lower sanctioned) (PyStr.lower entity)
                 then [entity] else []) names)
  = flat_map (fun sanctioned =>
                if PyStr.contains (PyStr.lower sanctioned) (PyStr.lower entity)
                then [PyStr.lower entity] else []) names.
Proof.
  induction names as [| name names IH]; [reflexivity |].
  cbn [flat_map]. rewrite map_app, IH.
  destruct (PyStr.contains (PyStr.lower name) (PyStr.lower entity)); reflexivity.
Qed.

(** X9: the watch lists ignore letter case.  Two lists of names that
    agree up to letter case get the same PEP answers, and their sanction
    hits agree up to letter case: the same entities are hit, each as often. *)
Theorem watch_lists_ignore_letter_case (names names' : list string)
    (Hcase : map PyStr.lower names = map PyStr.lower names') :
  map check_pep_database names = map check_pep_database names' /\
  map PyStr.lower (check_sanctions_list names)
    = map PyStr.lower (check_sanctions_list names').
Proof.
  revert names' Hcase.
  induction names as [| name names IH]; intros [| name' names'] Hcase;
    try discriminate Hcase; [split; reflexivity |].
  cbn [map] in Hcase. injection Hcase as Hhead Htail.
  destruct (IH _ Htail) as [Hpep Hhits]. split.
  - cbn [map]. unfold check_pep_database at 1 3. rewrite Hhead, Hpep. reflexivity.
  - unfold check_sanctions_list in *. cbn [flat_map].
    rewrite !map_app, !sanction_matches_lower, Hhead, Hhits. reflexivity.
Qed.

Lemma watch_lists_ignore_letter_case_witness :
  map check_pep_database mixed_case_names = map check_pep_database upper_case_names /\
  map PyStr.lower (check_sanctions_list mixed_case_names)
    = map PyStr.lower (check_sanctions_list upper_case_names).
Proof.
  apply (watch_lists_ignore_letter_case mixed_case_names upper_case_names).
  vm_compute. reflexivity.
Defined.

(** ** The structuring tool *)

Lemma Qmin_cap (k : nat) :
  (4 <= k)%nat -> Tools.Qmin 0.4 (inject_Z (Z.of_nat k) * 0.1) = 0.4%Q.
Proof.
  intros Hk. unfold Tools.Qmin.
  assert (Qle_bool 0.4 (inject_Z (Z.of_nat k) * 0.1) = true) as ->; [| reflexivity].
  apply Qle_bool_iff. unfold Qle, Qmult, inject_Z. cbn [Qnum Qden]. lia.
Qed.

Lemma structuring_score_above (fl : Float.Arith) (current total : Q) (k : nat)
    (threshold : Q) :
  Qltb 0.7 (Tools._calculate_structuring_score fl current total k threshold)
  = Qle_bool (band_edge fl threshold) current && (2 <=? k)%nat
    && Qle_bool threshold total.
Proof.
  unfold Tools._calculate_structuring_score. fold (band_edge fl threshold).
  destruct (Qle_bool (band_edge fl threshold) current), (Qle_bool threshold total);
    destruct k as [| [| [| [| k]]]]; try (vm_compute; reflexivity);
    cbn [Nat.ltb Nat.leb andb]; rewrite Qmin_cap by lia; vm_compute; reflexivity.
Qed.

(** X10: when the structuring tool reports a detection.  The band of
    the tool runs from the float product of the reporting threshold and 0.95
    up to the threshold, and the total is the current amount increased in
    turn by each related amount in the band, in float additions.  The score
    exceeds 0.7 exactly when the current amount is at least the lower edge
    of the band, at least two related transactions lie in the band, and the
    total reaches the threshold.  Related transactions alone never give a
    detection, and the current amount need not be below the threshold.  This
    holds however the float product and sums are rounded. *)
Theorem structuring_tool_criterion (fl : Float.Arith) (transaction_data : Tools.Tx)
    (related_transactions : list Tools.Tx) (reporting_threshold : Q) :
  let band := List.filter (in_band fl reporting_threshold) related_transactions in
  let result :=
    Tools.detect_structuring_patterns fl transaction_data related_transactions
      reporting_threshold in
  Tools.suspicious_transactions result = band /\
  Tools.total_amount result
    = band_total fl (Tools.amount_or_zero transaction_data) band /\
  (Tools.current_transaction_suspicious result = true
   <-> (band_edge fl reporting_threshold
        <= Tools.amount_or_zero transaction_data)%Q) /\
  (Tools.structuring_detected_flag result = true
   <-> (band_edge fl reporting_threshold
        <= Tools.amount_or_zero transaction_data)%Q /\
       (2 <= length band)%nat /\
       (reporting_threshold
        <= band_total fl (Tools.amount_or_zero transaction_data) band)%Q).
Proof.
  intros band result.
  split; [reflexivity |]. split; [reflexivity |].
  split; [apply Qle_bool_iff |].
  subst result. unfold Tools.detect_structuring_patterns.
  cbn [Tools.structuring_detected_flag].
  rewrite structuring_score_above.
  change (fun tx => Qltb (Tools.amount_or_zero tx) reporting_threshold
                    && Qle_bool (Float.mul fl reporting_threshold (Float.lit fl 0.95))
                         (Tools.amount_or_zero tx))
    with (in_band fl reporting_threshold).
  fold band.
  change (fold_left (Float.add fl) (map Tools.amount_or_zero band)
            (Tools.amount_or_zero transaction_data))
    with (band_total fl (Tools.amount_or_zero transaction_data) band).
  rewrite !andb_true_iff, !Qle_bool_iff, Nat.leb_le. tauto.
Qed.

(** The edge of the band is the float product.  For a threshold of 3 it
    is the double below 2.85, so a current amount of that double, with two
    related payments of 2.9, is detected. *)
Example band_edge_is_the_float_product :
  (band_edge Float.binary64 10000 == 9500)%Q /\
  (band_edge Float.binary64 3 < 3 * 0.95)%Q /\
  Tools.structuring_detected_flag
    (Tools.detect_structuring_patterns Float.binary64
       (Tools.mkTx None None (Some (band_edge Float.binary64 3)))
       [Tools.mkTx None None (Some (Float.nearest_double 2.9));
        Tools.mkTx None None (Some (Float.nearest_double 2.9))] 3) = true.
Proof.
  split; [apply Qeq_bool_iff; vm_compute; reflexivity |].
  split; [apply Qltb_lt; vm_compute; reflexivity |].
  vm_compute. reflexivity.
Qed.

(** ** Batch statistics and accuracy metrics *)

Lemma ratio_bounds (a b : Z) :
  0 <= a <= b -> 0 < b -> (0 <= inject_Z a / inject_Z b <= 1)%Q.
Proof.
  intros Hab Hb.
  assert (Hb' : (0 < inject_Z b)%Q)
    by (change 0%Q with (inject_Z 0); rewrite <- Zlt_Qlt; lia).
  assert (Ha' : (0 <= inject_Z a)%Q)
    by (change 0%Q with (inject_Z 0); rewrite <- Zle_Qle; lia).
  assert (Hab' : (inject_Z a <= inject_Z b)%Q) by (rewrite <- Zle_Qle; lia).
  split.
  - apply Qle_shift_div_l; [exact Hb' |]. lra.
  - apply Qle_shift_div_r; [exact Hb' |]. lra.
Qed.

Lemma guarded_ratio_bounds (a b : Z) :
  0 <= a <= b ->
  (0 <= (if 0 <? b then (inject_Z a / inject_Z b)%Q else 0%Q) <= 1)%Q.
Proof.
  intros Hab. destruct (Z.ltb_spec 0 b) as [Hb | Hb].
  - apply ratio_bounds; assumption.
  - split; [apply Qle_refl | discriminate].
Qed.

Lemma f1_bounds (p r : Q) :
  (0 <= p <= 1)%Q -> (0 <= r <= 1)%Q ->
  (0 <= (if Qltb 0 (p + r) then (2 * (p * r) / (p + r))%Q else 0%Q) <= 1)%Q.
Proof.
  intros Hp Hr. destruct (Qltb 0 (p + r)) eqn:E.
  - apply Qltb_lt in E. split.
    + apply Qle_shift_div_l; [exact E |]. nra.
    + apply Qle_shift_div_r; [exact E |]. nra.
  - split; [apply Qle_refl | discriminate].
Qed.

Lemma count_pairs_partition (pairs : list (Z * Z)) :
  0 <= Batch.count_pairs 1 1 pairs /\ 0 <= Batch.count_pairs 1 0 pairs /\
  0 <= Batch.count_pairs 0 0 pairs /\ 0 <= Batch.count_pairs 0 1 pairs /\
  Batch.count_pairs 1 1 pairs + Batch.count_pairs 1 0 pairs
  + Batch.count_pairs 0 0 pairs + Batch.count_pairs 0 1 pairs
    <= Z.of_nat (length pairs) /\
  (Forall (fun pair => binary (fst pair) /\ binary (snd pair)) pairs ->
   Batch.count_pairs 1 1 pairs + Batch.count_pairs 1 0 pairs
   + Batch.count_pairs 0 0 pairs + Batch.count_pairs 0 1 pairs
     = Z.of_nat (length pairs)).
Proof.
  unfold Batch.count_pairs, count_if.
  induction pairs as [| [p gt] pairs IH].
  - cbn. repeat split; lia.
  - destruct IH as (H1 & H2 & H3 & H4 & Hle & Heq).
    cbn [List.filter length].
    destruct (Z.eqb_spec p 1), (Z.eqb_spec p 0), (Z.eqb_spec gt 1), (Z.eqb_spec gt 0);
      cbn [andb length]; repeat split; try lia;
      intros Hall; inversion Hall as [| ? ? [Hp Hg] Hrest]; subst;
      specialize (Heq Hrest); unfold binary in *; cbn [fst snd] in *; lia.
Qed.

Lemma metrics_form (results : list Batch.InvResult) (m : Batch.Metrics) :
  Batch.calculate_accuracy_metrics results = Some m ->
  List.filter Batch.has_labels results <> [] /\
  Batch.total_samples m = Z.of_nat (length (List.filter Batch.has_labels results)) /\
  Batch.true_positives m = Batch.count_pairs 1 1 (label_pairs results) /\
  Batch.false_positives m = Batch.count_pairs 1 0 (label_pairs results) /\
  Batch.true_negatives m = Batch.count_pairs 0 0 (label_pairs results) /\
  Batch.false_negatives m = Batch.count_pairs 0 1 (label_pairs results) /\
  Batch.accuracy m
    = (inject_Z (Batch.true_positives m + Batch.true_negatives m)
       / inject_Z (Batch.total_samples m))%Q /\
  Batch.precision m
    = (if 0 <? Batch.true_positives m + Batch.false_positives m
       then (inject_Z (Batch.true_positives m)
             / inject_Z (Batch.true_positives m + Batch.false_positives m))%Q
       else 0%Q) /\
  Batch.recall m
    = (if 0 <? Batch.true_positives m + Batch.false_negatives m
       then (inject_Z (Batch.true_positives m)
             / inject_Z (Batch.true_positives m + Batch.false_negatives m))%Q
       else 0%Q) /\
  Batch.f1_score m
    = (if Qltb 0 (Batch.precision m + Batch.recall m)
       then (2 * (Batch.precision m * Batch.recall m)
             / (Batch.precision m + Batch.recall m))%Q
       else 0%Q).
Proof.
  unfold Batch.calculate_accuracy_metrics, label_pairs.
  destruct results as [| r0 results0]; [discriminate |].
  destruct (List.filter Batch.has_labels (r0 :: results0)) as [| v valid];
    [discriminate |].
  intros [= <-]. split; [discriminate |]. repeat split; reflexivity.
Qed.

Lemma label_pairs_length (results : list Batch.InvResult) :
  length (label_pairs results) = length (List.filter Batch.has_labels results).
Proof. unfold label_pairs. rewrite length_combine, !length_map. lia. Qed.

Lemma label_pairs_binary (results : list Batch.InvResult) :
  Forall (fun r => binary (default 0 (Batch.prediction r)) /\
                   binary (default 0 (Batch.ground_truth r)))
         (List.filter Batch.has_labels results) ->
  Forall (fun pair => binary (fst pair) /\ binary (snd pair)) (label_pairs results).
Proof.
  unfold label_pairs.
  induction (List.filter Batch.has_labels results) as [| r valid IH];
    intros Hall; [constructor |].
  inversion Hall; subst. cbn [map combine]. constructor; [assumption | auto].
Qed.

(** X11: the accuracy metrics are rates.  When metrics are returned,
    the sample count is the positive number of results carrying both labels;
    the four cells of the confusion matrix are non-negative and sum to at
    most the sample count, and to exactly the sample count when every
    prediction and ground-truth label is 0 or 1; accuracy, precision, recall
    and F1 all lie between 0 and 1. *)
Theorem accuracy_metrics_are_rates (results : list Batch.InvResult)
    (m : Batch.Metrics)
    (Hm : Batch.calculate_accuracy_metrics results = Some m) :
  Batch.total_samples m
    = Z.of_nat (length (List.filter Batch.has_labels results)) /\
  0 < Batch.total_samples m /\
  0 <= Batch.true_positives m /\ 0 <= Batch.false_positives m /\
  0 <= Batch.true_negatives m /\ 0 <= Batch.false_negatives m /\
  Batch.true_positives m + Batch.false_positives m
  + Batch.true_negatives m + Batch.false_negatives m <= Batch.total_samples m /\
  (Forall (fun r => binary (default 0 (Batch.prediction r)) /\
                    binary (default 0 (Batch.ground_truth r)))
          (List.filter Batch.has_labels results) ->
   Batch.true_positives m + Batch.false_positives m
   + Batch.true_negatives m + Batch.false_negatives m = Batch.total_samples m) /\
  (0 <= Batch.accuracy m <= 1)%Q /\ (0 <= Batch.precision m <= 1)%Q /\
  (0 <= Batch.recall m <= 1)%Q /\ (0 <= Batch.f1_score m <= 1)%Q.
Proof.
  destruct (metrics_form results m Hm)
    as (Hne & Htot & Htp & Hfp & Htn & Hfn & Hacc & Hprec & Hrec & Hf1).
  destruct (count_pairs_partition (label_pairs results))
    as (H1 & H2 & H3 & H4 & Hle & Heq).
  rewrite label_pairs_length in Hle, Heq.
  rewrite <- Htp, <- Hfp, <- Htn, <- Hfn in *. rewrite <- Htot in *.
  assert (Hpos : 0 < Batch.total_samples m).
  { rewrite Htot. destruct (List.filter Batch.has_labels results);
      [contradiction | cbn [length]; lia]. }
  assert (Hp : (0 <= Batch.precision m <= 1)%Q)
    by (rewrite Hprec; apply guarded_ratio_bounds; lia).
  assert (Hr : (0 <= Batch.recall m <= 1)%Q)
    by (rewrite Hrec; apply guarded_ratio_bounds; lia).
  split; [reflexivity |]. split; [exact Hpos |].
  split; [exact H1 |]. split; [exact H2 |]. split; [exact H3 |].
  split; [exact H4 |]. split; [exact Hle |].
  split; [intros Hall; apply Heq, label_pairs_binary, Hall |].
  split; [rewrite Hacc; apply ratio_bounds; lia |].
  split; [exact Hp |]. split; [exact Hr |].
  rewrite Hf1. apply f1_bounds; assumption.
Qed.

Lemma accuracy_metrics_are_rates_witness :
  exists m, Batch.calculate_accuracy_metrics four_outcomes = Some m /\
            Batch.total_samples m = 4 /\ (0 <= Batch.f1_score m <= 1)%Q.
Proof.
  eexists. split; [reflexivity |].
  split; [reflexivity |].
  apply (accuracy_metrics_are_rates four_outcomes _ eq_refl).
Defined.

Section BatchTallies.

Context {Row TxnEvent : Type}.
Variable make_txn_event : Row -> Raw.result TxnEvent.
Variable run_aml_investigation : TxnEvent -> Raw.result Batch.InvResult.
Variable is_laundering : Row -> Z.

Local Abbreviation investigate :=
  (Batch.investigate_row Row TxnEvent make_txn_event run_aml_investigation
     is_laundering).
Local Abbreviation step :=
  (Batch.process_row Row TxnEvent make_txn_event run_aml_investigation
     is_laundering).
Local Abbreviation completed :=
  (Batch.completed Row TxnEvent make_txn_event run_aml_investigation
     is_laundering).

Lemma investigate_row_labels (row : Row) (result : Batch.InvResult) :
  investigate row = Raw.Ok result ->
  Batch.ground_truth result = Some (is_laundering row) /\
  Batch.prediction result
    = Some (if Batch.level_in ["High"; "Critical"]%string (Batch.risk_level result)
            then 1 else 0).
Proof.
  unfold Batch.investigate_row.
  destruct (make_txn_event row) as [event | e]; cbn [Raw.bind]; [| discriminate].
  destruct (run_aml_investigation event) as [r | e]; cbn [Raw.bind]; [| discriminate].
  intros [= <-]. split; reflexivity.
Qed.

Lemma update_stats_tallies (stats : Batch.Stats) (row : Row) (result : Batch.InvResult) :
  investigate row = Raw.Ok result ->
  Batch.escalated_cases (Batch._update_stats stats result)
    = Batch.escalated_cases stats + escalated_in [result] /\
  Batch.sar_cases (Batch._update_stats stats result)
    = Batch.sar_cases stats + sar_in [result] /\
  Batch.pending_approvals (Batch._update_stats stats result)
    = Batch.pending_approvals stats + pending_in [result].
Proof.
  intros Hrow. destruct (investigate_row_labels row result Hrow) as [_ Hpred].
  unfold escalated_in, sar_in, pending_in, count_if. cbn [List.filter].
  rewrite Hpred.
  cbn [Batch._update_stats Batch.escalated_cases Batch.sar_cases
       Batch.pending_approvals].
  assert (Hlevel : Batch.level_in ["High"; "Critical"]%string
                     (Some (default "Low"%string (Batch.risk_level result)))
                   = Batch.level_in ["High"; "Critical"]%string (Batch.risk_level result))
    by (destruct (Batch.risk_level result); reflexivity).
  rewrite Hlevel.
  destruct (Batch.level_in ["High"; "Critical"]%string (Batch.risk_level result));
    [rewrite bool_decide_eq_true_2 by reflexivity
    | rewrite bool_decide_eq_false_2 by discriminate];
    destruct (bool_decide (Batch.reporting_status result = Some "SAR_FILED"%string)),
      (bool_decide (Batch.approval_status result = Some "pending"%string));
    cbn [length]; repeat split; lia.
Qed.

Lemma tallies_cons (result : Batch.InvResult) (results : list Batch.InvResult) :
  escalated_in (result :: results) = escalated_in [result] + escalated_in results /\
  sar_in (result :: results) = sar_in [result] + sar_in results /\
  pending_in (result :: results) = pending_in [result] + pending_in results.
Proof.
  unfold escalated_in, sar_in, pending_in.
  change (result :: results) with ([result] ++ results).
  rewrite !count_if_app. auto.
Qed.

Lemma process_rows_counters (df : list Row) :
  forall stats results,
    Batch.escalated_cases (fst (fold_left step df (stats, results)))
      = Batch.escalated_cases stats + escalated_in (completed df) /\
    Batch.sar_cases (fst (fold_left step df (stats, results)))
      = Batch.sar_cases stats + sar_in (completed df) /\
    Batch.pending_approvals (fst (fold_left step df (stats, results)))
      = Batch.pending_approvals stats + pending_in (completed df).
Proof.
  induction df as [| row df IH]; intros stats results.
  - cbn. unfold escalated_in, sar_in, pending_in, count_if. cbn.
    repeat split; lia.
  - cbn [fold_left]. unfold Batch.process_row at 2 4 6.
    unfold Batch.completed. cbn [flat_map]. fold (completed df).
    destruct (investigate row) as [result | e] eqn:Hrow.
    + destruct (IH (Batch._update_stats stats result) (results ++ [result]))
        as (He & Hs & Hp).
      destruct (update_stats_tallies stats row result Hrow) as (He1 & Hs1 & Hp1).
      destruct (tallies_cons result (completed df)) as (He2 & Hs2 & Hp2).
      cbn [app]. rewrite He, Hs, Hp, He1, Hs1, Hp1, He2, Hs2, Hp2.
      repeat split; lia.
    + destruct (IH (Batch.count_error stats) results) as (He & Hs & Hp).
      cbn [app]. rewrite He, Hs, Hp. repeat split; reflexivity.
Qed.

Lemma completed_labels (df : list Row) :
  Forall (fun r => (exists label, Batch.ground_truth r = Some label) /\
                   (Batch.prediction r = Some 1 <->
                    Batch.level_in ["High"; "Critical"]%string (Batch.risk_level r)
                    = true) /\
                   (Batch.prediction r = Some 0 <->
                    Batch.level_in ["High"; "Critical"]%string (Batch.risk_level r)
                    = false))
         (completed df).
Proof.
  unfold Batch.completed.
  induction df as [| row df IH]; [constructor |].
  cbn [flat_map]. destruct (investigate row) as [result | e] eqn:Hrow;
    cbn [app]; [| exact IH].
  constructor; [| exact IH].
  destruct (investigate_row_labels row result Hrow) as [Hgt Hpred].
  split; [eauto |]. rewrite Hpred.
  destruct (Batch.level_in _ _); split; split; intros H;
    first [reflexivity | discriminate H].
Qed.

(** X12: the batch counters can be recomputed from the returned results.
    After a batch, total_processed has grown by the number of results, and
    escalated_cases, sar_cases and pending_approvals by the number of results
    with prediction 1, with status SAR_FILED and with approval status
    pending; every result carries a ground-truth label and a prediction that
    is 1 exactly for the risk levels High and Critical, 0 otherwise. *)
Theorem batch_counters_match_results (stats : Batch.Stats) (df : list Row) :
  let out :=
    Batch._process_hi_trans_batch Row TxnEvent make_txn_event
      run_aml_investigation is_laundering stats df in
  Batch.total_processed (fst out)
    = Batch.total_processed stats + Z.of_nat (length (snd out)) /\
  Batch.escalated_cases (fst out)
    = Batch.escalated_cases stats + escalated_in (snd out) /\
  Batch.sar_cases (fst out) = Batch.sar_cases stats + sar_in (snd out) /\
  Batch.pending_approvals (fst out)
    = Batch.pending_approvals stats + pending_in (snd out) /\
  Forall (fun r => (exists label, Batch.ground_truth r = Some label) /\
                   (Batch.prediction r = Some 1 <->
                    Batch.level_in ["High"; "Critical"]%string (Batch.risk_level r)
                    = true) /\
                   (Batch.prediction r = Some 0 <->
                    Batch.level_in ["High"; "Critical"]%string (Batch.risk_level r)
                    = false))
         (snd out).
Proof.
  intros out. subst out. unfold Batch._process_hi_trans_batch.
  destruct (process_rows_tally make_txn_event run_aml_investigation is_laundering
              df stats []) as (Hres & _ & Htot).
  destruct (process_rows_counters df stats []) as (He & Hs & Hp).
  cbn [app] in Hres. rewrite Hres.
  split; [exact Htot |]. split; [exact He |]. split; [exact Hs |].
  split; [exact Hp |]. apply completed_labels.
Qed.

End BatchTallies.

(** ** The behavioural anomaly tool *)

Lemma frequency_above_five (count : nat) :
  Qltb 5 (inject_Z (Z.of_nat count) / 30) = true <-> (150 < count)%nat.
Proof.
  rewrite Qltb_lt. unfold Qlt, Qdiv, Qmult, Qinv, inject_Z. cbn. lia.
Qed.

Lemma anomaly_score_cases (metrics : Behavior.Metrics) :
  Behavior.anomaly_detected (Behavior.timing_patterns metrics) = false ->
  Qle_bool 0.7 (Behavior._calculate_anomaly_score metrics)
    = Qltb 5 (Behavior.transaction_frequency metrics)
      && Qltb 1000000 (Behavior.amount_variance metrics)
      && String.eqb (Behavior.amount_trend metrics) "increasing" /\
  Qltb 0.8 (Behavior._calculate_anomaly_score metrics) = false /\
  (Behavior._identify_anomalies metrics
     = ["High transaction frequency"; "High amount variance";
        "Increasing transaction amounts"]%string
   <-> Qltb 5 (Behavior.transaction_frequency metrics)
       && Qltb 1000000 (Behavior.amount_variance metrics)
       && String.eqb (Behavior.amount_trend metrics) "increasing" = true) /\
  ~ In "Unusual timing patterns"%string (Behavior._identify_anomalies metrics).
Proof.
  intros Htiming.
  unfold Behavior._calculate_anomaly_score, Behavior._identify_anomalies.
  rewrite Htiming.
  destruct (Qltb 5 (Behavior.transaction_frequency metrics)),
    (Qltb 1000000 (Behavior.amount_variance metrics)),
    (String.eqb (Behavior.amount_trend metrics) "increasing");
    (split; [vm_compute; reflexivity |]);
    (split; [vm_compute; reflexivity |]);
    (split; [split; intros H; first [reflexivity | discriminate H] |]);
    cbn; intros H; repeat (destruct H as [H | H]; [discriminate H |]); exact H.
Qed.

Lemma amount_trend_increasing (fl : Float.Arith) (amounts : list Q) :
  Behavior._calculate_amount_trend fl amounts = "increasing"%string
  <-> (2 <= length amounts)%nat /\
      (Float.mul fl (Float.np_mean fl (firstn (length amounts / 2) amounts))
         (Float.lit fl 1.2)
       < Float.np_mean fl (skipn (length amounts / 2) amounts))%Q.
Proof.
  unfold Behavior._calculate_amount_trend.
  destruct (Nat.ltb_spec (length amounts) 2) as [Hlen | Hlen].
  - split; [discriminate | intros [H _]; lia].
  - rewrite <- Qltb_lt.
    destruct (Qltb (Float.mul fl _ (Float.lit fl 1.2)) _).
    + split; [intros _; split; [exact Hlen | reflexivity] | reflexivity].
    + destruct (Qltb _ (Float.mul fl _ (Float.lit fl 0.8)));
        (split; [discriminate | intros [_ H]; discriminate H]).
Qed.

(** X13: when the behavioural tool reports an anomaly.  The score
    reaches 0.7 exactly when all three live factors hold: at least 150
    related transactions (a frequency above 5 per day over 30 days), an
    amount variance, as numpy.var returns it, above 1,000,000, and an
    increasing amount trend; these are then exactly the anomalies listed.
    The trend is increasing exactly when the mean of the later half of the
    amounts exceeds the float product of the mean of the earlier half and
    1.2, the means being those numpy.mean returns.  The timing factor never
    fires, so the score never exceeds 0.8 and the confidence level is never
    high.  This holds however the means, the variance and the product are
    rounded. *)
Theorem behavioural_anomaly_criterion (fl : Float.Arith) (transaction_data : Tools.Tx)
    (related_transactions : list Tools.Tx) :
  let amounts := Behavior.amounts_of transaction_data related_transactions in
  let result :=
    Behavior.analyze_behavioral_anomalies fl transaction_data related_transactions in
  (Behavior.is_anomalous result = true
   <-> (150 <= length related_transactions)%nat /\
       (1000000 < Float.np_var fl amounts)%Q /\
       Behavior._calculate_amount_trend fl amounts = "increasing"%string) /\
  (Behavior._calculate_amount_trend fl amounts = "increasing"%string
   <-> (1 <= length related_transactions)%nat /\
       (Float.mul fl (Float.np_mean fl (firstn (length amounts / 2) amounts))
          (Float.lit fl 1.2)
        < Float.np_mean fl (skipn (length amounts / 2) amounts))%Q) /\
  (Behavior.is_anomalous result = true
   <-> Behavior.anomalies result
       = ["High transaction frequency"; "High amount variance";
          "Increasing transaction amounts"]%string) /\
  ~ In "Unusual timing patterns"%string (Behavior.anomalies result) /\
  (Behavior.anomaly_score result <= 0.8)%Q /\
  Behavior.confidence_level result <> "high"%string.
Proof.
  intros amounts result. subst result.
  unfold Behavior.analyze_behavioral_anomalies.
  cbn [Behavior.is_anomalous Behavior.anomalies Behavior.anomaly_score
       Behavior.confidence_level].
  set (metrics := Behavior._calculate_behavioral_metrics fl transaction_data
                    related_transactions).
  destruct (anomaly_score_cases metrics eq_refl) as (Hscore & Hcap & Hlist & Hnever).
  assert (Hfreq : Qltb 5 (Behavior.transaction_frequency metrics) = true
                  <-> (150 <= length related_transactions)%nat).
  { subst metrics. cbn [Behavior._calculate_behavioral_metrics
                        Behavior.transaction_frequency].
    rewrite frequency_above_five. lia. }
  assert (Hlen : length amounts = (length related_transactions + 1)%nat).
  { subst amounts. unfold Behavior.amounts_of.
    rewrite length_app, length_map. reflexivity. }
  assert (Hall : Qltb 5 (Behavior.transaction_frequency metrics)
                 && Qltb 1000000 (Behavior.amount_variance metrics)
                 && String.eqb (Behavior.amount_trend metrics) "increasing" = true
                 <-> (150 <= length related_transactions)%nat /\
                     (1000000 < Float.np_var fl amounts)%Q /\
                     Behavior._calculate_amount_trend fl amounts
                     = "increasing"%string).
  { rewrite !andb_true_iff, Hfreq, String.eqb_eq, Qltb_lt.
    subst metrics. cbn [Behavior._calculate_behavioral_metrics
                        Behavior.amount_variance Behavior.amount_trend].
    fold amounts.
    split.
    - intros [[Hn Hv] Ht]. split; [exact Hn |]. split; [| exact Ht].
      assert ((1 <? length amounts)%nat = true) as Hgt
        by (apply Nat.ltb_lt; lia).
      rewrite Hgt in Hv. exact Hv.
    - intros (Hn & Hv & Ht). split; [split; [exact Hn |] | exact Ht].
      assert ((1 <? length amounts)%nat = true) as ->
        by (apply Nat.ltb_lt; lia).
      exact Hv. }
  split; [rewrite Hscore; exact Hall |].
  split.
  { rewrite amount_trend_increasing, Hlen.
    split; intros [Hn Hlt]; (split; [lia | exact Hlt]). }
  split; [rewrite Hscore; symmetry; exact Hlist |].
  split; [exact Hnever |].
  split.
  - apply Qnot_lt_le. intros Hlt. apply Qltb_lt in Hlt. congruence.
  - unfold Tools.confidence_level. rewrite Hcap.
    destruct (Qltb 0.5 _); discriminate.
Qed.

(** The trend is decided on the float product.  The double written 8.4
    is above 7 * 1.2, and it is the product of the doubles 7 and 1.2, so the
    amounts 7 and 8.4 are stable, not increasing. *)
Example trend_on_the_float_product :
  (7 * 1.2 < Float.nearest_double 8.4)%Q /\
  (Float.mul Float.binary64 7 (Float.lit Float.binary64 1.2)
   == Float.nearest_double 8.4)%Q /\
  Behavior._calculate_amount_trend Float.binary64 [7%Q; Float.nearest_double 8.4]
  = "stable"%string.
Proof.
  split; [apply Qltb_lt; vm_compute; reflexivity |].
  split; [apply Qeq_bool_iff; vm_compute; reflexivity |].
  vm_compute. reflexivity.
Qed.

(** ** The geographic risk tool *)

(** X14: the geographic tool's level by country class and location
    mismatch.  The level is high exactly for a high-risk country together
    with a location mismatch (score 0.77); medium for a high-risk country
    without mismatch or a medium-risk country with one (score 0.56); low
    otherwise.  A mismatch is only reported when both locations are given,
    and is decided on the text after the last comma, surrounding white space
    removed.  The confidence level is never high. *)
Theorem geographic_tool_levels
    (customer_location transaction_location transaction_country : string) :
  (Geo.mismatch_detected
     (Geo.location_mismatch
        (Geo.assess_geographic_risks customer_location transaction_location
           transaction_country)) = true
   <-> customer_location <> ""%string /\ transaction_location <> ""%string /\
       Geo.strip (Geo.last_field customer_location)
       <> Geo.strip (Geo.last_field transaction_location)) /\
  (Geo.geographic_risk_level
     (Geo.assess_geographic_risks customer_location transaction_location
        transaction_country) = "high"%string
   <-> PyStr.mem transaction_country Geo.high_risk_countries = true /\
       Geo.mismatch_detected
         (Geo.location_mismatch
            (Geo.assess_geographic_risks customer_location transaction_location
               transaction_country)) = true) /\
  (Geo.geographic_risk_level
     (Geo.assess_geographic_risks customer_location transaction_location
        transaction_country) = "medium"%string
   <-> (PyStr.mem transaction_country Geo.high_risk_countries = true /\
        Geo.mismatch_detected
          (Geo.location_mismatch
             (Geo.assess_geographic_risks customer_location transaction_location
                transaction_country)) = false) \/
       (PyStr.mem transaction_country Geo.high_risk_countries = false /\
        PyStr.mem transaction_country Geo.medium_risk_countries = true /\
        Geo.mismatch_detected
          (Geo.location_mismatch
             (Geo.assess_geographic_risks customer_location transaction_location
                transaction_country)) = true)) /\
  (Geo.geographic_risk_score
     (Geo.assess_geographic_risks customer_location transaction_location
        transaction_country) <= 0.77)%Q /\
  Geo.confidence_level
    (Geo.assess_geographic_risks customer_location transaction_location
       transaction_country) <> "high"%string.
Proof.
  unfold Geo.assess_geographic_risks.
  cbn [Geo.location_mismatch Geo.geographic_risk_level Geo.geographic_risk_score
       Geo.confidence_level].
  split.
  { unfold Geo._assess_location_mismatch.
    destruct (String.eqb_spec customer_location "") as [-> | Hc]; cbn [orb].
    - cbn. split; [discriminate | intros [H _]; contradiction].
    - destruct (String.eqb_spec transaction_location "") as [-> | Ht].
      + cbn. split; [discriminate | intros (_ & H & _); contradiction].
      + cbn [Geo.mismatch_detected]. rewrite negb_true_iff, String.eqb_neq. tauto. }
  unfold Geo._assess_country_risk.
  destruct (Geo._assess_location_mismatch customer_location transaction_location)
    as [detected score text] eqn:Emis.
  assert (Hscore : score = (if detected then 0.7 else 0)%Q).
  { unfold Geo._assess_location_mismatch in Emis.
    destruct (String.eqb customer_location "" || String.eqb transaction_location "");
      injection Emis as <- <- _; reflexivity. }
  subst score. cbn [Geo.mismatch_detected].
  destruct (PyStr.mem transaction_country Geo.high_risk_countries),
    (PyStr.mem transaction_country Geo.medium_risk_countries), detected;
    (split; [vm_compute; split;
               [intros H; first [discriminate H | auto]
               | intros [H1 H2]; first [discriminate H1 | discriminate H2 | auto]] |]);
    (split; [vm_compute; split;
               [intros H; first [discriminate H | auto]
               | intros [[H1 H2] | (H1 & H2 & H3)];
                 first [discriminate H1 | discriminate H2 | discriminate H3 | auto]] |]);
    (split; [vm_compute; discriminate | vm_compute; discriminate]).
Qed.

(** ** The network analysis tool *)

Lemma build_network_graph_from (fl : Float.Arith) (transaction_data : Network.Tx)
    (related : list Network.Tx) :
  forall graph,
    Network.nodes (fold_left (Network.graph_step fl transaction_data) related graph)
      = Network.nodes graph ++ map Network.node_of related /\
    Network.edges (fold_left (Network.graph_step fl transaction_data) related graph)
      = Network.edges graph
        ++ map (fun tx => Network.mkGraphEdge
                            (Network.transaction_id transaction_data)
                            (Network.transaction_id tx)
                            (Network._calculate_connection_weight fl
                               transaction_data tx))
             (List.filter (Network._are_connected transaction_data) related).
Proof.
  induction related as [| tx related IH]; intros graph.
  - cbn. rewrite !app_nil_r. auto.
  - cbn [fold_left List.filter map].
    destruct (IH (Network.graph_step fl transaction_data graph tx)) as [Hn He].
    rewrite Hn, He. unfold Network.graph_step.
    destruct (Network._are_connected transaction_data tx);
      cbn [Network.nodes Network.edges map]; rewrite <- !app_assoc; auto.
Qed.

Lemma suspicious_weight (fl : Float.Arith) (transaction_data tx : Network.Tx) :
  Network._are_connected transaction_data tx
  && Qle_bool Network.suspicious_connection_threshold
       (Network._calculate_connection_weight fl transaction_data tx)
  = Network.strongly_linked fl transaction_data tx.
Proof.
  unfold Network._are_connected, Network._calculate_connection_weight,
    Network.strongly_linked.
  destruct (Network.same_customer transaction_data tx),
    (Network.same_counterparty transaction_data tx),
    (Network.similar_amounts fl transaction_data tx); vm_compute; reflexivity.
Qed.

Lemma filter_map_filter {A B} (f : A -> B) (p : A -> bool) (q : B -> bool)
    (xs : list A) :
  List.filter q (map f (List.filter p xs))
  = map f (List.filter (fun x => p x && q (f x)) xs).
Proof.
  induction xs as [| x xs IH]; [reflexivity |].
  cbn [List.filter]. destruct (p x); cbn [andb map List.filter]; [| exact IH].
  destruct (q (f x)); cbn [map]; rewrite IH; reflexivity.
Qed.

(** X15: which connections the network tool calls suspicious.  The
    graph has one node per related transaction plus the current one; an edge
    joins the current transaction to each related one with the same
    customer or the same counterparty (two missing identifiers count as the
    same); and the suspicious connections, those of weight at least 0.8, are
    exactly the edges to related transactions that share both identifiers,
    or share one and have a similar amount.  Two amounts are similar when
    both are positive and the float quotient of the smaller by the larger
    exceeds the float 0.8, however the quotient is rounded.  The confidence
    level is high exactly when there is a suspicious connection. *)
Theorem suspicious_connections_characterised (fl : Float.Arith)
    (transaction_data : Network.Tx) (related_transactions : list Network.Tx) :
  let result :=
    Network.analyze_transaction_network fl transaction_data related_transactions in
  let linked :=
    List.filter (Network.strongly_linked fl transaction_data) related_transactions in
  Network.network_size result = S (length related_transactions) /\
  Network.edge_count (Network.network_properties result)
    = length (List.filter (Network._are_connected transaction_data)
                related_transactions) /\
  Network.suspicious_connection_details result
    = map (fun tx => Network.mkGraphEdge
                       (Network.transaction_id transaction_data)
                       (Network.transaction_id tx)
                       (Network._calculate_connection_weight fl transaction_data tx))
        linked /\
  Network.suspicious_connections result = length linked /\
  (forall tx,
     Network.strongly_linked fl transaction_data tx = true
     <-> (Network.customer_id transaction_data = Network.customer_id tx /\
          Network.counterparty_id transaction_data = Network.counterparty_id tx) \/
         ((Network.customer_id transaction_data = Network.customer_id tx \/
           Network.counterparty_id transaction_data = Network.counterparty_id tx) /\
          Network.similar_amounts fl transaction_data tx = true)) /\
  (forall tx,
     Network.similar_amounts fl transaction_data tx = true
     <-> (0 < default 0 (Network.amount transaction_data))%Q /\
         (0 < default 0 (Network.amount tx))%Q /\
         (Float.lit fl 0.8
          < Float.div fl
              (Tools.Qmin (default 0 (Network.amount transaction_data))
                 (default 0 (Network.amount tx)))
              (Network.Qmax (default 0 (Network.amount transaction_data))
                 (default 0 (Network.amount tx))))%Q) /\
  (Network.confidence_level result = "high"%string
   <-> exists tx, In tx related_transactions /\
                  Network.strongly_linked fl transaction_data tx = true).
Proof.
  intros result linked. subst result.
  unfold Network.analyze_transaction_network, Network._build_network_graph,
    Network._identify_suspicious_connections, Network._analyze_network_properties.
  cbn [Network.network_size Network.network_properties Network.edge_count
       Network.suspicious_connection_details Network.suspicious_connections
       Network.confidence_level].
  destruct (build_network_graph_from fl transaction_data related_transactions
              (Network.mkGraph [Network.node_of transaction_data] [])) as [Hn He].
  rewrite Hn, He. cbn [Network.nodes Network.edges app length].
  rewrite !length_map, filter_map_filter. cbn [Network.weight].
  rewrite (filter_ext _ _ (suspicious_weight fl transaction_data)).
  rewrite length_map. fold linked.
  split; [reflexivity |]. split; [reflexivity |]. split; [reflexivity |].
  split; [reflexivity |].
  split.
  { intros tx. unfold Network.strongly_linked, Network.same_customer,
      Network.same_counterparty.
    rewrite orb_true_iff, !andb_true_iff, orb_true_iff, !bool_decide_eq_true.
    reflexivity. }
  split.
  { intros tx. unfold Network.similar_amounts.
    rewrite !andb_true_iff, !Qltb_lt. tauto. }
  subst linked.
  destruct (List.filter (Network.strongly_linked fl transaction_data)
              related_transactions) as [| tx0 linked] eqn:Elinked.
  - cbn. split; [discriminate |]. intros (tx & Hin & Hlink).
    assert (In tx (List.filter (Network.strongly_linked fl transaction_data)
                     related_transactions)) as Hmem
      by (apply filter_In; auto).
    rewrite Elinked in Hmem. destruct Hmem.
  - cbn. split; [intros _ | reflexivity].
    assert (In tx0 (List.filter (Network.strongly_linked fl transaction_data)
                      related_transactions)) as Hmem
      by (rewrite Elinked; left; reflexivity).
    apply filter_In in Hmem. exists tx0. exact Hmem.
Qed.

(** Similarity is decided on the float quotient.  The doubles written
    1127.1360000000002 and 1408.92 have a quotient above 4/5 whose double is
    the double 0.8, so the two amounts are not similar. *)
Example similar_amounts_on_the_float_quotient :
  (0.8 < Float.nearest_double 1127.1360000000002 / Float.nearest_double 1408.92)%Q /\
  (Float.div Float.binary64 (Float.nearest_double 1127.1360000000002)
     (Float.nearest_double 1408.92)
   == Float.lit Float.binary64 0.8)%Q /\
  Network.similar_amounts Float.binary64
    (Network.mkTx None None None (Some (Float.nearest_double 1127.1360000000002)) None)
    (Network.mkTx None None None (Some (Float.nearest_double 1408.92)) None)
  = false.
Proof.
  split; [apply Qltb_lt; vm_compute; reflexivity |].
  split; [apply Qeq_bool_iff; vm_compute; reflexivity |].
  vm_compute. reflexivity.
Qed.

(** ** The overall risk score *)

Lemma clamp_bounds (x : Q) :
  (0 <= Tools.Qmin 1 (Network.Qmax 0 x) <= 1)%Q.
Proof.
  unfold Tools.Qmin, Network.Qmax.
  destruct (Qle_bool x 0) eqn:E0.
  - assert (Qle_bool 1 0 = false) as -> by reflexivity.
    split; [apply Qle_refl | discriminate].
  - destruct (Qle_bool 1 x) eqn:E1.
    + split; [discriminate | apply Qle_refl].
    + split.
      * apply Qlt_le_weak, Qnot_le_lt. intros H. apply Qle_bool_iff in H. congruence.
      * apply Qlt_le_weak, Qnot_le_lt. intros H. apply Qle_bool_iff in H. congruence.
Qed.

Lemma Qle_bool_false_lt (a b : Q) : Qle_bool a b = false <-> (b < a)%Q.
Proof.
  split.
  - intros E. apply Qnot_le_lt. intros H. apply Qle_bool_iff in H. congruence.
  - intros H. destruct (Qle_bool a b) eqn:E; [| reflexivity].
    apply Qle_bool_iff in E. exfalso. exact (Qlt_not_le _ _ H E).
Qed.

(** Clamping to [0,1] does not move a score across a threshold in (0,1]. *)
Lemma clamp_keeps_threshold (t x : Q) :
  (0 < t)%Q -> (t <= 1)%Q ->
  Qle_bool t (Tools.Qmin 1 (Network.Qmax 0 x)) = Qle_bool t x.
Proof.
  intros Hpos Hle. unfold Tools.Qmin, Network.Qmax.
  destruct (Qle_bool x 0) eqn:E0.
  - apply Qle_bool_iff in E0.
    assert (Qle_bool 1 0 = false) as -> by reflexivity.
    assert (Qle_bool t 0 = false) as -> by (apply Qle_bool_false_lt; exact Hpos).
    symmetry. apply Qle_bool_false_lt. lra.
  - apply Qle_bool_false_lt in E0.
    destruct (Qle_bool 1 x) eqn:E1; [| reflexivity].
    apply Qle_bool_iff in E1.
    assert (Qle_bool t 1 = true) as -> by (apply Qle_bool_iff; exact Hle).
    symmetry. apply Qle_bool_iff. lra.
Qed.

Lemma clamp_keeps_strict_threshold (t x : Q) :
  (0 <= t)%Q -> (t < 1)%Q ->
  Qltb t (Tools.Qmin 1 (Network.Qmax 0 x)) = Qltb t x.
Proof.
  intros Hpos Hlt. unfold Qltb. f_equal. unfold Tools.Qmin, Network.Qmax.
  destruct (Qle_bool x 0) eqn:E0.
  - apply Qle_bool_iff in E0.
    assert (Qle_bool 1 0 = false) as -> by reflexivity.
    assert (Qle_bool 0 t = true) as -> by (apply Qle_bool_iff; exact Hpos).
    symmetry. apply Qle_bool_iff. lra.
  - apply Qle_bool_false_lt in E0.
    destruct (Qle_bool 1 x) eqn:E1; [| reflexivity].
    apply Qle_bool_iff in E1.
    assert (Qle_bool 1 t = false) as -> by (apply Qle_bool_false_lt; exact Hlt).
    symmetry. apply Qle_bool_false_lt. lra.
Qed.

(** X16: the overall level is consistent with the score reported.  The
    reported overall score lies in [0,1]; although the level and the
    confidence are computed from the weighted sum before it is clamped, they
    are the level and confidence of the reported score; and the
    recommendation to file with the regulator is given exactly when the
    reported score is at least 0.8. *)
Theorem overall_level_matches_reported_score (inputs : Overall.Inputs) :
  (0 <= Overall.overall_risk_score (Overall.calculate_overall_risk_score inputs)
     <= 1)%Q /\
  Overall.risk_level (Overall.calculate_overall_risk_score inputs)
    = Overall._determine_overall_risk_level
        (Overall.overall_risk_score (Overall.calculate_overall_risk_score inputs)) /\
  Overall.confidence_level (Overall.calculate_overall_risk_score inputs)
    = Tools.confidence_level
        (Overall.overall_risk_score (Overall.calculate_overall_risk_score inputs)) /\
  (In "Regulatory filing required"%string
      (Overall._generate_recommendations
         (Overall.risk_level (Overall.calculate_overall_risk_score inputs)))
   <-> (0.8 <= Overall.overall_risk_score
                 (Overall.calculate_overall_risk_score inputs))%Q).
Proof.
  unfold Overall.calculate_overall_risk_score.
  cbn [Overall.overall_risk_score Overall.risk_level Overall.confidence_level].
  set (x := Overall.overall_score inputs).
  assert (Hlevel : Overall._determine_overall_risk_level x
                   = Overall._determine_overall_risk_level
                       (Tools.Qmin 1 (Network.Qmax 0 x))).
  { unfold Overall._determine_overall_risk_level.
    rewrite !clamp_keeps_threshold by (unfold Qlt, Qle; cbn; lia). reflexivity. }
  split; [apply clamp_bounds |]. split; [exact Hlevel |].
  split.
  { unfold Tools.confidence_level.
    rewrite !clamp_keeps_strict_threshold by (unfold Qlt, Qle; cbn; lia).
    reflexivity. }
  rewrite <- Qle_bool_iff, clamp_keeps_threshold by (unfold Qlt, Qle; cbn; lia).
  unfold Overall._determine_overall_risk_level.
  destruct (Qle_bool 0.8 x).
  - cbn. split; [reflexivity | tauto].
  - destruct (Qle_bool 0.6 x); [| destruct (Qle_bool 0.4 x)];
      cbn; (split; [| discriminate]);
      intros H; repeat (destruct H as [H | H]; [discriminate H |]); destruct H.
Qed.

(** ** Statistics over investigation results *)

Lemma pipeline_output_cases (output : AnalysisOutput) :
  pipeline_output output ->
  (out_status output = Some "SAR_FILED"%string /\
   ((out_sanctions_hits output = [] /\
     PyStr.mem (out_risk_level output) ["HIGH"; "CRITICAL"]%string = true) \/
    (out_sanctions_hits output <> [] /\ out_risk_level output = "LOW"%string))) \/
  (out_status output = Some "HUMAN_REVIEW"%string /\
   out_sanctions_hits output = [] /\ out_risk_level output = "MEDIUM"%string) \/
  (out_status output = None /\
   out_sanctions_hits output = [] /\ out_risk_level output = "LOW"%string).
Proof.
  intros (env & tx & cu & raw & trace & final & Hrun & ->).
  cbn [format_analysis_output out_status out_sanctions_hits out_risk_level].
  unfold _determine_risk_level.
  destruct (initial_run_cases env _ _ _ _ _ Hrun)
    as [(Hs & [(Hh & Hr & _) | (Hh & Hr)]) | [(Hs & Hh & Hr) | (Hs & Hh & Hr)]].
  - left. split; [exact Hs |]. right. rewrite Hr. auto.
  - left. split; [exact Hs |]. left. split; [exact Hh |].
    assert ((65 <=? risk_score final) = true) as -> by (apply Z.leb_le; lia).
    destruct (80 <=? risk_score final); reflexivity.
  - right; left. split; [exact Hs |].
    assert ((80 <=? risk_score final) = false) as -> by (apply Z.leb_gt; lia).
    assert ((65 <=? risk_score final) = false) as -> by (apply Z.leb_gt; lia).
    assert ((40 <=? risk_score final) = true) as -> by (apply Z.leb_le; lia).
    auto.
  - right; right. split; [exact Hs |].
    assert ((80 <=? risk_score final) = false) as -> by (apply Z.leb_gt; lia).
    assert ((65 <=? risk_score final) = false) as -> by (apply Z.leb_gt; lia).
    assert ((40 <=? risk_score final) = false) as -> by (apply Z.leb_gt; lia).
    auto.
Qed.

Lemma statistics_step_partition (stats : InvestigationStatistics)
    (inv : AnalysisOutput) :
  stat_total (statistics_step stats inv) = stat_total stats /\
  stat_high_risk (statistics_step stats inv)
  + stat_medium_risk (statistics_step stats inv)
  + stat_low_risk (statistics_step stats inv)
    = stat_high_risk stats + stat_medium_risk stats + stat_low_risk stats + 1 /\
  stat_sar_filed stats <= stat_sar_filed (statistics_step stats inv) /\
  stat_human_review stats <= stat_human_review (statistics_step stats inv) /\
  stat_sar_filed (statistics_step stats inv)
  + stat_human_review (statistics_step stats inv)
    <= stat_sar_filed stats + stat_human_review stats + 1.
Proof.
  unfold statistics_step.
  destruct (PyStr.mem (out_risk_level inv) ["HIGH"; "CRITICAL"]%string),
    (String.eqb (out_risk_level inv) "MEDIUM"),
    (bool_decide (out_status inv = Some "SAR_FILED"%string)),
    (bool_decide (out_status inv = Some "HUMAN_REVIEW"%string));
    cbn; repeat split; lia.
Qed.

Lemma statistics_step_pipeline (stats : InvestigationStatistics)
    (inv : AnalysisOutput) :
  pipeline_output inv ->
  stat_human_review (statistics_step stats inv)
  - stat_medium_risk (statistics_step stats inv)
    = stat_human_review stats - stat_medium_risk stats /\
  stat_sar_filed (statistics_step stats inv)
  - stat_high_risk (statistics_step stats inv)
    = stat_sar_filed stats - stat_high_risk stats + sanction_reports [inv].
Proof.
  intros Hout. unfold statistics_step, sanction_reports, count_if.
  cbn [List.filter].
  destruct (pipeline_output_cases inv Hout)
    as [(Hs & [(Hh & Hl) | (Hh & Hl)]) | [(Hs & Hh & Hl) | (Hs & Hh & Hl)]];
    rewrite Hs, ?Hl, ?Hh.
  - rewrite !bool_decide_eq_true_2 by reflexivity. cbn. split; lia.
  - rewrite (bool_decide_eq_true_2 (Some "SAR_FILED"%string = _)) by reflexivity.
    rewrite (bool_decide_eq_false_2 (out_sanctions_hits inv = [])) by exact Hh.
    cbn. split; lia.
  - rewrite bool_decide_eq_false_2 by discriminate.
    rewrite !bool_decide_eq_true_2 by reflexivity. cbn. split; lia.
  - rewrite !bool_decide_eq_false_2 by discriminate.
    rewrite !bool_decide_eq_true_2 by reflexivity. cbn. split; lia.
Qed.

Lemma statistics_fold (investigations : list AnalysisOutput) :
  forall stats,
    stat_total (fold_left statistics_step investigations stats) = stat_total stats /\
    stat_high_risk (fold_left statistics_step investigations stats)
    + stat_medium_risk (fold_left statistics_step investigations stats)
    + stat_low_risk (fold_left statistics_step investigations stats)
      = stat_high_risk stats + stat_medium_risk stats + stat_low_risk stats
        + Z.of_nat (length investigations) /\
    stat_sar_filed stats <= stat_sar_filed (fold_left statistics_step investigations stats) /\
    stat_human_review stats
      <= stat_human_review (fold_left statistics_step investigations stats) /\
    stat_sar_filed (fold_left statistics_step investigations stats)
    + stat_human_review (fold_left statistics_step investigations stats)
      <= stat_sar_filed stats + stat_human_review stats
         + Z.of_nat (length investigations) /\
    (Forall pipeline_output investigations ->
     stat_human_review (fold_left statistics_step investigations stats)
     - stat_medium_risk (fold_left statistics_step investigations stats)
       = stat_human_review stats - stat_medium_risk stats /\
     stat_sar_filed (fold_left statistics_step investigations stats)
     - stat_high_risk (fold_left statistics_step investigations stats)
       = stat_sar_filed stats - stat_high_risk stats
         + sanction_reports investigations).
Proof.
  induction investigations as [| inv investigations IH]; intros stats.
  - cbn. unfold sanction_reports, count_if. cbn. repeat split; lia.
  - cbn [fold_left length].
    destruct (IH (statistics_step stats inv)) as (Ht & Hp & Hs & Hr & Hsum & Hpipe).
    destruct (statistics_step_partition stats inv) as (Ht1 & Hp1 & Hs1 & Hr1 & Hsum1).
    split; [congruence |]. split; [lia |]. split; [lia |]. split; [lia |].
    split; [lia |].
    intros Hall. inversion Hall as [| ? ? Hinv Hrest]; subst.
    destruct (Hpipe Hrest) as [Hm Hh].
    destruct (statistics_step_pipeline stats inv Hinv) as [Hm1 Hh1].
    assert (Hcons : sanction_reports (inv :: investigations)
                    = sanction_reports [inv] + sanction_reports investigations).
    { unfold sanction_reports. change (inv :: investigations)
        with ([inv] ++ investigations). apply count_if_app. }
    split; lia.
Qed.

(** X17: the investigation statistics add up.  The three risk classes
    partition the investigations, and SAR-filed plus human-review cases are
    at most the total.  Over results of the pipeline itself the counters are
    tied together: the human-review cases are exactly the medium-risk ones,
    and the SAR-filed cases are the high-risk ones plus the reports filed on
    a sanction hit, which are counted as low risk. *)
Theorem investigation_statistics_add_up (investigations : list AnalysisOutput) :
  stat_total (_calculate_investigation_statistics investigations)
    = Z.of_nat (length investigations) /\
  stat_high_risk (_calculate_investigation_statistics investigations)
  + stat_medium_risk (_calculate_investigation_statistics investigations)
  + stat_low_risk (_calculate_investigation_statistics investigations)
    = stat_total (_calculate_investigation_statistics investigations) /\
  0 <= stat_sar_filed (_calculate_investigation_statistics investigations) /\
  0 <= stat_human_review (_calculate_investigation_statistics investigations) /\
  stat_sar_filed (_calculate_investigation_statistics investigations)
  + stat_human_review (_calculate_investigation_statistics investigations)
    <= stat_total (_calculate_investigation_statistics investigations) /\
  (Forall pipeline_output investigations ->
   stat_human_review (_calculate_investigation_statistics investigations)
     = stat_medium_risk (_calculate_investigation_statistics investigations) /\
   stat_sar_filed (_calculate_investigation_statistics investigations)
     = stat_high_risk (_calculate_investigation_statistics investigations)
       + sanction_reports investigations).
Proof.
  unfold _calculate_investigation_statistics.
  destruct (statistics_fold investigations
              (mkInvestigationStatistics (Z.of_nat (length investigations)) 0 0 0 0 0))
    as (Ht & Hp & Hs & Hr & Hsum & Hpipe).
  cbn [stat_total stat_high_risk stat_medium_risk stat_low_risk stat_sar_filed
       stat_human_review] in *.
  rewrite Ht. split; [reflexivity |]. split; [lia |]. split; [lia |].
  split; [lia |]. split; [lia |].
  intros Hall. destruct (Hpipe Hall) as [Hm Hh]. split; lia.
Qed.

(** ** The unified record *)

(** X18: what a unified record holds.  For a record of a recognised
    shape that converts without error, the unified record has all eleven
    common keys, with the amount as a float.  Whatever the shape, it has no
    timestamp and no parties key, the keys the behavioural stage and the
    sanctions screening look up; and for an HI-Small record it has no
    asset_type, its country is the text Unknown, and its ground-truth label
    is the integer read from the Is Laundering column. *)
Theorem unified_record_keys (conv : Raw.Conv) (transaction unified : gmap string Raw.value)
    (Hok : Raw.unify_transaction_data conv transaction = Raw.Ok unified) :
  (Raw.recognised transaction = true ->
   Forall (fun key => unified !! key <> None) common_keys /\
   exists amount, unified !! "amount"%string = Some (Raw.VFloat amount)) /\
  unified !! "timestamp"%string = None /\
  unified !! "parties"%string = None /\
  (Raw.has_key transaction "From Bank" = true ->
   unified !! "asset_type"%string = None /\
   unified !! "country"%string = Some (Raw.VStr "Unknown") /\
   unified !! "from_bank"%string = transaction !! "From Bank"%string /\
   exists label,
     Raw.py_int conv (Raw.get transaction "Is Laundering" (Raw.VInt 0)) = Raw.Ok label /\
     unified !! "ground_truth_label"%string = Some (Raw.VInt label)).
Proof.
  unfold Raw.unify_transaction_data, Raw.recognised in *.
  destruct (Raw.has_key transaction "From Bank") eqn:E1.
  { destruct (Raw.py_float conv _) as [amount | e]; [| discriminate Hok].
    destruct (Raw.py_int conv _) as [label | e]; [| discriminate Hok].
    cbn [Raw.bind] in Hok. injection Hok as <-.
    split.
    { intros _. split; [| exists amount; vm_compute; reflexivity].
      repeat (constructor; [intros H; vm_compute in H; discriminate H |]).
      constructor. }
    split; [vm_compute; reflexivity |]. split; [vm_compute; reflexivity |].
    intros _. split; [vm_compute; reflexivity |].
    split; [vm_compute; reflexivity |]. split.
    { unfold Raw.has_key in E1. apply bool_decide_eq_true_1 in E1.
      destruct E1 as [v Hv].
      transitivity (Some (Raw.get_or_none transaction "From Bank"));
        [vm_compute; reflexivity |].
      unfold Raw.get_or_none. rewrite Hv. reflexivity. }
    exists label. split; [reflexivity | vm_compute; reflexivity]. }
  destruct (Raw.has_key transaction "transaction_id") eqn:E2.
  { destruct (Raw.py_float conv _) as [amount | e]; [| discriminate Hok].
    cbn [Raw.bind] in Hok. injection Hok as <-.
    split.
    { intros _. split; [| exists amount; vm_compute; reflexivity].
      repeat (constructor; [intros H; vm_compute in H; discriminate H |]).
      constructor. }
    split; [vm_compute; reflexivity |]. split; [vm_compute; reflexivity |].
    intros H; discriminate H. }
  destruct (Raw.has_key transaction "SENDER_ACCOUNT_ID") eqn:E3.
  { destruct (Raw.py_float conv _) as [amount | e]; [| discriminate Hok].
    destruct (Raw.py_int conv _) as [label | e]; [| discriminate Hok].
    cbn [Raw.bind] in Hok. injection Hok as <-.
    split.
    { intros _. split; [| exists amount; vm_compute; reflexivity].
      repeat (constructor; [intros H; vm_compute in H; discriminate H |]).
      constructor. }
    split; [vm_compute; reflexivity |]. split; [vm_compute; reflexivity |].
    intros H; discriminate H. }
  injection Hok as <-.
  split; [intros H; discriminate H |].
  split; [reflexivity |]. split; [reflexivity |]. intros H; discriminate H.
Qed.

Lemma unified_record_keys_witness :
  exists unified,
    Raw.unify_transaction_data Raw.decimal_conv hi_small_record = Raw.Ok unified /\
    unified !! "timestamp"%string = None /\
    unified !! "parties"%string = None.
Proof.
  assert (Hok : { unified | Raw.unify_transaction_data Raw.decimal_conv hi_small_record
                            = Raw.Ok unified }).
  { assert (E1 : Raw.has_key hi_small_record "From Bank" = true)
      by (vm_compute; reflexivity).
    assert (Ef : Raw.py_float Raw.decimal_conv
                   (Raw.get hi_small_record "Amount Received" (Raw.VInt 0))
                 = Raw.Ok 3697%Q) by (vm_compute; reflexivity).
    assert (Ei : Raw.py_int Raw.decimal_conv
                   (Raw.get hi_small_record "Is Laundering" (Raw.VInt 0))
                 = Raw.Ok 1) by (vm_compute; reflexivity).
    eexists. unfold Raw.unify_transaction_data. rewrite E1, Ef, Ei.
    cbn [Raw.bind]. reflexivity. }
  destruct Hok as [unified Hok].
  exists unified. split; [exact Hok |].
  destruct (unified_record_keys Raw.decimal_conv hi_small_record unified Hok)
    as (_ & Ht & Hp & _).
  split; assumption.
Defined.

(** X19: unifying twice.  A unified record carries a transaction_id, so
    a second pass reads it as an operational record.  For an operational or
    unrecognised record the second pass changes nothing; for an HI-Small or
    fraud-detection record it drops the ground-truth label and supplies the
    operational defaults instead. *)
Theorem unify_twice (conv : Raw.Conv) (transaction unified : gmap string Raw.value)
    (Hok : Raw.unify_transaction_data conv transaction = Raw.Ok unified) :
  (Raw.has_key transaction "From Bank" = false ->
   Raw.has_key transaction "transaction_id" = true \/
   Raw.has_key transaction "SENDER_ACCOUNT_ID" = false ->
   Raw.unify_transaction_data conv unified = Raw.Ok unified) /\
  (Raw.has_key transaction "From Bank" = true \/
   (Raw.has_key transaction "transaction_id" = false /\
    Raw.has_key transaction "SENDER_ACCOUNT_ID" = true) ->
   unified !! "ground_truth_label"%string <> None /\
   exists again,
     Raw.unify_transaction_data conv unified = Raw.Ok again /\
     again !! "ground_truth_label"%string = None /\
     again !! "asset_type"%string = Some (Raw.VStr "FIAT") /\
     again !! "amount"%string = unified !! "amount"%string /\
     again !! "transaction_id"%string = unified !! "transaction_id"%string).
Proof.
  unfold Raw.unify_transaction_data in Hok.
  destruct (Raw.has_key transaction "From Bank") eqn:E1.
  { destruct (Raw.py_float conv _) as [amount | e]; [| discriminate Hok].
    destruct (Raw.py_int conv _) as [label | e]; [| discriminate Hok].
    cbn [Raw.bind] in Hok. injection Hok as <-.
    split; [intros H; discriminate H |]. intros _.
    split; [intros H; vm_compute in H; discriminate H |].
    match goal with |- context [Raw.unify_transaction_data conv ?u] => set (U := u) end.
    assert (Hfb : Raw.has_key U "From Bank" = false) by (vm_compute; reflexivity).
    assert (Htid : Raw.has_key U "transaction_id" = true) by (vm_compute; reflexivity).
    assert (Hamt : Raw.get U "amount" (Raw.VInt 0) = Raw.VFloat amount)
      by (vm_compute; reflexivity).
    eexists. split.
    { unfold Raw.unify_transaction_data. rewrite Hfb, Htid, Hamt.
      cbn [Raw.py_float Raw.bind]. reflexivity. }
    repeat split; vm_compute; reflexivity. }
  destruct (Raw.has_key transaction "transaction_id") eqn:E2.
  { destruct (Raw.py_float conv _) as [amount | e]; [| discriminate Hok].
    cbn [Raw.bind] in Hok. injection Hok as <-.
    split; [| intros [H | [H _]]; discriminate H]. intros _ _.
    match goal with |- Raw.unify_transaction_data conv ?u = _ => set (U := u) end.
    assert (Hfb : Raw.has_key U "From Bank" = false) by (vm_compute; reflexivity).
    assert (Htid : Raw.has_key U "transaction_id" = true) by (vm_compute; reflexivity).
    assert (Hamt : Raw.get U "amount" (Raw.VInt 0) = Raw.VFloat amount)
      by (vm_compute; reflexivity).
    unfold Raw.unify_transaction_data. rewrite Hfb, Htid, Hamt.
    cbn [Raw.py_float Raw.bind]. subst U.
    reflexivity. }
  destruct (Raw.has_key transaction "SENDER_ACCOUNT_ID") eqn:E3.
  { destruct (Raw.py_float conv _) as [amount | e]; [| discriminate Hok].
    destruct (Raw.py_int conv _) as [label | e]; [| discriminate Hok].
    cbn [Raw.bind] in Hok. injection Hok as <-.
    split; [intros _ [H | H]; discriminate H |]. intros _.
    split; [intros H; vm_compute in H; discriminate H |].
    match goal with |- context [Raw.unify_transaction_data conv ?u] => set (U := u) end.
    assert (Hfb : Raw.has_key U "From Bank" = false) by (vm_compute; reflexivity).
    assert (Htid : Raw.has_key U "transaction_id" = true) by (vm_compute; reflexivity).
    assert (Hamt : Raw.get U "amount" (Raw.VInt 0) = Raw.VFloat amount)
      by (vm_compute; reflexivity).
    eexists. split.
    { unfold Raw.unify_transaction_data. rewrite Hfb, Htid, Hamt.
      cbn [Raw.py_float Raw.bind]. reflexivity. }
    repeat split; vm_compute; reflexivity. }
  injection Hok as <-.
  split; [intros _ _; reflexivity |].
  intros [H | [_ H]]; discriminate H.
Qed.

Lemma unify_twice_witness :
  exists unified,
    Raw.unify_transaction_data Raw.decimal_conv operational_record = Raw.Ok unified /\
    Raw.unify_transaction_data Raw.decimal_conv unified = Raw.Ok unified.
Proof.
  assert (Hok : { unified | Raw.unify_transaction_data Raw.decimal_conv
                              operational_record = Raw.Ok unified }).
  { assert (E1 : Raw.has_key operational_record "From Bank" = false)
      by (vm_compute; reflexivity).
    assert (E2 : Raw.has_key operational_record "transaction_id" = true)
      by (vm_compute; reflexivity).
    assert (Ef : Raw.py_float Raw.decimal_conv
                   (Raw.get operational_record "amount" (Raw.VInt 0))
                 = Raw.Ok 250%Q) by (vm_compute; reflexivity).
    eexists. unfold Raw.unify_transaction_data. rewrite E1, E2, Ef.
    cbn [Raw.bind]. reflexivity. }
  destruct Hok as [unified Hok].
  exists unified. split; [exact Hok |].
  destruct (unify_twice Raw.decimal_conv operational_record unified Hok) as [Hsame _].
  apply Hsame; [vm_compute; reflexivity | left; vm_compute; reflexivity].
Defined.

(** ** The batch loop *)

Section BatchLoopFacts.

Context {Row TxnEvent : Type}.
Variable make_txn_event : Row -> Raw.result TxnEvent.
Variable run_aml_investigation : TxnEvent -> Raw.result Batch.InvResult.
Variable is_laundering : Row -> Z.
Variable load_hi_trans_batch : Z -> Z -> Raw.result (list Row).
Variable engineer_features : list Row -> Raw.result (list Row).
Variable batch_size : Z.
Variable offset : Z.

Local Abbreviation batches_from :=
  (BatchLoop.batches_from Row TxnEvent make_txn_event run_aml_investigation
     is_laundering load_hi_trans_batch engineer_features batch_size offset).
Local Abbreviation run :=
  (BatchLoop.process_hi_trans_batch Row TxnEvent make_txn_event
     run_aml_investigation is_laundering load_hi_trans_batch engineer_features
     batch_size offset).
Local Abbreviation batches_are :=
  (BatchLoop.batches_are Row load_hi_trans_batch engineer_features batch_size offset).
Local Abbreviation after_batches :=
  (BatchLoop.after_batches Row TxnEvent make_txn_event run_aml_investigation
     is_laundering).
Local Abbreviation process :=
  (Batch._process_hi_trans_batch Row TxnEvent make_txn_event run_aml_investigation
     is_laundering).

Lemma batches_from_step (max_batches : option Z) (fuel : nat) (batch_count : Z)
    (stats : Batch.Stats) (all_results : list Batch.InvResult) :
  batches_from max_batches (S fuel) batch_count stats all_results =
  if BatchLoop.cap_reached max_batches batch_count
  then Some (Raw.Ok (stats, all_results))
  else
    match load_hi_trans_batch batch_size (offset + batch_count * batch_size) with
    | Raw.Raise e => Some (Raw.Raise e)
    | Raw.Ok [] => Some (Raw.Ok (stats, all_results))
    | Raw.Ok (row :: rows) =>
        match engineer_features (row :: rows) with
        | Raw.Raise e => Some (Raw.Raise e)
        | Raw.Ok df =>
            if Z.of_nat (length df) <? batch_size
            then Some (Raw.Ok (fst (process stats df),
                               all_results ++ snd (process stats df)))
            else batches_from max_batches fuel (batch_count + 1)
                   (fst (process stats df)) (all_results ++ snd (process stats df))
        end
    end.
Proof. reflexivity. Qed.

Lemma same_cap_same_loop (cap cap' : option Z) :
  (forall batch_count,
     BatchLoop.cap_reached cap batch_count = BatchLoop.cap_reached cap' batch_count) ->
  forall fuel batch_count stats all_results,
    batches_from cap fuel batch_count stats all_results
    = batches_from cap' fuel batch_count stats all_results.
Proof.
  intros Hcap. induction fuel as [| fuel IH]; intros c stats results; [reflexivity |].
  rewrite !batches_from_step, Hcap.
  destruct (BatchLoop.cap_reached cap' c); [reflexivity |].
  destruct (load_hi_trans_batch _ _) as [[| row rows] | e]; try reflexivity.
  destruct (engineer_features _) as [df | e]; [| reflexivity].
  destruct (Z.of_nat (length df) <? batch_size); [reflexivity | apply IH].
Qed.

(** X20: max_batches caps the loop only when it is positive.  With
    max_batches = 0 the loop runs exactly as with no cap at all, and with a
    negative max_batches it ends before loading anything, returning no
    results and leaving the statistics as they were. *)
Theorem zero_cap_is_no_cap (fuel : nat) (stats : Batch.Stats) :
  run (Some 0) fuel stats = run None fuel stats /\
  forall p : positive, run (Some (Z.neg p)) (S fuel) stats = Some (Raw.Ok (stats, [])).
Proof.
  split.
  - unfold BatchLoop.process_hi_trans_batch.
    apply same_cap_same_loop. intros c. reflexivity.
  - intros p. reflexivity.
Qed.

Lemma after_batches_from (dfs : list (list Row)) :
  forall stats results,
    fold_left
      (fun acc df => (fst (process (fst acc) df), snd acc ++ snd (process (fst acc) df)))
      dfs (stats, results)
    = (fst (after_batches stats dfs), results ++ snd (after_batches stats dfs)).
Proof.
  unfold BatchLoop.after_batches.
  induction dfs as [| df dfs IH]; intros stats results.
  - cbn. rewrite app_nil_r. reflexivity.
  - cbn [fold_left fst snd]. rewrite IH.
    rewrite (IH (fst (process stats df)) ([] ++ snd (process stats df))).
    cbn [fst snd app]. rewrite app_assoc. reflexivity.
Qed.

Lemma after_batches_cons (stats : Batch.Stats) (df : list Row) (dfs : list (list Row)) :
  after_batches stats (df :: dfs)
  = (fst (after_batches (fst (process stats df)) dfs),
     snd (process stats df) ++ snd (after_batches (fst (process stats df)) dfs)).
Proof.
  unfold BatchLoop.after_batches at 1. cbn [fold_left fst snd app].
  apply after_batches_from.
Qed.

(** What a completed loop has done: it has processed, in order, the
    batches numbered from its starting count on. *)
Lemma batches_from_processed (max_batches : option Z) (fuel : nat) :
  forall batch_count stats all_results stats' results',
    batches_from max_batches fuel batch_count stats all_results
      = Some (Raw.Ok (stats', results')) ->
    exists dfs,
      batches_are batch_count dfs /\
      stats' = fst (after_batches stats dfs) /\
      results' = all_results ++ snd (after_batches stats dfs) /\
      (forall m, max_batches = Some m -> 0 < m -> batch_count <= m ->
                 Z.of_nat (length dfs) <= m - batch_count).
Proof.
  induction fuel as [| fuel IH]; intros c stats results stats' results' Hrun;
    [discriminate Hrun |].
  rewrite batches_from_step in Hrun.
  assert (Hnone : exists dfs : list (list Row),
             batches_are c dfs /\
             stats = fst (after_batches stats dfs) /\
             results = results ++ snd (after_batches stats dfs) /\
             (forall m, max_batches = Some m -> 0 < m -> c <= m ->
                        Z.of_nat (length dfs) <= m - c)).
  { exists []. cbn. rewrite app_nil_r. repeat split; auto. intros; lia. }
  destruct (BatchLoop.cap_reached max_batches c) eqn:Ecap.
  { injection Hrun as <- <-. exact Hnone. }
  destruct (load_hi_trans_batch _ _) as [[| row rows] | e] eqn:Eload;
    [injection Hrun as <- <-; exact Hnone | | discriminate Hrun].
  destruct (engineer_features _) as [df | e] eqn:Eeng; [| discriminate Hrun].
  assert (Hbatch : BatchLoop.batch_is Row load_hi_trans_batch engineer_features
                     batch_size offset c df)
    by (exists (row :: rows); auto).
  assert (Hbelow : forall m, max_batches = Some m -> 0 < m -> c <= m -> c < m).
  { intros m -> Hm Hc. unfold BatchLoop.cap_reached in Ecap.
    apply andb_false_iff in Ecap. destruct Ecap as [E | E].
    - apply negb_false_iff, Z.eqb_eq in E. lia.
    - apply Z.leb_gt in E. exact E. }
  destruct (Z.of_nat (length df) <? batch_size).
  - injection Hrun as <- <-. exists [df].
    rewrite after_batches_cons. cbn. rewrite app_nil_r.
    repeat split; auto. intros m Hcap Hm Hc. specialize (Hbelow m Hcap Hm Hc). lia.
  - destruct (IH _ _ _ _ _ Hrun) as (dfs & Hare & Hst & Hres & Hlen).
    exists (df :: dfs). rewrite after_batches_cons. cbn [fst snd].
    split; [split; assumption |]. split; [exact Hst |].
    split; [rewrite Hres, app_assoc; reflexivity |].
    intros m Hcap Hm Hc. specialize (Hbelow m Hcap Hm Hc).
    specialize (Hlen m Hcap Hm). cbn [length]. lia.
Qed.

Lemma capped_loop_ends (m : Z) (fuel : nat) :
  0 < m ->
  forall batch_count stats all_results,
    0 <= batch_count ->
    (Z.to_nat (m - batch_count) < fuel)%nat ->
    exists outcome,
      batches_from (Some m) fuel batch_count stats all_results = Some outcome.
Proof.
  intros Hm. induction fuel as [| fuel IH]; intros c stats results Hc Hfuel; [lia |].
  rewrite batches_from_step.
  destruct (BatchLoop.cap_reached (Some m) c) eqn:Ecap; [eauto |].
  assert (Hbelow : c < m).
  { unfold BatchLoop.cap_reached in Ecap.
    apply andb_false_iff in Ecap. destruct Ecap as [E | E].
    - apply negb_false_iff, Z.eqb_eq in E. lia.
    - apply Z.leb_gt in E. exact E. }
  destruct (load_hi_trans_batch _ _) as [[| row rows] | e]; eauto.
  destruct (engineer_features _) as [df | e]; eauto.
  destruct (Z.of_nat (length df) <? batch_size); eauto.
  apply IH; lia.
Qed.

(** X21: a positive max_batches bounds the loop.  With max_batches = m >
    0 the loop ends within m + 1 turns whatever the loader returns; when it
    ends without an error it has processed, in order, the batches numbered
    0, 1, ... (each loaded at offset + number * batch_size and then
    engineered), at most m of them, and its statistics and results are those
    of processing these batches one after the other. *)
Theorem positive_cap_bounds_the_loop (m : Z) (fuel : nat) (stats : Batch.Stats)
    (Hm : 0 < m) (Hfuel : (Z.to_nat m < fuel)%nat) :
  exists outcome,
    run (Some m) fuel stats = Some outcome /\
    forall stats' results,
      outcome = Raw.Ok (stats', results) ->
      exists dfs,
        (length dfs <= Z.to_nat m)%nat /\
        batches_are 0 dfs /\
        (stats', results) = after_batches stats dfs.
Proof.
  unfold BatchLoop.process_hi_trans_batch.
  destruct (capped_loop_ends m fuel Hm 0 stats []) as [outcome Hrun];
    [lia | rewrite Z.sub_0_r; exact Hfuel |].
  exists outcome. split; [exact Hrun |].
  intros stats' results ->.
  destruct (batches_from_processed _ _ _ _ _ _ _ Hrun) as (dfs & Hare & Hst & Hres & Hlen).
  exists dfs. split; [specialize (Hlen m eq_refl Hm); lia |].
  split; [exact Hare |].
  rewrite Hst, Hres. cbn [app]. destruct (after_batches stats dfs); reflexivity.
Qed.

End BatchLoopFacts.

(** The capped loop over fifty rows in batches of twenty, at most two
    batches: forty rows are processed, one of which fails. *)
Lemma positive_cap_bounds_the_loop_witness :
  exists outcome,
    BatchLoop.process_hi_trans_batch nat nat demo_make_txn_event demo_investigation
      demo_label demo_load demo_engineer 20 0 (Some 2) 3 (Batch.mkStats 0 0 0 0 0)
    = Some outcome /\
    exists stats' results,
      outcome = Raw.Ok (stats', results) /\ length results = 39%nat /\
      Batch.errors stats' = 1.
Proof.
  destruct (positive_cap_bounds_the_loop demo_make_txn_event demo_investigation
              demo_label demo_load demo_engineer 20 0 2 3 (Batch.mkStats 0 0 0 0 0))
    as (outcome & Hrun & _); [lia | cbn; lia |].
  exists outcome. split; [exact Hrun |].
  vm_compute in Hrun. injection Hrun as <-.
  eexists; eexists. split; [reflexivity |]. split; reflexivity.
Defined.

Section SliceLoader.

Context {Row TxnEvent : Type}.
Variable make_txn_event : Row -> Raw.result TxnEvent.
Variable run_aml_investigation : TxnEvent -> Raw.result Batch.InvResult.
Variable is_laundering : Row -> Z.
Variable load_hi_trans_batch : Z -> Z -> Raw.result (list Row).
Variable engineer_features : list Row -> Raw.result (list Row).
Variable batch_size : Z.
Variable offset : Z.

(** The rows of the file, and a loader that returns the [batch_size] rows
    starting at a given offset (fewer at the end of the file); feature
    engineering returns as many rows as it is given. *)
Variable data : list Row.
Hypothesis Hsize : 0 < batch_size.
Hypothesis Hoffset : 0 <= offset.
Hypothesis Hload :
  forall k, 0 <= k ->
    load_hi_trans_batch batch_size (offset + k * batch_size)
    = Raw.Ok (firstn (Z.to_nat batch_size)
                (skipn (Z.to_nat (offset + k * batch_size)) data)).
Hypothesis Hengineer :
  forall df, exists df', engineer_features df = Raw.Ok df' /\ length df' = length df.

Local Abbreviation batches_from :=
  (BatchLoop.batches_from Row TxnEvent make_txn_event run_aml_investigation
     is_laundering load_hi_trans_batch engineer_features batch_size offset).
Local Abbreviation after_batches :=
  (BatchLoop.after_batches Row TxnEvent make_txn_event run_aml_investigation
     is_laundering).
Local Abbreviation process :=
  (Batch._process_hi_trans_batch Row TxnEvent make_txn_event run_aml_investigation
     is_laundering).

Lemma uncapped_loop_covers (fuel : nat) :
  forall batch_count stats all_results,
    0 <= batch_count ->
    (length (skipn (Z.to_nat (offset + batch_count * batch_size)) data) < fuel)%nat ->
    exists loaded dfs,
      batches_from None fuel batch_count stats all_results
        = Some (Raw.Ok (fst (after_batches stats dfs),
                        all_results ++ snd (after_batches stats dfs))) /\
      concat loaded = skipn (Z.to_nat (offset + batch_count * batch_size)) data /\
      Forall2 (fun raw df => engineer_features raw = Raw.Ok df) loaded dfs.
Proof.
  induction fuel as [| fuel IH]; intros c stats results Hc Hfuel; [lia |].
  rewrite batches_from_step. cbn [BatchLoop.cap_reached].
  rewrite (Hload c Hc).
  set (rest := skipn (Z.to_nat (offset + c * batch_size)) data) in *.
  assert (Hn : (0 < Z.to_nat batch_size)%nat) by lia.
  destruct (firstn (Z.to_nat batch_size) rest) as [| row rows] eqn:Efirst.
  - assert (rest = []) as Hrest.
    { destruct rest as [| x rest']; [reflexivity |].
      destruct (Z.to_nat batch_size); [lia | discriminate Efirst]. }
    exists [], []. cbn. rewrite app_nil_r, Hrest. auto.
  - destruct (Hengineer (row :: rows)) as (df & Heng & Hlen).
    rewrite Heng.
    assert (Hfirst : length df = Nat.min (Z.to_nat batch_size) (length rest))
      by (rewrite Hlen, <- Efirst; apply length_firstn).
    destruct (Z.ltb_spec (Z.of_nat (length df)) batch_size) as [Hshort | Hfull].
    + exists [row :: rows], [df].
      rewrite after_batches_cons. cbn [BatchLoop.after_batches fold_left fst snd concat].
      rewrite !app_nil_r. split; [reflexivity |]. split; [| repeat constructor; exact Heng].
      rewrite <- Efirst. apply firstn_all2. lia.
    + assert (Hnext : Z.to_nat (offset + (c + 1) * batch_size)
                      = (Z.to_nat batch_size + Z.to_nat (offset + c * batch_size))%nat)
        by nia.
      destruct (IH (c + 1) (fst (process stats df)) (results ++ snd (process stats df)))
        as (loaded & dfs & Hrun & Hcat & Hall).
      { lia. }
      { rewrite Hnext, <- skipn_skipn. fold rest. rewrite length_skipn. lia. }
      exists ((row :: rows) :: loaded), (df :: dfs).
      rewrite after_batches_cons. cbn [fst snd].
      split; [rewrite Hrun, app_assoc; reflexivity |].
      split; [| constructor; assumption].
      cbn [concat]. rewrite Hcat, Hnext, <- skipn_skipn. fold rest.
      rewrite <- Efirst. apply firstn_skipn.
Qed.

(** X22: without a cap every row from the offset on is processed once.
    When the loader returns consecutive slices of the file and feature
    engineering keeps the number of rows, the loop without max_batches ends
    within one turn more than there are rows, without error; the batches it
    loaded, laid end to end, are exactly the rows of the file from the offset
    on, and its statistics and results are those of processing the engineered
    batches one after the other. *)
Theorem uncapped_loop_covers_the_file (stats : Batch.Stats) :
  exists loaded dfs,
    BatchLoop.process_hi_trans_batch Row TxnEvent make_txn_event
      run_aml_investigation is_laundering load_hi_trans_batch engineer_features
      batch_size offset None (S (length data)) stats
      = Some (Raw.Ok (after_batches stats dfs)) /\
    concat loaded = skipn (Z.to_nat offset) data /\
    Forall2 (fun raw df => engineer_features raw = Raw.Ok df) loaded dfs.
Proof.
  unfold BatchLoop.process_hi_trans_batch.
  destruct (uncapped_loop_covers (S (length data)) 0 stats []) as
    (loaded & dfs & Hrun & Hcat & Hall).
  { lia. }
  { rewrite length_skipn. lia. }
  exists loaded, dfs. rewrite Hrun. cbn [app].
  replace (offset + 0 * batch_size) with offset in Hcat by lia.
  split; [destruct (after_batches stats dfs); reflexivity |].
  split; assumption.
Qed.

End SliceLoader.

(** The uncapped loop over the fifty rows from row 5 on, in batches of
    twenty: the three batches loaded are rows 5 to 49. *)
Lemma uncapped_loop_covers_the_file_witness :
  exists loaded dfs,
    BatchLoop.process_hi_trans_batch nat nat demo_make_txn_event demo_investigation
      demo_label demo_load demo_engineer 20 5 None 51 (Batch.mkStats 0 0 0 0 0)
      = Some (Raw.Ok (BatchLoop.after_batches nat nat demo_make_txn_event
                        demo_investigation demo_label (Batch.mkStats 0 0 0 0 0) dfs)) /\
    concat loaded = seq 5 45.
Proof.
  destruct (uncapped_loop_covers_the_file demo_make_txn_event demo_investigation
              demo_label demo_load demo_engineer 20 5 fifty_rows)
    with (stats := Batch.mkStats 0 0 0 0 0)
    as (loaded & dfs & Hrun & Hcat & _).
  - lia.
  - lia.
  - intros k _. reflexivity.
  - intros df. exists df. split; reflexivity.
  - exists loaded, dfs. split; [exact Hrun | exact Hcat].
Defined.

(** ** The batch summary *)

Lemma count_if_agree {A} (p q : A -> bool) (xs : list A) :
  Forall (fun x => p x = q x) xs -> count_if p xs = count_if q xs.
Proof.
  unfold count_if. induction 1 as [| x xs Hx _ IH]; [reflexivity |].
  cbn [List.filter]. rewrite Hx. destruct (q x); cbn [length]; lia.
Qed.

Section BatchSummary.

Context {Row TxnEvent : Type}.
Variable make_txn_event : Row -> Raw.result TxnEvent.
Variable run_aml_investigation : TxnEvent -> Raw.result Batch.InvResult.
Variable is_laundering : Row -> Z.

(** X23: the batch summary against the processor's counters.  For the
    summary made from the results of a batch and the statistics after it, the
    transaction total is the number of results and equals the sample count
    of the accuracy metrics; the escalated and SAR counts are what the batch
    added to the processor's counters; and processed_transactions exceeds
    the transaction total by what the processor had counted before the
    batch, so the two agree exactly when the statistics were reset first. *)
Theorem batch_summary_agrees_with_counters (stats : Batch.Stats) (pending : Z)
    (df : list Row) :
  let out :=
    Batch._process_hi_trans_batch Row TxnEvent make_txn_event
      run_aml_investigation is_laundering stats df in
  let summary := create_batch_summary (fst out) pending (snd out) in
  total_transactions summary = Z.of_nat (length (snd out)) /\
  processed_transactions summary
    = Batch.total_processed stats + total_transactions summary /\
  (processed_transactions summary = total_transactions summary
   <-> Batch.total_processed stats = 0) /\
  Batch.escalated_cases (fst out)
    = Batch.escalated_cases stats + summary_escalated_cases summary /\
  Batch.sar_cases (fst out) = Batch.sar_cases stats + summary_sar_cases summary /\
  (forall m, summary_accuracy_metrics summary = Some m ->
             Batch.total_samples m = total_transactions summary).
Proof.
  intros out summary. subst summary out.
  unfold Batch._process_hi_trans_batch, create_batch_summary.
  cbn [total_transactions processed_transactions summary_escalated_cases
       summary_sar_cases summary_accuracy_metrics].
  destruct (process_rows_tally make_txn_event run_aml_investigation is_laundering
              df stats []) as (Hres & _ & Htot).
  destruct (process_rows_counters make_txn_event run_aml_investigation is_laundering
              df stats []) as (He & Hs & _).
  cbn [app] in Hres. rewrite Hres, Htot, He, Hs.
  split; [reflexivity |]. split; [reflexivity |]. split; [lia |].
  split.
  { f_equal. unfold escalated_in. apply count_if_agree.
    eapply Forall_impl;
      [exact (completed_labels make_txn_event run_aml_investigation is_laundering df) |].
    intros r (_ & H1 & H0). cbn beta.
    destruct (Batch.level_in ["High"; "Critical"]%string (Batch.risk_level r)).
    - rewrite bool_decide_eq_true_2; [reflexivity | apply H1; reflexivity].
    - rewrite bool_decide_eq_false_2; [reflexivity |].
      intros Hp. apply H1 in Hp. discriminate Hp. }
  split; [reflexivity |].
  intros m Hm.
  exact (metrics_count_completed make_txn_event run_aml_investigation is_laundering
           df m Hm).
Qed.

End BatchSummary.

(** ** The smurfing tool *)

Lemma Qmin_cases (a b : Q) :
  (Tools.Qmin a b == a /\ a <= b)%Q \/ (Tools.Qmin a b == b /\ b < a)%Q.
Proof.
  unfold Tools.Qmin. destruct (Qle_bool a b) eqn:E.
  - left. split; [reflexivity | apply Qle_bool_iff; exact E].
  - right. split; [reflexivity | apply Qle_bool_false_lt; exact E].
Qed.

Lemma Qsum_lower (xs : list Q) :
  Forall (fun x => (0.7 <= x)%Q) xs ->
  (0.7 * inject_Z (Z.of_nat (length xs)) <= Qsum xs)%Q.
Proof.
  induction 1 as [| x xs Hx _ IH].
  - cbn [length Qsum fold_right]. change (inject_Z (Z.of_nat 0)) with 0%Q. lra.
  - cbn [length Qsum fold_right]. fold (Qsum xs).
    rewrite Nat2Z.inj_succ, <- Z.add_1_r, inject_Z_plus. change (inject_Z 1) with 1%Q.
    lra.
Qed.

Lemma mean_lower (xs : list Q) :
  xs <> [] -> Forall (fun x => (0.7 <= x)%Q) xs -> (0.7 <= Qmean xs)%Q.
Proof.
  intros Hne Hall. unfold Qmean.
  assert (Hpos : (0 < inject_Z (Z.of_nat (length xs)))%Q).
  { change 0%Q with (inject_Z 0). rewrite <- Zlt_Qlt. destruct xs; [contradiction | cbn; lia]. }
  apply Qle_shift_div_l; [exact Hpos |]. exact (Qsum_lower xs Hall).
Qed.

(** The score of a coordinated window. *)
Lemma coordinated_window_score (fl : Float.Arith) (group : list Tools.Tx) :
  (3 <= length group)%nat ->
  Qltb 0.6 (Tools.spec_coordination_score fl group) = single_recipient group /\
  (single_recipient group = true ->
   (Tools._calculate_coordination_score fl group
    == if low_variance fl group then 1 else 0.7)%Q).
Proof.
  intros Hlen. pose proof (coordination_score_as_worded fl group Hlen) as Hscore.
  unfold Tools.spec_coordination_score, single_recipient, low_variance in *.
  assert ((3 <=? length group)%nat = true) as Hge by (apply Nat.leb_le; lia).
  rewrite Hge in *.
  destruct (length (remove_dups (map Tools.counterparty_id group)) =? 1)%nat,
    (Qltb (Float.np_var fl (map Tools.amount_or_zero group)) 1000);
    (split; [vm_compute; reflexivity |]); intros H; try discriminate H;
    rewrite Hscore; vm_compute; reflexivity.
Qed.

Lemma coordinated_windows (fl : Float.Arith) (groups : list (list Tools.Tx)) :
  Tools.coordinated_of fl groups
  = map (fun group => (group, Tools._calculate_coordination_score fl group))
      (List.filter coordinated_window groups).
Proof.
  rewrite coordinated_of_filter. f_equal. apply filter_ext. intros group.
  unfold coordinated_window.
  destruct (Nat.leb_spec 3 (length group)) as [Hlen | Hlen]; [| reflexivity].
  cbn [andb]. apply coordinated_window_score. exact Hlen.
Qed.

Lemma smurfing_score_detects (fl : Float.Arith) (windows : list (list Tools.Tx)) :
  Forall (fun group => coordinated_window group = true) windows ->
  (Qltb 0.7
     (Tools._calculate_smurfing_score
        (map (fun group => (group, Tools._calculate_coordination_score fl group)) windows))
   = true
   <-> (3 <= length windows)%nat \/ Exists (fun group => low_variance fl group = true) windows).
Proof.
  intros Hall.
  assert (Hscores : Forall (fun group =>
            (Tools._calculate_coordination_score fl group
             == if low_variance fl group then 1 else 0.7)%Q) windows).
  { eapply Forall_impl; [exact Hall |]. intros group Hc.
    unfold coordinated_window in Hc. apply andb_prop in Hc. destruct Hc as [Hlen Hone].
    apply Nat.leb_le in Hlen. apply coordinated_window_score; assumption. }
  rewrite Qltb_lt.
  destruct windows as [| a [| b [| c rest]]].
  - cbn. split; [intros H; discriminate H |].
    intros [H | H]; [lia | inversion H].
  - inversion Hscores as [| ? ? Ha _]; subst.
    unfold Tools._calculate_smurfing_score. cbn [map snd length].
    unfold Qmean, Qdiv. cbn [length Qsum fold_right].
    change (Tools.Qmin 1 (inject_Z (Z.of_nat 1) * / 3)) with (1 # 3)%Q.
    change (/ inject_Z (Z.of_nat 1))%Q with 1%Q.
    destruct (low_variance fl a) eqn:Ea; split.
    + intros _. right. constructor. exact Ea.
    + intros _. lra.
    + intros H. lra.
    + intros [H | H]; [cbn in H; lia |].
      inversion H as [? ? H1 | ? ? H1]; subst; [congruence | inversion H1].
  - inversion Hscores as [| ? ? Ha Hs']; subst.
    inversion Hs' as [| ? ? Hb _]; subst.
    unfold Tools._calculate_smurfing_score. cbn [map snd length].
    unfold Qmean, Qdiv. cbn [length Qsum fold_right].
    change (Tools.Qmin 1 (inject_Z (Z.of_nat 2) * / 3)) with (2 # 3)%Q.
    change (/ inject_Z (Z.of_nat 2))%Q with (1 # 2)%Q.
    destruct (low_variance fl a) eqn:Ea, (low_variance fl b) eqn:Eb; split;
      try (intros _; lra); try (intros H; lra).
    + intros _. right. constructor. exact Ea.
    + intros _. right. constructor. exact Ea.
    + intros _. right. apply Exists_cons_tl. constructor. exact Eb.
    + intros [H | H]; [cbn in H; lia |].
      inversion H as [? ? H1 | ? ? H1]; subst; [congruence |].
      inversion H1 as [? ? H2 | ? ? H2]; subst; [congruence | inversion H2].
  - split; [intros _; left; cbn; lia |]. intros _.
    set (windows := a :: b :: c :: rest) in *.
    unfold Tools._calculate_smurfing_score.
    assert (Hne : map (fun group => (group, Tools._calculate_coordination_score fl group))
                    windows <> []) by discriminate.
    destruct (map (fun group => (group, Tools._calculate_coordination_score fl group))
                windows) as [| w ws] eqn:Emap; [contradiction |].
    rewrite <- Emap. clear Hne.
    assert (Hmean : (0.7 <= Qmean
                              (map snd
                                 (map (fun group =>
                                         (group, Tools._calculate_coordination_score fl group))
                                    windows)))%Q).
    { apply mean_lower; [discriminate |].
      rewrite map_map. cbn [snd]. apply Forall_map.
      eapply Forall_impl; [exact Hscores |]. intros group Hg. cbn beta. rewrite Hg.
      destruct (low_variance fl group); lra. }
    rewrite length_map.
    assert (Hg : (1 <= inject_Z (Z.of_nat (length windows)) / 3)%Q).
    { apply Qle_shift_div_l; [lra |].
      assert ((3 <= inject_Z (Z.of_nat (length windows)))%Q)
        by (change 3%Q with (inject_Z 3); rewrite <- Zle_Qle; cbn; lia).
      lra. }
    destruct (Qmin_cases 1 (inject_Z (Z.of_nat (length windows)) / 3))
      as [[Hm _] | [Hm Hlt]]; rewrite Hm; lra.
Qed.

(** X24: when the smurfing tool reports a detection.  A time window is
    coordinated exactly when it holds at least 3 transactions that all name
    the same counterparty; and smurfing is detected exactly when there are at
    least three coordinated windows, or at least one coordinated window for
    whose amounts numpy.var returns a variance below 1000.  One or two
    coordinated windows with widely varying amounts are not detected.  This
    holds however the variance and the time differences are rounded. *)
Theorem smurfing_detection_criterion (fl : Float.Arith)
    (fromisoformat : string -> option Z)
    (transaction_data : Tools.Tx) (related_transactions : list Tools.Tx)
    (time_window_hours : Z) :
  let windows :=
    List.filter coordinated_window
      (Tools._group_by_time_window fl fromisoformat related_transactions
         time_window_hours) in
  Tools.coordinated_groups
    (Tools.detect_smurfing_patterns fl fromisoformat transaction_data
       related_transactions time_window_hours)
    = map (fun group => (group, Tools._calculate_coordination_score fl group))
        windows /\
  (Tools.detected
     (Tools.detect_smurfing_patterns fl fromisoformat transaction_data
        related_transactions time_window_hours) = true
   <-> (3 <= length windows)%nat \/
       Exists (fun group => low_variance fl group = true) windows).
Proof.
  intros windows. unfold Tools.detect_smurfing_patterns.
  cbn [Tools.coordinated_groups Tools.detected].
  rewrite coordinated_windows. fold windows.
  split; [reflexivity |].
  apply smurfing_score_detects.
  subst windows. apply List.Forall_forall. intros group Hin.
  apply filter_In in Hin. exact (proj2 Hin).
Qed.

(** ** The alerts of a run *)

Lemma closed_alerts_consistent (alerts : list string) (flag : bool) :
  bool_decide (NoDup alerts) = true ->
  forallb (fun alert => PyStr.mem alert rule_alerts) alerts = true ->
  flag = PyStr.mem "STRUCTURING_PATTERN" alerts ->
  NoDup alerts /\
  (forall alert, In alert alerts -> In alert rule_alerts) /\
  (flag = true <-> In "STRUCTURING_PATTERN"%string alerts).
Proof.
  intros Hnd Hall ->. apply bool_decide_eq_true in Hnd. split; [exact Hnd |].
  split.
  - intros alert Hin. rewrite forallb_forall in Hall. apply mem_In, Hall, Hin.
  - split; [apply mem_In |]. intros Hin. unfold PyStr.mem.
    apply existsb_exists. exists "STRUCTURING_PATTERN"%string. split; [exact Hin |].
    apply String.eqb_refl.
Qed.

Lemma stage_keeps_alerts (env : Env) (st : Stage.t) (s : AMLState) :
  alerts_on_entry st s ->
  alerts_consistent (workflow_nodes env st s) /\
  forall st', In (Node st') (successors st) ->
              alerts_on_entry st' (workflow_nodes env st s).
Proof.
  intros Hpre.
  assert (Hempty : forall s', alerts s' = [] -> structuring_detected s' = false ->
                              alerts_consistent s').
  { intros s' Ha Hs. unfold alerts_consistent. rewrite Ha, Hs.
    apply closed_alerts_consistent; reflexivity. }
  assert (Hkeep : alerts (workflow_nodes env st s) = alerts s /\
                  structuring_detected (workflow_nodes env st s)
                  = structuring_detected s ->
                  alerts_consistent s ->
                  alerts_consistent (workflow_nodes env st s)).
  { intros [Ha Hs] Hc. unfold alerts_consistent. rewrite Ha, Hs. exact Hc. }
  destruct st; cbn [alerts_on_entry] in Hpre.
  - (* initial_screening *)
    destruct Hpre as [Ha Hs]. split; [apply Hempty; assumption |].
    intros st' Hin. cbn in Hin.
    repeat (destruct Hin as [[= <-] | Hin];
            [first [split; assumption | apply Hempty; assumption] |]). destruct Hin.
  - (* crypto_analysis *)
    destruct Hpre as [Ha Hs].
    assert (alerts (workflow_nodes env Stage.crypto_analysis s) = [] /\
            structuring_detected (workflow_nodes env Stage.crypto_analysis s) = false)
      as [Ha' Hs'].
    { cbn [workflow_nodes]. unfold async_crypto_risk_analysis.
      match goal with |- context [if ?c then _ else _] => destruct c end;
        split; assumption. }
    split; [apply Hempty; assumption |].
    intros st' Hin. cbn in Hin.
    repeat (destruct Hin as [[= <-] | Hin];
            [first [split; assumption | apply Hempty; assumption] |]). destruct Hin.
  - (* geo_analysis *)
    destruct Hpre as [Ha Hs]. split; [apply Hempty; assumption |].
    intros st' Hin. cbn in Hin.
    repeat (destruct Hin as [[= <-] | Hin];
            [first [split; assumption | apply Hempty; assumption] |]). destruct Hin.
  - (* document_check *)
    destruct Hpre as [Ha Hs].
    assert ((alerts (workflow_nodes env Stage.document_check s) = [] \/
             alerts (workflow_nodes env Stage.document_check s)
             = ["MISSING_DOCUMENTS"%string]) /\
            structuring_detected (workflow_nodes env Stage.document_check s) = false)
      as [Ha' Hs'].
    { cbn [workflow_nodes]. unfold async_document_analysis.
      destruct (documents (update_path s "document_analysis")).
      - split; [right; cbn; rewrite Ha; reflexivity | exact Hs].
      - split; [left; exact Ha | exact Hs]. }
    split.
    { unfold alerts_consistent. rewrite Hs'.
      destruct Ha' as [-> | ->]; apply closed_alerts_consistent; reflexivity. }
    intros st' Hin. cbn in Hin.
    repeat (destruct Hin as [[= <-] | Hin];
            [first [split; assumption | apply Hempty; assumption] |]). destruct Hin.
  - (* behavior_check *)
    destruct Hpre as [Ha Hs].
    assert (Hc : alerts_consistent (workflow_nodes env Stage.behavior_check s)).
    { cbn [workflow_nodes]. unfold async_behavioral_analysis, alerts_consistent.
      cbn [alerts structuring_detected set_structuring_detected set_llm_analysis
           set_risk_factors set_alerts].
      change (alerts (update_path s "behavior_analysis")) with (alerts s).
      unfold structuring_alerts.
      destruct Ha as [-> | ->];
        repeat match goal with
               | |- context [if ?c then _ else _] => destruct c
               end;
        apply closed_alerts_consistent; reflexivity. }
    split; [exact Hc |].
    intros st' Hin. cbn in Hin.
    repeat (destruct Hin as [[= <-] | Hin]; [exact Hc |]). destruct Hin.
  - (* sanctions_check *)
    split; [apply Hkeep; [split; reflexivity | exact Hpre] |].
    intros st' Hin. cbn in Hin.
    repeat (destruct Hin as [[= <-] | Hin];
            [apply (Hkeep (conj eq_refl eq_refl) Hpre) |]). destruct Hin.
  - (* pep_check *)
    split; [apply Hkeep; [split; reflexivity | exact Hpre] |].
    intros st' Hin. cbn in Hin.
    repeat (destruct Hin as [[= <-] | Hin];
            [apply (Hkeep (conj eq_refl eq_refl) Hpre) |]). destruct Hin.
  - (* edd *)
    split; [apply Hkeep; [split; reflexivity | exact Hpre] |].
    intros st' Hin. cbn in Hin.
    repeat (destruct Hin as [[= <-] | Hin];
            [apply (Hkeep (conj eq_refl eq_refl) Hpre) |]). destruct Hin.
  - (* score_risk *)
    split; [apply Hkeep; [split; reflexivity | exact Hpre] |].
    intros st' Hin. cbn in Hin.
    repeat (destruct Hin as [[= <-] | Hin];
            [apply (Hkeep (conj eq_refl eq_refl) Hpre) |]).
    destruct Hin as [Hin | Hin]; [discriminate Hin | destruct Hin].
  - (* generate_sar *)
    split; [apply Hkeep; [split; reflexivity | exact Hpre] |].
    intros st' Hin. cbn in Hin. destruct Hin as [Hin | Hin]; [discriminate Hin | destruct Hin].
  - (* human_review *)
    split; [apply Hkeep; [split; reflexivity | exact Hpre] |].
    intros st' Hin. cbn in Hin. destruct Hin as [Hin | Hin]; [discriminate Hin | destruct Hin].
Qed.

Lemma run_keeps_alerts (env : Env) (limit : nat) :
  forall (st : Stage.t) (s : AMLState) (trace : list Stage.t) (final : AMLState),
    invoke_from env limit st s = Some (trace, final) ->
    alerts_on_entry st s -> alerts_consistent final.
Proof.
  induction limit as [| limit IH]; intros st s trace final Hrun Hpre;
    [discriminate Hrun |].
  rewrite invoke_from_step in Hrun.
  destruct (stage_keeps_alerts env st s Hpre) as [Hc Hnext].
  destruct (next_target_in_successors st (workflow_nodes env st s)) as [t [Ht Hin]].
  rewrite Ht in Hrun. destruct t as [st' |].
  - destruct (invoke_from env limit st' (workflow_nodes env st s))
      as [[tr fin] |] eqn:Hrec; [| discriminate Hrun].
    injection Hrun as <- <-. exact (IH _ _ _ _ Hrec (Hnext st' Hin)).
  - injection Hrun as <- <-. exact Hc.
Qed.

(** X25: the alerts of a run.  In the final state of a run from the
    initial state the alerts are distinct and are among MISSING_DOCUMENTS,
    STRUCTURING_PATTERN and UNIFORM_TRANSACTIONS, so there are at most three
    and turning them into a set for the report drops none; and the
    structuring flag is set exactly when STRUCTURING_PATTERN is among them,
    so that pattern always counts twice in the score, as an alert and as the
    flag. *)
Theorem alerts_are_rule_alerts (env : Env) (unified_tx : Transaction)
    (customer : Customer) (raw : RawView) :
  exists trace final,
    invoke env (initial_state unified_tx customer raw) = Some (trace, final) /\
    NoDup (alerts final) /\
    (forall alert, In alert (alerts final) -> In alert rule_alerts) /\
    (length (alerts final) <= 3)%nat /\
    size (out_alerts (format_analysis_output final)) = length (alerts final) /\
    (structuring_detected final = true
     <-> In "STRUCTURING_PATTERN"%string (alerts final)).
Proof.
  set (s0 := initial_state unified_tx customer raw).
  destruct (invoke_from_runs env recursion_limit entry_point s0)
    as [trace [final [Hrun _]]]; [cbn; lia |].
  exists (entry_point :: trace), final. split; [exact Hrun |].
  assert (Hentry : alerts_on_entry entry_point s0) by (cbn; auto).
  destruct (run_keeps_alerts env _ _ _ _ _ Hrun Hentry) as (Hnd & Hsub & Hflag).
  split; [exact Hnd |]. split; [exact Hsub |].
  split.
  { change 3%nat with (length rule_alerts). apply submseteq_length.
    apply NoDup_submseteq; [exact Hnd |].
    intros alert Hin. apply list_elem_of_In, Hsub, list_elem_of_In, Hin. }
  split; [| exact Hflag].
  cbn [format_analysis_output out_alerts]. apply size_list_to_set. exact Hnd.
Qed.
